(** * DBoard: the aggregation and classification engine of
      [Scripts/prepare_dashboard_data.py], embedded in Rocq.

    Conventions of the embedding.
    - A Python [str] is the list of its Unicode code points ([pystr]); the
      literals of the source are written as UTF-8 text and decoded by [u].
    - [str.lower] and [str.upper] are written out for the Basic Latin and
      Cyrillic blocks, the alphabets of the warehouse names and article
      identifiers; other code points are left unchanged.
    - Money and quantities are exact integers ([Z]): what the code computes
      when every amount is a whole number.  Amounts with a fraction are
      binary64 floats in Python, rounded at every addition; [Binary64] has
      the warehouse accumulation over floats and shows where that matters.
    - A run of [prepare] returns its document or raises ([run]); an input
      file is given by its [file_state], and the object it holds has fields
      of the types the fetchers write.
    - A [dict] whose iteration order is observable is an association list in
      insertion order ([odict]); the per-warehouse [products] dict, of which
      only lookups and the sum of the values are used, is a [gmap].
    - What the Python runtime supplies per process (the salted [hash] of
      strings, the ISO date parsers) is a field of [runtime]; [CPython] gives
      the [hash] of a process whose seed is known. *)

From Stdlib Require Import ZArith NArith List String Ascii Bool Lia.
From Stdlib Require Import Permutation Sorted Floats.
From stdpp Require Import base option list gmap.
Import ListNotations.

Local Open Scope Z_scope.

(* ===================================================================== *)
(** ** Python strings *)
(* ===================================================================== *)

Definition pystr : Type := list N.

Module Utf8.

Local Open Scope N_scope.

Definition cont (b : N) : N := N.land b 63.

(** Decoder for well-formed UTF-8 (sequences of one to four bytes). *)
Fixpoint decode (bs : list N) : list N :=
  match bs with
  | [] => []
  | b0 :: t0 =>
    if b0 <? 128 then b0 :: decode t0
    else
      match t0 with
      | [] => [b0]
      | b1 :: t1 =>
        if b0 <? 224 then
          (N.shiftl (N.land b0 31) 6 + cont b1) :: decode t1
        else
          match t1 with
          | [] => [b0; b1]
          | b2 :: t2 =>
            if b0 <? 240 then
              (N.shiftl (N.land b0 15) 12 + N.shiftl (cont b1) 6 + cont b2)
                :: decode t2
            else
              match t2 with
              | [] => [b0; b1; b2]
              | b3 :: t3 =>
                (N.shiftl (N.land b0 7) 18 + N.shiftl (cont b1) 12
                 + N.shiftl (cont b2) 6 + cont b3) :: decode t3
              end
          end
      end
  end.

End Utf8.

(** [u "text"] is the Python string written [text] in the source. *)
Definition u (s : string) : pystr :=
  Utf8.decode (map N_of_ascii (list_ascii_of_string s)).
Arguments u s%_string.

(** [a == b] on strings *)
Fixpoint pystr_eqb (a b : pystr) : bool :=
  match a, b with
  | [], [] => true
  | x :: a', y :: b' => (x =? y)%N && pystr_eqb a' b'
  | _, _ => false
  end.

Definition in_range (lo hi c : N) : bool := ((lo <=? c) && (c <=? hi))%N.

(** [str.lower], per code point. *)
Definition lower_cp (c : N) : N :=
  if in_range 65 90 c then (c + 32)%N            (* A-Z *)
  else if in_range 1040 1071 c then (c + 32)%N   (* U+0410 - U+042F *)
  else if in_range 1024 1039 c then (c + 80)%N   (* U+0400 - U+040F *)
  else c.

(** [str.upper], per code point. *)
Definition upper_cp (c : N) : N :=
  if in_range 97 122 c then (c - 32)%N           (* a-z *)
  else if in_range 1072 1103 c then (c - 32)%N   (* U+0430 - U+044F *)
  else if in_range 1104 1119 c then (c - 80)%N   (* U+0450 - U+045F *)
  else c.

Definition lower (s : pystr) : pystr := map lower_cp s.
Definition upper (s : pystr) : pystr := map upper_cp s.

(** [s.startswith(p)] *)
Fixpoint startswith (p s : pystr) : bool :=
  match p, s with
  | [], _ => true
  | _ :: _, [] => false
  | a :: p', b :: s' => (a =? b)%N && startswith p' s'
  end.

(** [kw in s]: [kw] occurs in [s] as a contiguous run of code points. *)
Fixpoint contains (kw s : pystr) : bool :=
  startswith kw s ||
  match s with
  | [] => false
  | _ :: t => contains kw t
  end.

(* ===================================================================== *)
(** ** Classifier: cluster tables and [get_warehouse_cluster] *)
(* ===================================================================== *)

Inductive mp_type := wb | ozon.

(** A cluster table: cluster names with their keywords, in declared order. *)
Definition cluster_table : Type := list (pystr * list pystr).

Definition WB_CLUSTERS : cluster_table :=
  [ (u "Центральный",
     [ u "пушкино"; u "вёшки"; u "вешки"; u "иваново"; u "подольск";
       u "радумля"; u "обухово"; u "чашниково"; u "воронеж"; u "истра";
       u "коледино"; u "домодедово"; u "никольское"; u "тверь"; u "голицыно";
       u "софьино"; u "ярославль"; u "цифровой"; u "рязань"; u "тюшевское";
       u "сабурово"; u "владимир"; u "тула"; u "котовск"; u "электросталь";
       u "белая дача"; u "щербинка"; u "чехов" ]);
    (u "Северо-Западный",
     [ u "вологда"; u "шушары"; u "красный бор"; u "санкт-петербург";
       u "спб"; u "уткина" ]);
    (u "Приволжский",
     [ u "ижевск"; u "кузнецк"; u "пенза"; u "самара"; u "новосемейкино";
       u "сарапул"; u "казань" ]);
    (u "Уральский",
     [ u "нижний тагил"; u "челябинск"; u "екатеринбург" ]);
    (u "Южный + Северо-Кавказский",
     [ u "крыловская"; u "краснодар"; u "волгоград"; u "невинномысск";
       u "тихорецкая" ]);
    (u "Дальневосточный + Сибирский",
     [ u "хабаровск"; u "барнаул"; u "владивосток"; u "юрга";
       u "новосибирск" ]);
    (u "Казахстан", [ u "байсерке"; u "атакент"; u "актобе"; u "астана" ]);
    (u "Беларусь", [ u "минск"; u "брест"; u "гродно" ]);
    (u "Узбекистан", [ u "ташкент" ]);
    (u "Армения", [ u "ереван" ]);
    (u "Грузия", [ u "тбилиси" ]) ].

Definition OZON_CLUSTERS : cluster_table :=
  [ (u "Москва, МО и Дальние регионы",
     [ u "хоругвино"; u "ногинск"; u "пушкино"; u "софьино"; u "радумля";
       u "павло"; u "слободское"; u "петровское"; u "жуковский";
       u "домодедово"; u "гривно" ]);
    (u "Санкт-Петербург и СЗО",
     [ u "колпино"; u "шушары"; u "волхонка"; u "санкт-петербург"; u "спб";
       u "бугры" ]);
    (u "Казань", [ u "казань"; u "кзн"; u "столбище"; u "нижний новгород" ]);
    (u "Самара", [ u "самара" ]);
    (u "Уфа", [ u "уфа" ]);
    (u "Оренбург", [ u "оренбург" ]);
    (u "Краснодар", [ u "адыгейск"; u "южный обход"; u "новороссийск" ]);
    (u "Ростов", [ u "ростов" ]);
    (u "Воронеж", [ u "воронеж" ]);
    (u "Саратов", [ u "волгоград"; u "саратов" ]);
    (u "Невинномысск", [ u "невинномысск" ]);
    (u "Махачкала", [ u "махачкала" ]);
    (u "Красноярск", [ u "красноярск" ]);
    (u "Новосибирск", [ u "новосибирск" ]);
    (u "Омск", [ u "омск" ]);
    (u "Екатеринбург", [ u "екатеринбург" ]);
    (u "Пермь", [ u "пермь" ]);
    (u "Тюмень", [ u "тюмень" ]);
    (u "Дальний Восток", [ u "хабаровск" ]);
    (u "Тверь", [ u "тверь" ]);
    (u "Ярославль", [ u "ярославль" ]);
    (u "Калининград", [ u "калининград" ]);
    (u "Беларусь", [ u "минск" ]);
    (u "Астана", [ u "астана" ]);
    (u "Алматы", [ u "алматы" ]);
    (u "Армения", [ u "ереван" ]) ].

Definition clusters_of (mp : mp_type) : cluster_table :=
  match mp with wb => WB_CLUSTERS | ozon => OZON_CLUSTERS end.

(** The fallback cluster of the source, the literal 'Прочие'. *)
Definition fallback_cluster : pystr := u "Прочие".

(** The inner loop: some keyword of the list occurs in [name]. *)
Fixpoint scan_keywords (name : pystr) (keywords : list pystr) : bool :=
  match keywords with
  | [] => false
  | keyword :: rest =>
    if contains keyword name then true else scan_keywords name rest
  end.

(** The outer loop: the first cluster with a matching keyword. *)
Fixpoint scan_clusters (name : pystr) (clusters : cluster_table)
  : option pystr :=
  match clusters with
  | [] => None
  | (cluster_name, keywords) :: rest =>
    if scan_keywords name keywords then Some cluster_name
    else scan_clusters name rest
  end.

Definition get_warehouse_cluster (warehouse_name : pystr) (mp : mp_type)
  : pystr :=
  let name := lower warehouse_name in
  match scan_clusters name (clusters_of mp) with
  | Some cluster_name => cluster_name
  | None => fallback_cluster
  end.

(* ===================================================================== *)
(** ** What the Python runtime supplies *)
(* ===================================================================== *)

(** A calendar date is its proleptic Gregorian ordinal ([date.toordinal()]);
    [today - timedelta(days=n)] is then a subtraction and dates compare as
    their ordinals do. *)
Definition date : Type := Z.

Definition is_leap (year : Z) : bool :=
  (year mod 4 =? 0) && (negb (year mod 100 =? 0) || (year mod 400 =? 0)).

Definition days_before_year (year : Z) : Z :=
  let y := year - 1 in y * 365 + y / 4 - y / 100 + y / 400.

Definition DAYS_BEFORE_MONTH : list Z :=
  [0; 31; 59; 90; 120; 151; 181; 212; 243; 273; 304; 334].

Definition days_before_month (year month : Z) : Z :=
  nth (Z.to_nat (month - 1)) DAYS_BEFORE_MONTH 0
  + (if (2 <? month) && is_leap year then 1 else 0).

(** [date(year, month, day)] *)
Definition ymd (year month day : Z) : date :=
  days_before_year year + days_before_month year month + day.

(** A parsed [datetime]: its calendar date ([dt.date()]) and the time of day. *)
Record datetime := { dt_date : date; dt_seconds : Z }.

(** The parts of a run that come from the interpreter: the built-in [hash]
    on strings, which CPython salts with a secret drawn at process start,
    the two date parsers of the standard library, and the time of the run
    as [prepare] prints it, [datetime.now().strftime('%d.%m.%Y %H:%M')]. *)
Record runtime := {
  hash : pystr -> Z;
  fromisoformat : pystr -> option datetime;
  strptime_ymd : pystr -> option datetime;
  now_stamp : pystr
}.

(** [s.replace('Z', '+00:00')] *)
Definition replace_Z (s : pystr) : pystr :=
  flat_map (fun c => if (c =? 90)%N then u "+00:00" else [c]) s.

Definition parse_date (rt : runtime) (date_str : option pystr)
  : option datetime :=
  match date_str with
  | None => None
  | Some [] => None
  | Some s =>
    match fromisoformat rt (replace_Z s) with
    | Some dt => Some dt
    | None => strptime_ymd rt s
    end
  end.

(** [a or b] on optional strings: the first that is present and non-empty. *)
Definition or_str (a b : option pystr) : option pystr :=
  match a with
  | Some (_ :: _) => a
  | _ => b
  end.

(* ===================================================================== *)
(** ** The string hash of CPython *)
(* ===================================================================== *)

(** CPython 3.11 hashes a [str] with SipHash-1-3 over the bytes of its
    internal representation, keyed by a secret drawn when the process
    starts: from the operating system, or from [PYTHONHASHSEED] when it is
    set. This is the [hash] of a run whose seed is known. *)
Module CPython.

Definition w64 (x : Z) : Z := x mod 2 ^ 64.

Definition rotl (x b : Z) : Z :=
  Z.lor (w64 (Z.shiftl x b)) (Z.shiftr x (64 - b)).

Definition state : Type := Z * Z * Z * Z.

Definition half_round (a b c d s t : Z) : state :=
  let a := w64 (a + b) in
  let c := w64 (c + d) in
  let b := Z.lxor (rotl b s) a in
  let d := Z.lxor (rotl d t) c in
  let a := rotl a 32 in
  (a, b, c, d).

Definition single_round (v : state) : state :=
  let '(v0, v1, v2, v3) := v in
  let '(v0, v1, v2, v3) := half_round v0 v1 v2 v3 13 16 in
  let '(v2, v1, v0, v3) := half_round v2 v1 v0 v3 17 21 in
  (v0, v1, v2, v3).

(** A little-endian word. *)
Fixpoint le_word (bs : list Z) : Z :=
  match bs with
  | [] => 0
  | b :: t => b + 256 * le_word t
  end.

(** The loop over the 8-byte blocks; returns the state and the tail. *)
Fixpoint compress (v : state) (bs : list Z) {struct bs} : state * list Z :=
  match bs with
  | b0 :: b1 :: b2 :: b3 :: b4 :: b5 :: b6 :: b7 :: rest =>
    let mi := le_word [b0; b1; b2; b3; b4; b5; b6; b7] in
    let '(v0, v1, v2, v3) := v in
    let '(v0, v1, v2, v3) := single_round (v0, v1, v2, Z.lxor v3 mi) in
    compress (Z.lxor v0 mi, v1, v2, v3) rest
  | _ => (v, bs)
  end.

Definition siphash13 (k0 k1 : Z) (src : list Z) : Z :=
  let b := w64 (Z.shiftl (Z.of_nat (length src)) 56) in
  let v0 := Z.lxor k0 0x736f6d6570736575 in
  let v1 := Z.lxor k1 0x646f72616e646f6d in
  let v2 := Z.lxor k0 0x6c7967656e657261 in
  let v3 := Z.lxor k1 0x7465646279746573 in
  let '(v, tail) := compress (v0, v1, v2, v3) src in
  let b := Z.lor b (le_word tail) in
  let '(v0, v1, v2, v3) := v in
  let '(v0, v1, v2, v3) := single_round (v0, v1, v2, Z.lxor v3 b) in
  let v0 := Z.lxor v0 b in
  let v2 := Z.lxor v2 0xff in
  let '(v0, v1, v2, v3) :=
    single_round (single_round (single_round (v0, v1, v2, v3))) in
  Z.lxor (Z.lxor v0 v1) (Z.lxor v2 v3).

(** The bytes of a string: 1, 2 or 4 per code point, by its widest one. *)
Definition kind (s : pystr) : nat :=
  let widest := fold_right N.max 0%N s in
  if (widest <? 256)%N then 1%nat
  else if (widest <? 65536)%N then 2%nat else 4%nat.

Fixpoint le_bytes (n : nat) (x : Z) : list Z :=
  match n with
  | O => []
  | S n' => x mod 256 :: le_bytes n' (x / 256)
  end.

Definition data_bytes (s : pystr) : list Z :=
  flat_map (fun c => le_bytes (kind s) (Z.of_N c)) s.

(** [Py_hash_t] is signed. *)
Definition signed64 (x : Z) : Z := if x <? 2 ^ 63 then x else x - 2 ^ 64.

Definition str_hash (k0 k1 : Z) (s : pystr) : Z :=
  match s with
  | [] => 0
  | _ =>
    let x := signed64 (siphash13 k0 k1 (data_bytes s)) in
    if x =? -1 then -2 else x
  end.

(** The secret of a run started with [PYTHONHASHSEED=seed]: zero for seed
    0, else the bytes of a linear congruential generator. *)
Fixpoint lcg_urandom (x : Z) (size : nat) : list Z :=
  match size with
  | O => []
  | S n =>
    let x := (x * 214013 + 2531011) mod 2 ^ 32 in
    Z.shiftr x 16 mod 256 :: lcg_urandom x n
  end.

Definition seeded_hash (seed : Z) : pystr -> Z :=
  if seed =? 0 then str_hash 0 0
  else
    let secret := lcg_urandom seed 24 in
    str_hash (le_word (take 8 secret)) (le_word (take 8 (drop 8 secret))).

End CPython.

(* ===================================================================== *)
(** ** Colorizer: [get_article_color] *)
(* ===================================================================== *)

Definition color_map : list (pystr * pystr) :=
  [ (u "SF0125", u "#614701");
    (u "SF0250", u "#80651b");
    (u "SF0500", u "#b38c24");
    (u "SF2500", u "#b38c24");
    (u "SM0250", u "#78011b");
    (u "SM0500", u "#78011b");
    (u "FSF300", u "#015054") ].

Definition fallback_colors : list pystr :=
  [ u "#6366f1"; u "#14b8a6"; u "#f97316"; u "#ef4444"; u "#22c55e" ].

Fixpoint assoc {V : Type} (k : pystr) (d : list (pystr * V)) : option V :=
  match d with
  | [] => None
  | (k', v) :: t => if pystr_eqb k k' then Some v else assoc k t
  end.

Definition get_article_color (rt : runtime) (article : pystr) : pystr :=
  let article_upper := upper article in
  match assoc article_upper color_map with
  | Some color => color
  | None =>
    if startswith (u "FSF") article_upper then u "#015054"
    else if startswith (u "SF") article_upper then u "#80651b"
    else if startswith (u "SM") article_upper then u "#78011b"
    else nth (Z.to_nat (hash rt article mod Z.of_nat (length fallback_colors)))
             fallback_colors []
  end.

(* ===================================================================== *)
(** ** Dicts in insertion order, and [sorted] *)
(* ===================================================================== *)

Definition odict (V : Type) : Type := list (pystr * V).

Definition keys {V : Type} (d : odict V) : list pystr := map fst d.
Definition values {V : Type} (d : odict V) : list V := map snd d.

(** [if k not in d: d[k] = init] followed by an update of [d[k]] in place;
    a new key goes to the end. *)
Fixpoint odict_update {V : Type} (k : pystr) (init : V) (f : V -> V)
  (d : odict V) : odict V :=
  match d with
  | [] => [(k, f init)]
  | (k', v) :: t =>
    if pystr_eqb k k' then (k', f v) :: t
    else (k', v) :: odict_update k init f t
  end.

(** Insertion of [x] in front of the first element that does not have to
    come strictly before it. *)
Fixpoint insert_sorted {A : Type} (before : A -> A -> bool) (x : A)
  (l : list A) : list A :=
  match l with
  | [] => [x]
  | y :: t => if before y x then y :: insert_sorted before x t else x :: y :: t
  end.

(** Python's [sorted] is stable: elements that compare equal keep the order
    of the input. *)
Definition py_sorted {A : Type} (before : A -> A -> bool) (l : list A)
  : list A :=
  fold_right (insert_sorted before) [] l.

(** [sorted(l, key=key, reverse=True)] *)
Definition sorted_desc {A : Type} (key : A -> Z) (l : list A) : list A :=
  py_sorted (fun y x => key x <? key y) l.

(** [a < b] on strings: lexicographic on code points. *)
Fixpoint pystr_ltb (a b : pystr) : bool :=
  match a, b with
  | _, [] => false
  | [], _ :: _ => true
  | x :: a', y :: b' => (x <? y)%N || ((x =? y)%N && pystr_ltb a' b')
  end.

(** [sorted(l)] on strings *)
Definition sorted_str (l : list pystr) : list pystr := py_sorted pystr_ltb l.

Definition sumZ (l : list Z) : Z := fold_right Z.add 0 l.

(* ===================================================================== *)
(** ** Raw records *)
(* ===================================================================== *)

(** A raw record is a JSON object read through [.get]: a key the code reads
    is an optional field, [None] when the key is absent. *)

(** One line of an Ozon posting ([products] and [financial_data.products]). *)
Record product_line := {
  offer_id : option pystr;
  price : option Z;
  quantity : option Z
}.

Record financial := {
  fin_products : option (list product_line);
  cluster_to : option pystr
}.

Record analytics := {
  warehouse_name : option pystr;
  city : option pystr
}.

(** An order: a WB order line or an Ozon posting, by the keys present. *)
Record order := {
  date_ : option pystr;             (* 'date' *)
  dateFull : option pystr;
  created_at : option pystr;
  priceWithDisc : option Z;         (* absent or null: None *)
  warehouseName : option pystr;
  regionName : option pystr;
  supplierArticle : option pystr;
  financial_data : option financial;
  analytics_data : option analytics;
  products : option (list product_line)
}.

Definition Unknown : pystr := u "Unknown".

(* ===================================================================== *)
(** ** Aggregator: [aggregate_sales_data] *)
(* ===================================================================== *)

(** [{'name' | 'article': .., 'count': .., 'revenue': ..}] *)
Record entry := {
  e_name : pystr;
  e_count : Z;
  e_revenue : Z
}.

(** A bucket while it accumulates: its breakdown is still a dict. *)
Record acc_bucket := {
  a_name : pystr;
  a_count : Z;
  a_revenue : Z;
  a_breakdown : odict entry
}.

(** A bucket of the result: its breakdown is a sorted list. *)
Record bucket := {
  name : pystr;
  count : Z;
  revenue : Z;
  breakdown : list entry
}.

Record agg_state := {
  st_total_revenue : Z;
  st_orders_count : Z;
  st_by_warehouse : odict acc_bucket;
  st_by_region : odict entry;
  st_by_product : odict acc_bucket
}.

Record agg_result := {
  r_revenue : Z;
  r_orders_count : Z;
  sales_by_warehouse : list bucket;
  sales_by_region : list entry;
  sales_by_product : list bucket
}.

Definition new_entry (k : pystr) : entry :=
  {| e_name := k; e_count := 0; e_revenue := 0 |}.

Definition new_bucket (k : pystr) : acc_bucket :=
  {| a_name := k; a_count := 0; a_revenue := 0; a_breakdown := [] |}.

(** [e['count'] += n; e['revenue'] += amount] *)
Definition entry_add (n amount : Z) (e : entry) : entry :=
  {| e_name := e_name e;
     e_count := e_count e + n;
     e_revenue := e_revenue e + amount |}.

(** The same on a bucket, the breakdown left as it is. *)
Definition bucket_add (n amount : Z) (b : acc_bucket) : acc_bucket :=
  {| a_name := a_name b;
     a_count := a_count b + n;
     a_revenue := a_revenue b + amount;
     a_breakdown := a_breakdown b |}.

(** The same, and the entry [sub] of the breakdown (created at zero when
    new) receives the same amounts. *)
Definition bucket_add_with (sub : pystr) (n amount : Z) (b : acc_bucket)
  : acc_bucket :=
  {| a_name := a_name b;
     a_count := a_count b + n;
     a_revenue := a_revenue b + amount;
     a_breakdown :=
       odict_update sub (new_entry sub) (entry_add n amount) (a_breakdown b) |}.

(** The order value of an Ozon posting: the sum of price times quantity over
    [financial_data.products]. *)
Definition ozon_price (fin : option financial) : Z :=
  fold_left
    (fun acc prod => acc + default 0 (price prod) * default 1 (quantity prod))
    (default [] (fin ≫= fin_products)) 0.

(** [cluster_to if cluster_to else city], then 'Unknown' when empty. *)
Definition ozon_region (fin : option financial) (an : option analytics)
  : pystr :=
  let cluster_to_ := default [] (fin ≫= cluster_to) in
  let city_ := default [] (an ≫= city) in
  let region := match cluster_to_ with [] => city_ | _ => cluster_to_ end in
  match region with [] => Unknown | _ => region end.

(** The product loop of the Ozon branch, for one line of [item.products]. *)
Definition ozon_product_step (wh_name : pystr) (by_product : odict acc_bucket)
  (prod : product_line) : odict acc_bucket :=
  let p_article := default Unknown (offer_id prod) in
  let p_price := default 0 (price prod) in
  let p_qty := default 1 (quantity prod) in
  let p_revenue := p_price * p_qty in
  odict_update p_article (new_bucket p_article)
    (bucket_add_with wh_name p_qty p_revenue) by_product.

(** The body of the loop over [sales_list]. *)
Definition agg_step (mp : mp_type) (st : agg_state) (item : order)
  : agg_state :=
  match mp with
  | wb =>
    let price := default 0 (priceWithDisc item) in
    let wh_name := default Unknown (warehouseName item) in
    let region := default Unknown (regionName item) in
    let article := default Unknown (supplierArticle item) in
    {| st_total_revenue := st_total_revenue st + price;
       st_orders_count := st_orders_count st + 1;
       st_by_warehouse :=
         odict_update wh_name (new_bucket wh_name)
           (bucket_add_with article 1 price) (st_by_warehouse st);
       st_by_region :=
         odict_update region (new_entry region) (entry_add 1 price)
           (st_by_region st);
       st_by_product :=
         odict_update article (new_bucket article)
           (bucket_add_with wh_name 1 price) (st_by_product st) |}
  | ozon =>
    let financial := financial_data item in
    let analytics := analytics_data item in
    let price := ozon_price financial in
    let wh_name := default Unknown (analytics ≫= warehouse_name) in
    let region := ozon_region financial analytics in
    {| st_total_revenue := st_total_revenue st + price;
       st_orders_count := st_orders_count st + 1;
       st_by_warehouse :=
         odict_update wh_name (new_bucket wh_name) (bucket_add 1 price)
           (st_by_warehouse st);
       st_by_region :=
         odict_update region (new_entry region) (entry_add 1 price)
           (st_by_region st);
       st_by_product :=
         fold_left (ozon_product_step wh_name) (default [] (products item))
           (st_by_product st) |}
  end.

Definition agg_init : agg_state :=
  {| st_total_revenue := 0; st_orders_count := 0;
     st_by_warehouse := []; st_by_region := []; st_by_product := [] |}.

Definition agg_loop (mp : mp_type) (sales_list : list order) : agg_state :=
  fold_left (agg_step mp) sales_list agg_init.

(** A bucket with its breakdown flattened to a list sorted by [key]. *)
Definition flatten (key : entry -> Z) (b : acc_bucket) : bucket :=
  {| name := a_name b; count := a_count b; revenue := a_revenue b;
     breakdown := sorted_desc key (values (a_breakdown b)) |}.

Definition aggregate_sales_data (sales_list : list order) (mp : mp_type)
  : agg_result :=
  let st := agg_loop mp sales_list in
  let sorted_warehouses :=
    take 15 (sorted_desc a_revenue (values (st_by_warehouse st))) in
  let sorted_regions :=
    take 15 (sorted_desc e_revenue (values (st_by_region st))) in
  let sorted_products :=
    sorted_desc a_revenue (values (st_by_product st)) in
  {| r_revenue := st_total_revenue st;
     r_orders_count := st_orders_count st;
     sales_by_warehouse := map (flatten e_count) sorted_warehouses;
     sales_by_region := sorted_regions;
     sales_by_product := map (flatten e_revenue) sorted_products |}.

(* ===================================================================== *)
(** ** Aggregator: the amounts as floats *)
(* ===================================================================== *)

(** The amounts above are exact integers, which is what the code computes
    when every price is a whole number.  A price with a fraction is read
    from JSON as a binary64 float, and every [+=] then rounds.  This is the
    WB branch of the loop of [aggregate_sales_data] once more, for the
    warehouse buckets and their product breakdown, with the amounts as
    floats ([0 + x] is [x] for the integer 0 that the code starts from). *)
Module Binary64.

Record order := {
  priceWithDisc : option float;
  warehouseName : option pystr;
  supplierArticle : option pystr
}.

Record entry := {
  e_name : pystr;
  e_count : Z;
  e_revenue : float
}.

Record acc_bucket := {
  a_name : pystr;
  a_count : Z;
  a_revenue : float;
  a_breakdown : odict entry
}.

Record bucket := {
  name : pystr;
  count : Z;
  revenue : float;
  breakdown : list entry
}.

(** The warehouse part of the body of the loop over [sales_list]. *)
Definition warehouse_step (by_warehouse : odict acc_bucket) (item : order)
  : odict acc_bucket :=
  let price := default 0%float (priceWithDisc item) in
  let wh_name := default Unknown (warehouseName item) in
  let article := default Unknown (supplierArticle item) in
  odict_update wh_name
    {| a_name := wh_name; a_count := 0; a_revenue := 0; a_breakdown := [] |}
    (fun b =>
       {| a_name := a_name b;
          a_count := a_count b + 1;
          a_revenue := (a_revenue b + price)%float;
          a_breakdown :=
            odict_update article
              {| e_name := article; e_count := 0; e_revenue := 0 |}
              (fun e => {| e_name := e_name e;
                           e_count := e_count e + 1;
                           e_revenue := (e_revenue e + price)%float |})
              (a_breakdown b) |})
    by_warehouse.

(** [sales_by_warehouse] of the result: sorted by revenue, cut to 15, each
    breakdown sorted by count. *)
Definition sales_by_warehouse (sales_list : list order) : list bucket :=
  let by_warehouse := fold_left warehouse_step sales_list [] in
  let sorted_warehouses :=
    take 15
      (py_sorted (fun y x => (a_revenue x <? a_revenue y)%float)
         (values by_warehouse)) in
  map (fun wh =>
         {| name := a_name wh; count := a_count wh; revenue := a_revenue wh;
            breakdown := sorted_desc e_count (values (a_breakdown wh)) |})
    sorted_warehouses.

(** [sum] of floats, from the left.  (For two terms every order of
    summation gives the same float.) *)
Definition fsum (l : list float) : float :=
  fold_left (fun acc x => (acc + x)%float) l 0%float.

End Binary64.

(* ===================================================================== *)
(** ** PeriodFilter: [periods_config] and the window test *)
(* ===================================================================== *)

Record period := {
  key : pystr;
  days : Z;
  exact_day : bool;      (* [p.get('exact_day')]: false when absent *)
  p_label : pystr
}.

Definition periods_config : list period :=
  [ {| key := u "today"; days := 0; exact_day := false;
       p_label := u "Сегодня" |};
    {| key := u "yesterday"; days := 1; exact_day := true;
       p_label := u "Вчера" |};
    {| key := u "days_3"; days := 2; exact_day := false;
       p_label := u "3 дня" |};
    {| key := u "days_7"; days := 6; exact_day := false;
       p_label := u "7 дней" |};
    {| key := u "days_30"; days := 29; exact_day := false;
       p_label := u "30 дней" |} ].

(** The test applied to the calendar date [d] of a record. *)
Definition in_window (today : date) (p : period) (d : date) : bool :=
  if exact_day p then
    let target_day := today - days p in d =? target_day
  else
    let start_day := today - days p in start_day <=? d.

(** The filtering loop: records whose timestamp does not parse are skipped
    ([continue]), the others are kept, in input order, when their date
    passes the test. *)
Definition filter_period {A : Type} (rt : runtime) (today : date) (p : period)
  (date_field : A -> option pystr) (items : list A) : list A :=
  List.filter
    (fun item =>
       match parse_date rt (date_field item) with
       | None => false
       | Some dt => in_window today p (dt_date dt)
       end)
    items.

(* ===================================================================== *)
(** ** ChartDatasetBuilder *)
(* ===================================================================== *)

(** One element of [stocks_warehouse_products]. *)
Record stock_wh := {
  wh_name : pystr;
  wh_products : gmap pystr Z
}.

Record cluster_info := {
  ci_name : pystr;
  start_index : Z;
  warehouse_count : Z;
  total_stock : Z;
  end_index : Z
}.

Record dataset := {
  label : pystr;
  data : list Z;
  backgroundColor : pystr;
  borderColor : pystr;
  borderWidth : Z
}.

Record chart_data := {
  labels : list pystr;
  datasets : list dataset;
  clusters : list cluster_info
}.

Definition priority_clusters (mp : mp_type) : list pystr :=
  match mp with
  | wb => [ u "Центральный"; u "Северо-Западный"; u "Приволжский";
            u "Уральский" ]
  | ozon => [ u "Москва, МО и Дальние регионы"; u "Санкт-Петербург и СЗО";
              u "Казань"; u "Краснодар" ]
  end.

(** [k in l] on a list of strings *)
Definition mem (k : pystr) (l : list pystr) : bool := existsb (pystr_eqb k) l.

(** [sum(products.values())] *)
Definition sum_values (m : gmap pystr Z) : Z :=
  map_fold (fun _ qty acc => qty + acc) 0 m.

(** The grouping loop: [clustered_warehouses[cluster].append(wh)] on a
    [defaultdict(list)]. *)
Definition group_by_cluster (mp : mp_type) (stocks_wp : list stock_wh)
  : odict (list stock_wh) :=
  fold_left
    (fun cw wh =>
       let cluster := get_warehouse_cluster (wh_name wh) mp in
       odict_update cluster [] (fun l => l ++ [wh]) cw)
    stocks_wp [].

(** Priority clusters that are present first, then the others sorted. *)
Definition sort_clusters (mp : mp_type) (cw : odict (list stock_wh))
  : list pystr :=
  List.filter (fun pc => mem pc (keys cw)) (priority_clusters mp)
  ++ List.filter (fun cluster => negb (mem cluster (priority_clusters mp)))
       (sorted_str (keys cw)).

(** [clustered_warehouses[cluster_name]] *)
Definition warehouses_of (cw : odict (list stock_wh)) (cluster_name : pystr)
  : list stock_wh :=
  default [] (assoc cluster_name cw).

(** The body of the loop that emits the labels and the cluster metadata. *)
Definition cluster_step (cw : odict (list stock_wh))
  (st : list pystr * list cluster_info) (cluster_name : pystr)
  : list pystr * list cluster_info :=
  let '(labels, clusters) := st in
  let warehouses := warehouses_of cw cluster_name in
  let total_stock :=
    sumZ (map (fun wh => sum_values (wh_products wh)) warehouses) in
  let labels' := labels ++ map wh_name warehouses in
  (labels',
   clusters ++
   [ {| ci_name := cluster_name;
        start_index := Z.of_nat (length labels);
        warehouse_count := Z.of_nat (length warehouses);
        total_stock := total_stock;
        end_index := Z.of_nat (length labels') - 1 |} ]).

(** The [data] of the series of [article], in cluster order. *)
Definition series_data (cw : odict (list stock_wh))
  (sorted_clusters : list pystr) (article : pystr) : list Z :=
  flat_map
    (fun cluster_name =>
       map (fun wh => default 0 (wh_products wh !! article))
         (warehouses_of cw cluster_name))
    sorted_clusters.

(** The body of the loop over [all_articles]. *)
Definition dataset_step (rt : runtime) (cw : odict (list stock_wh))
  (sorted_clusters : list pystr) (datasets : list dataset) (article : pystr)
  : list dataset :=
  let dataset :=
    {| label := article;
       data := series_data cw sorted_clusters article;
       backgroundColor := get_article_color rt article;
       borderColor := u "#1a1a1a";
       borderWidth := 1 |} in
  if existsb (fun d => 0 <? d) (data dataset) then datasets ++ [dataset]
  else datasets.

(** The chart construction of [prepare]; the WB and the Ozon copies differ
    in the marketplace passed to the classifier and in the priority list.
    [None] when [stocks_wp] or [all_articles] is empty. *)
Definition build_chart_data (rt : runtime) (mp : mp_type)
  (stocks_wp : list stock_wh) (all_articles : list pystr)
  : option chart_data :=
  match stocks_wp, all_articles with
  | [], _ | _, [] => None
  | _, _ =>
    let clustered_warehouses := group_by_cluster mp stocks_wp in
    let sorted_clusters := sort_clusters mp clustered_warehouses in
    let '(labels, clusters) :=
      fold_left (cluster_step clustered_warehouses) sorted_clusters ([], []) in
    Some {| labels := labels;
            datasets :=
              fold_left (dataset_step rt clustered_warehouses sorted_clusters)
                all_articles [];
            clusters := clusters |}
  end.

(* ===================================================================== *)
(** ** Stock totals by product: [calculate_total_stocks_by_product] *)
(* ===================================================================== *)

(** One element of [raw_stocks]. *)
Record raw_stock := {
  rs_supplierArticle : option pystr;
  rs_quantityFull : option Z;
  rs_warehouseName : option pystr
}.

(** [products[article]] together with [product_warehouses[article]]. *)
Record acc_product := {
  ap_article : pystr;
  ap_quantity : Z;
  ap_color : pystr;
  ap_warehouses : odict Z
}.

Record stock_product := {
  sp_article : pystr;
  sp_quantity : Z;
  sp_warehouses_count : Z;
  sp_color : pystr;
  sp_by_warehouse : list (pystr * Z)
}.

Definition stock_step (rt : runtime) (products : odict acc_product)
  (item : raw_stock) : odict acc_product :=
  let article := default Unknown (rs_supplierArticle item) in
  let qty := default 0 (rs_quantityFull item) in
  let warehouse := default Unknown (rs_warehouseName item) in
  odict_update article
    {| ap_article := article; ap_quantity := 0;
       ap_color := get_article_color rt article; ap_warehouses := [] |}
    (fun p =>
       {| ap_article := ap_article p;
          ap_quantity := ap_quantity p + qty;
          ap_color := ap_color p;
          ap_warehouses :=
            if 0 <? qty then
              odict_update warehouse 0 (fun q => q + qty) (ap_warehouses p)
            else ap_warehouses p |})
    products.

Definition calculate_total_stocks_by_product (rt : runtime)
  (raw_stocks : list raw_stock) : list stock_product :=
  let products := fold_left (stock_step rt) raw_stocks [] in
  sorted_desc sp_quantity
    (map
       (fun p =>
          {| sp_article := ap_article p;
             sp_quantity := ap_quantity p;
             sp_warehouses_count := Z.of_nat (length (ap_warehouses p));
             sp_color := ap_color p;
             sp_by_warehouse := sorted_desc snd (ap_warehouses p) |})
       (values products)).

(* ===================================================================== *)
(** ** Combiner: [load_json] and [prepare] *)
(* ===================================================================== *)

(** JSON values that [prepare] passes through without reading them. *)
#[warnings="-register-all"]
Inductive json :=
| JNull
| JBool (b : bool)
| JNum (n : Z)
| JStr (s : pystr)
| JArr (l : list json)
| JObj (members : list (pystr * json)).

(** A WB buyout ([raw_sales]). *)
Record wb_sale := {
  s_date : option pystr;
  s_dateFull : option pystr;
  forPay : option Z
}.

(** An Ozon finance transaction ([finance_redemptions]). *)
Record ozon_txn := {
  operation_date : option pystr;
  amount : option Z
}.

(** An element of the Ozon [stocks_by_product]: its article and the rest. *)
Record ozon_stock_item := {
  osi_article : option pystr;
  osi_fields : json
}.

(** The documents written by the fetchers, read through [.get]. *)
Record wb_raw := {
  wb_total_stock_value : option Z;
  wb_stocks_by_warehouse : option (list json);
  wb_raw_stocks : option (list raw_stock);
  wb_stocks_warehouse_products : option (list stock_wh);
  wb_all_articles : option (list pystr);
  wb_raw_orders : option (list order);
  wb_raw_sales : option (list wb_sale)
}.

Record ozon_raw := {
  oz_total_stock_value : option Z;
  oz_stocks_by_warehouse : option (list json);
  oz_stocks_by_product : option (list ozon_stock_item);
  oz_stocks_warehouse_products : option (list stock_wh);
  oz_all_articles : option (list pystr);
  oz_raw_orders : option (list order);
  oz_finance_redemptions : option (list ozon_txn)
}.

(** The exceptions that end a run of [prepare]: none of them is caught. *)
Inductive error :=
| UnicodeDecodeError     (* [json.load(f)] on bytes that are not UTF-8 *)
| AttributeError.        (* [.get] on a value that is not a dict *)

(** A run that returns or raises. *)
Inductive run (X : Type) :=
| Returns (x : X)
| Raises (e : error).
Arguments Returns {X} x.
Arguments Raises {X} e.

#[global] Instance run_ret : MRet run := fun _ x => Returns x.

#[global] Instance run_bind : MBind run :=
  fun _ _ k r => match r with Returns x => k x | Raises e => Raises e end.

#[global] Instance run_fmap : FMap run :=
  fun _ _ g r => match r with Returns x => Returns (g x) | Raises e => Raises e end.

(** The state of an input file in the [Executions] directory. *)
Inductive file_state (A : Type) :=
| Missing                (* [os.path.exists(path)] is false *)
| Undecodable            (* its bytes are not valid UTF-8 *)
| Unparsable             (* its text is not JSON: [json.JSONDecodeError] *)
| Falsy                  (* JSON [null], [false], [0], an empty string, array
                            or object *)
| NotAnObject            (* any other JSON value that is not an object *)
| Parsed (d : A).        (* a non-empty JSON object *)
Arguments Missing {A}.
Arguments Undecodable {A}.
Arguments Unparsable {A}.
Arguments Falsy {A}.
Arguments NotAnObject {A}.
Arguments Parsed {A} d.

(** What [load_json] returns, as far as [prepare] tells the values apart:
    [None] or a value that [if data:] takes for false, a value that is true
    and not a dict, or a non-empty dict. *)
Inductive loaded (A : Type) :=
| NoData
| OtherValue
| Document (d : A).
Arguments NoData {A}.
Arguments OtherValue {A}.
Arguments Document {A} d.

(** [load_json]: [None] when the file does not exist or its text raises
    [JSONDecodeError], the one exception that is caught; otherwise what
    [json.load] returns or raises. *)
Definition load_json {A : Type} (f : file_state A) : run (loaded A) :=
  match f with
  | Missing => Returns NoData
  | Undecodable => Raises UnicodeDecodeError
  | Unparsable => Returns NoData
  | Falsy => Returns NoData
  | NotAnObject => Returns OtherValue
  | Parsed d => Returns (Document d)
  end.

(** [if data: ... data.get(..)]: the guard of a marketplace's block and
    the first read inside it. *)
Definition guarded {A : Type} (data : loaded A) : run (option A) :=
  match data with
  | NoData => Returns None
  | OtherValue => Raises AttributeError
  | Document d => Returns (Some d)
  end.

(** The aggregation of a window with the redemption figures added to it. *)
Record period_result := {
  agg : agg_result;
  redemptions_revenue : option Z;
  redemptions_count : option Z
}.

(** [period_data[p_key]]: the results of the marketplaces processed. *)
Record period_entry := {
  pd_wb : option period_result;
  pd_ozon : option period_result
}.

Record wb_stocks := {
  ws_by_warehouse : list json;
  ws_by_product : list stock_product;
  ws_chart_data : option chart_data;
  ws_all_articles : list pystr
}.

Record ozon_stocks := {
  os_by_warehouse : list json;
  os_by_product : list (ozon_stock_item * pystr);   (* with its 'color' *)
  os_chart_data : option chart_data;
  os_all_articles : list pystr
}.

Record summary := {
  sum_wb_stocks : Z;
  sum_ozon_stocks : Z;
  total_stocks : Z;
  total_sales_today : Z
}.

Record marketplace := {
  mp_name : pystr;
  status : pystr
}.

Record dashboard := {
  last_update : pystr;
  dsummary : summary;
  marketplaces : list marketplace;
  stocks_wb : option wb_stocks;        (* [None]: the empty dict *)
  stocks_ozon : option ozon_stocks;
  period_data : odict period_entry
}.

Definition empty_entry : period_entry := {| pd_wb := None; pd_ozon := None |}.

Definition dashboard_init (rt : runtime) : dashboard :=
  {| last_update := now_stamp rt;
     dsummary := {| sum_wb_stocks := 0; sum_ozon_stocks := 0;
                    total_stocks := 0; total_sales_today := 0 |};
     marketplaces := [];
     stocks_wb := None;
     stocks_ozon := None;
     period_data :=
       [ (u "today", empty_entry); (u "yesterday", empty_entry);
         (u "days_3", empty_entry); (u "days_7", empty_entry);
         (u "days_30", empty_entry) ] |}.

Definition set_period_data (f : odict period_entry -> odict period_entry)
  (d : dashboard) : dashboard :=
  {| last_update := last_update d;
     dsummary := dsummary d; marketplaces := marketplaces d;
     stocks_wb := stocks_wb d; stocks_ozon := stocks_ozon d;
     period_data := f (period_data d) |}.

Definition order_date_wb (item : order) : option pystr :=
  or_str (date_ item) (dateFull item).

Definition sale_date_wb (item : wb_sale) : option pystr :=
  or_str (s_date item) (s_dateFull item).

(** The first WB loop over the windows: [period_data[p_key]["wb"] = agg]. *)
Definition wb_orders_step (rt : runtime) (today : date)
  (raw_orders : list order) (pd : odict period_entry) (p : period)
  : odict period_entry :=
  let filtered_sales := filter_period rt today p order_date_wb raw_orders in
  let agg := aggregate_sales_data filtered_sales wb in
  odict_update (key p) empty_entry
    (fun e =>
       {| pd_wb := Some {| agg := agg; redemptions_revenue := None;
                           redemptions_count := None |};
          pd_ozon := pd_ozon e |})
    pd.

(** The second WB loop: the redemption figures of the window go into the
    entry written by the first loop, when it is there. *)
Definition wb_redemptions_step (rt : runtime) (today : date)
  (raw_sales : list wb_sale) (pd : odict period_entry) (p : period)
  : odict period_entry :=
  let filtered_redemptions :=
    filter_period rt today p sale_date_wb raw_sales in
  let revenue :=
    sumZ (map (fun item => default 0 (forPay item)) filtered_redemptions) in
  let n := Z.of_nat (length filtered_redemptions) in
  match assoc (key p) pd with
  | Some {| pd_wb := Some r; pd_ozon := o |} =>
    odict_update (key p) empty_entry
      (fun _ =>
         {| pd_wb := Some {| agg := agg r; redemptions_revenue := Some revenue;
                             redemptions_count := Some n |};
            pd_ozon := o |})
      pd
  | _ => pd
  end.

(** The Ozon loop over the windows: aggregation and redemptions together. *)
Definition ozon_step (rt : runtime) (today : date) (raw_orders : list order)
  (finance_redemptions : list ozon_txn) (pd : odict period_entry) (p : period)
  : odict period_entry :=
  let filtered_sales := filter_period rt today p created_at raw_orders in
  let agg := aggregate_sales_data filtered_sales ozon in
  let redemptions_filtered :=
    filter_period rt today p operation_date finance_redemptions in
  let revenue :=
    sumZ (map (fun txn => Z.abs (default 0 (amount txn)))
            redemptions_filtered) in
  let n := Z.of_nat (length redemptions_filtered) in
  odict_update (key p) empty_entry
    (fun e =>
       {| pd_wb := pd_wb e;
          pd_ozon := Some {| agg := agg; redemptions_revenue := Some revenue;
                             redemptions_count := Some n |} |})
    pd.

(** [dashboard["stocks"]["wb"]], with the chart built from
    [stocks_warehouse_products] and [all_articles]. *)
Definition build_wb_stocks (rt : runtime) (w : wb_raw) : wb_stocks :=
  let stocks_wp := default [] (wb_stocks_warehouse_products w) in
  let all_articles := default [] (wb_all_articles w) in
  {| ws_by_warehouse := take 15 (default [] (wb_stocks_by_warehouse w));
     ws_by_product :=
       calculate_total_stocks_by_product rt (default [] (wb_raw_stocks w));
     ws_chart_data := build_chart_data rt wb stocks_wp all_articles;
     ws_all_articles := all_articles |}.

(** [dashboard["stocks"]["ozon"]]; every element of [stocks_by_product]
    receives its color. *)
Definition build_ozon_stocks (rt : runtime) (o : ozon_raw) : ozon_stocks :=
  let stocks_wp := default [] (oz_stocks_warehouse_products o) in
  let all_articles := default [] (oz_all_articles o) in
  {| os_by_warehouse := take 15 (default [] (oz_stocks_by_warehouse o));
     os_by_product :=
       map (fun item =>
              (item, get_article_color rt (default [] (osi_article item))))
         (default [] (oz_stocks_by_product o));
     os_chart_data := build_chart_data rt ozon stocks_wp all_articles;
     os_all_articles := all_articles |}.

(** [if wb_data: ...] *)
Definition process_wb (rt : runtime) (today : date) (wb_data : option wb_raw)
  (d : dashboard) : dashboard :=
  match wb_data with
  | None => d
  | Some w =>
    let raw_orders := default [] (wb_raw_orders w) in
    let raw_sales := default [] (wb_raw_sales w) in
    let pd1 :=
      fold_left (wb_orders_step rt today raw_orders) periods_config
        (period_data d) in
    let pd2 :=
      fold_left (wb_redemptions_step rt today raw_sales) periods_config pd1 in
    {| last_update := last_update d;
       dsummary :=
         {| sum_wb_stocks := default 0 (wb_total_stock_value w);
            sum_ozon_stocks := sum_ozon_stocks (dsummary d);
            total_stocks := total_stocks (dsummary d);
            total_sales_today := total_sales_today (dsummary d) |};
       marketplaces := marketplaces d;
       stocks_wb := Some (build_wb_stocks rt w);
       stocks_ozon := stocks_ozon d;
       period_data := pd2 |}
  end.

(** [if ozon_data: ...] *)
Definition process_ozon (rt : runtime) (today : date)
  (ozon_data : option ozon_raw) (d : dashboard) : dashboard :=
  match ozon_data with
  | None => d
  | Some o =>
    let raw_orders := default [] (oz_raw_orders o) in
    let finance_redemptions := default [] (oz_finance_redemptions o) in
    {| last_update := last_update d;
       dsummary :=
         {| sum_wb_stocks := sum_wb_stocks (dsummary d);
            sum_ozon_stocks := default 0 (oz_total_stock_value o);
            total_stocks := total_stocks (dsummary d);
            total_sales_today := total_sales_today (dsummary d) |};
       marketplaces := marketplaces d;
       stocks_wb := stocks_wb d;
       stocks_ozon := Some (build_ozon_stocks rt o);
       period_data :=
         fold_left (ozon_step rt today raw_orders finance_redemptions)
           periods_config (period_data d) |}
  end.

(** [today_wb.get("revenue", 0)] and its Ozon twin. *)
Definition today_revenue (side : period_entry -> option period_result)
  (d : dashboard) : Z :=
  match assoc (u "today") (period_data d) ≫= side with
  | Some r => r_revenue (agg r)
  | None => 0
  end.

Definition status_of {A : Type} (data : option A) : pystr :=
  match data with Some _ => u "Online" | None => u "No Data" end.

(** The final summary and the marketplace status list. *)
Definition finalize (wb_data : option wb_raw) (ozon_data : option ozon_raw)
  (d : dashboard) : dashboard :=
  {| last_update := last_update d;
     dsummary :=
       {| sum_wb_stocks := sum_wb_stocks (dsummary d);
          sum_ozon_stocks := sum_ozon_stocks (dsummary d);
          total_stocks :=
            sum_wb_stocks (dsummary d) + sum_ozon_stocks (dsummary d);
          total_sales_today :=
            today_revenue pd_wb d + today_revenue pd_ozon d |};
     marketplaces :=
       [ {| mp_name := u "Wildberries"; status := status_of wb_data |};
         {| mp_name := u "Ozon"; status := status_of ozon_data |} ];
     stocks_wb := stocks_wb d;
     stocks_ozon := stocks_ozon d;
     period_data := period_data d |}.

(** The document that [prepare] fills in once the two files are loaded and
    their guards passed: the WB block, the Ozon block, the summary. *)
Definition fill (rt : runtime) (today : date) (wb_data : option wb_raw)
  (ozon_data : option ozon_raw) : dashboard :=
  finalize wb_data ozon_data
    (process_ozon rt today ozon_data
       (process_wb rt today wb_data (dashboard_init rt))).

(** [prepare], from the state of the two input files and the current date
    to the document written to [dashboard_data.json], or to the exception
    that ends the run before anything is written.  Both files are loaded
    first; the WB block runs before the Ozon block. *)
Definition prepare (rt : runtime) (today : date)
  (wb_file : file_state wb_raw) (ozon_file : file_state ozon_raw)
  : run dashboard :=
  wb_data ← load_json wb_file;
  ozon_data ← load_json ozon_file;
  wb ← guarded wb_data;
  ozon ← guarded ozon_data;
  mret (fill rt today wb ozon).

(* ===================================================================== *)
(** * The fetchers: [fetch_wb_data.py] and [fetch_ozon_data.py] *)
(* ===================================================================== *)

(** The aggregations that the two fetchers run on the downloaded records
    before they write [wb_raw_data.json] and [ozon_raw_data.json]. *)

(** [{'name': .., 'quantity': .., 'items_count': ..}] *)
Record wh_total := {
  wt_name : pystr;
  wt_quantity : Z;
  wt_items_count : Z
}.

(** [{'name': .., 'total': .., 'products': {article: qty}}] *)
Record wh_acc := {
  wa_name : pystr;
  wa_total : Z;
  wa_products : gmap pystr Z
}.

(** What [prepare] reads of such an element. *)
Definition as_stock_wh (w : wh_acc) : stock_wh :=
  {| wh_name := wa_name w; wh_products := wa_products w |}.

(** The end of the loop body of [aggregate_stocks_by_warehouse_and_product]
    (WB) and of [aggregate_stocks_warehouse_products] (Ozon), the same in
    both, for a row that passed the test on its quantity. *)
Definition add_stock (wh_name article : pystr) (qty : Z)
  (st : odict wh_acc * gset pystr) : odict wh_acc * gset pystr :=
  let '(warehouses, all_articles) := st in
  (odict_update wh_name
     {| wa_name := wh_name; wa_total := 0; wa_products := ∅ |}
     (fun w =>
        {| wa_name := wa_name w;
           wa_total := wa_total w + qty;
           wa_products :=
             <[ article := default 0 (wa_products w !! article) + qty ]>
               (wa_products w) |})
     warehouses,
   {[ article ]} ∪ all_articles).

Module FetchWb.

(** [aggregate_stocks_by_warehouse] *)
Definition stocks_step (warehouses : odict wh_total) (item : raw_stock)
  : odict wh_total :=
  let wh_name := default Unknown (rs_warehouseName item) in
  let qty := default 0 (rs_quantityFull item) in
  odict_update wh_name
    {| wt_name := wh_name; wt_quantity := 0; wt_items_count := 0 |}
    (fun w => {| wt_name := wt_name w;
                 wt_quantity := wt_quantity w + qty;
                 wt_items_count := wt_items_count w + 1 |})
    warehouses.

Definition aggregate_stocks_by_warehouse (stocks : list raw_stock)
  : list wh_total :=
  sorted_desc wt_quantity (values (fold_left stocks_step stocks [])).

(** [aggregate_stocks_by_warehouse_and_product]: rows with [qty == 0] are
    skipped; the 15 warehouses with the largest totals, and the sorted
    articles. *)
Definition wp_step (st : odict wh_acc * gset pystr) (item : raw_stock)
  : odict wh_acc * gset pystr :=
  let wh_name := default Unknown (rs_warehouseName item) in
  let article := default Unknown (rs_supplierArticle item) in
  let qty := default 0 (rs_quantityFull item) in
  if qty =? 0 then st else add_stock wh_name article qty st.

Definition aggregate_stocks_by_warehouse_and_product (stocks : list raw_stock)
  : list wh_acc * list pystr :=
  let '(warehouses, all_articles) := fold_left wp_step stocks ([], ∅) in
  (take 15 (sorted_desc wa_total (values warehouses)),
   sorted_str (elements all_articles)).

(** [aggregate_orders_by_warehouse_and_region] *)
Definition orders_step (st : odict entry * odict entry) (item : order)
  : odict entry * odict entry :=
  let '(by_warehouse, by_region) := st in
  let wh_name := default Unknown (warehouseName item) in
  let region := default Unknown (regionName item) in
  let price := default 0 (priceWithDisc item) in
  (odict_update wh_name (new_entry wh_name) (entry_add 1 price) by_warehouse,
   odict_update region (new_entry region) (entry_add 1 price) by_region).

Definition aggregate_orders_by_warehouse_and_region (orders : list order)
  : list entry * list entry :=
  let '(by_warehouse, by_region) := fold_left orders_step orders ([], []) in
  (sorted_desc e_revenue (values by_warehouse),
   sorted_desc e_revenue (values by_region)).

(** [aggregate_orders_by_product] *)
Definition product_step (products : odict acc_bucket) (item : order)
  : odict acc_bucket :=
  let article := default Unknown (supplierArticle item) in
  let wh_name := default Unknown (warehouseName item) in
  let price := default 0 (priceWithDisc item) in
  odict_update article (new_bucket article) (bucket_add_with wh_name 1 price)
    products.

Definition aggregate_orders_by_product (orders : list order) : list bucket :=
  let products := fold_left product_step orders [] in
  let sorted_products := sorted_desc a_revenue (values products) in
  map (flatten e_revenue) sorted_products.

(** [total_stock] of the main block. *)
Definition total_stock (stocks : list raw_stock) : Z :=
  sumZ (map (fun s => default 0 (rs_quantityFull s)) stocks).

End FetchWb.

Module FetchOzon.

(** A row of the FBO stock analytics. [int(..)] is the identity on the
    integers that the field is modelled with. *)
Record fbo_row := {
  item_code : option pystr;
  fbo_warehouse_name : option pystr;
  free_to_sell_amount : option Z
}.

(** [aggregate_orders_by_warehouse_and_region] *)
Definition orders_step (st : odict entry * odict entry) (order_ : order)
  : odict entry * odict entry :=
  let '(by_warehouse, by_region) := st in
  let analytics := analytics_data order_ in
  let financial := financial_data order_ in
  let wh_name := default Unknown (analytics ≫= warehouse_name) in
  let cluster_to_ := default [] (financial ≫= cluster_to) in
  let city_ := default [] (analytics ≫= city) in
  let total_price :=
    fold_left
      (fun acc prod => acc + default 0 (price prod) * default 1 (quantity prod))
      (default [] (financial ≫= fin_products)) 0 in
  let region_key := match cluster_to_ with [] => city_ | _ => cluster_to_ end in
  let region_key := match region_key with [] => Unknown | _ => region_key end in
  (odict_update wh_name (new_entry wh_name) (entry_add 1 total_price)
     by_warehouse,
   odict_update region_key (new_entry region_key) (entry_add 1 total_price)
     by_region).

Definition aggregate_orders_by_warehouse_and_region (orders : list order)
  : list entry * list entry :=
  let '(by_warehouse, by_region) := fold_left orders_step orders ([], []) in
  (sorted_desc e_revenue (values by_warehouse),
   sorted_desc e_revenue (values by_region)).

(** [aggregate_sales_by_product] *)
Definition product_step (by_product : odict acc_bucket) (order_ : order)
  : odict acc_bucket :=
  let wh_name := default Unknown (analytics_data order_ ≫= warehouse_name) in
  fold_left
    (fun by_product product =>
       let article := default Unknown (offer_id product) in
       let price_ := default 0 (price product) in
       let qty := default 1 (quantity product) in
       let revenue_ := price_ * qty in
       odict_update article (new_bucket article)
         (bucket_add_with wh_name qty revenue_) by_product)
    (default [] (products order_)) by_product.

Definition aggregate_sales_by_product (orders : list order) : list bucket :=
  let by_product := fold_left product_step orders [] in
  let result := map (flatten e_revenue) (values by_product) in
  sorted_desc revenue result.

(** [aggregate_stocks_by_product_from_fbo] *)
Record fbo_acc := {
  fa_article : pystr;
  fa_quantity : Z;
  fa_warehouses : gset pystr
}.

Record fbo_product := {
  fp_article : pystr;
  fp_quantity : Z;
  fp_warehouses_count : Z
}.

Definition fbo_product_step (by_product : odict fbo_acc) (row : fbo_row)
  : odict fbo_acc :=
  let article := default Unknown (item_code row) in
  let wh_name := default Unknown (fbo_warehouse_name row) in
  let qty := default 0 (free_to_sell_amount row) in
  if qty <=? 0 then by_product
  else
    odict_update article
      {| fa_article := article; fa_quantity := 0; fa_warehouses := ∅ |}
      (fun p => {| fa_article := fa_article p;
                   fa_quantity := fa_quantity p + qty;
                   fa_warehouses := {[ wh_name ]} ∪ fa_warehouses p |})
      by_product.

Definition aggregate_stocks_by_product_from_fbo (fbo_analytics : list fbo_row)
  : list fbo_product :=
  let by_product := fold_left fbo_product_step fbo_analytics [] in
  let result :=
    map (fun data =>
           {| fp_article := fa_article data;
              fp_quantity := fa_quantity data;
              fp_warehouses_count := Z.of_nat (size (fa_warehouses data)) |})
      (values by_product) in
  sorted_desc fp_quantity result.

(** [aggregate_stocks_warehouse_products]: rows with [qty <= 0] are
    skipped; every warehouse is returned. *)
Definition wp_step (st : odict wh_acc * gset pystr) (row : fbo_row)
  : odict wh_acc * gset pystr :=
  let wh_name := default Unknown (fbo_warehouse_name row) in
  let article := default Unknown (item_code row) in
  let qty := default 0 (free_to_sell_amount row) in
  if qty <=? 0 then st else add_stock wh_name article qty st.

Definition aggregate_stocks_warehouse_products (fbo_analytics : list fbo_row)
  : list wh_acc * list pystr :=
  let '(warehouse_data, all_articles) :=
    fold_left wp_step fbo_analytics ([], ∅) in
  (sorted_desc wa_total (values warehouse_data),
   sorted_str (elements all_articles)).

(** [stocks_by_warehouse] and [total_stock] of the main block. *)
Definition stocks_by_warehouse (stocks_warehouse_products : list wh_acc)
  : list wh_total :=
  map (fun wh => {| wt_name := wa_name wh; wt_quantity := wa_total wh;
                    wt_items_count := Z.of_nat (size (wa_products wh)) |})
    stocks_warehouse_products.

Definition total_stock (stocks_warehouse_products : list wh_acc) : Z :=
  sumZ (map wa_total stocks_warehouse_products).

End FetchOzon.

(** ** The documents written by the fetchers *)

(** The [result] of the two main blocks, as far as [prepare] reads it, from
    the records that were downloaded.  Writing it with [json.dump] and
    reading it back with [load_json] gives the same document. *)

Definition wh_total_json (t : wh_total) : json :=
  JObj [ (u "name", JStr (wt_name t)); (u "quantity", JNum (wt_quantity t));
         (u "items_count", JNum (wt_items_count t)) ].

Definition wb_result (stocks : list raw_stock) (orders : list order)
  (sales : list wb_sale) : wb_raw :=
  let stocks_by_warehouse := FetchWb.aggregate_stocks_by_warehouse stocks in
  let total_stock := FetchWb.total_stock stocks in
  let '(stocks_warehouse_products, all_articles) :=
    FetchWb.aggregate_stocks_by_warehouse_and_product stocks in
  {| wb_total_stock_value := Some total_stock;
     wb_stocks_by_warehouse := Some (map wh_total_json stocks_by_warehouse);
     wb_raw_stocks := Some stocks;
     wb_stocks_warehouse_products :=
       Some (map as_stock_wh stocks_warehouse_products);
     wb_all_articles := Some all_articles;
     wb_raw_orders := Some orders;
     wb_raw_sales := Some sales |}.

(** For Ozon the lines of [stocks_by_warehouse] repeat the name as
    ['warehouse_id']. *)
Definition ozon_wh_total_json (t : wh_total) : json :=
  JObj [ (u "name", JStr (wt_name t)); (u "warehouse_id", JStr (wt_name t));
         (u "quantity", JNum (wt_quantity t));
         (u "items_count", JNum (wt_items_count t)) ].

Definition fbo_product_item (p : FetchOzon.fbo_product) : ozon_stock_item :=
  {| osi_article := Some (FetchOzon.fp_article p);
     osi_fields :=
       JObj [ (u "article", JStr (FetchOzon.fp_article p));
              (u "quantity", JNum (FetchOzon.fp_quantity p));
              (u "warehouses_count",
               JNum (FetchOzon.fp_warehouses_count p)) ] |}.

Definition ozon_result (fbo_analytics : list FetchOzon.fbo_row)
  (orders : list order) (finance_redemptions : list ozon_txn) : ozon_raw :=
  let '(stocks_warehouse_products, all_articles) :=
    FetchOzon.aggregate_stocks_warehouse_products fbo_analytics in
  let stocks_by_warehouse :=
    FetchOzon.stocks_by_warehouse stocks_warehouse_products in
  let total_stock := FetchOzon.total_stock stocks_warehouse_products in
  let stocks_by_product :=
    FetchOzon.aggregate_stocks_by_product_from_fbo fbo_analytics in
  {| oz_total_stock_value := Some total_stock;
     oz_stocks_by_warehouse :=
       Some (map ozon_wh_total_json stocks_by_warehouse);
     oz_stocks_by_product := Some (map fbo_product_item stocks_by_product);
     oz_stocks_warehouse_products :=
       Some (map as_stock_wh stocks_warehouse_products);
     oz_all_articles := Some all_articles;
     oz_raw_orders := Some orders;
     oz_finance_redemptions := Some finance_redemptions |}.

(* ===================================================================== *)
(** * Vocabulary of the properties *)
(* ===================================================================== *)

(** ** Sorting *)

(** Descending order of the keys. *)
Definition desc {A : Type} (key : A -> Z) (a b : A) : Prop := key b <= key a.

(** [output] is [input] sorted by descending [key], ties in input order. *)
Definition stable_desc_sort_of {A : Type} (key : A -> Z)
  (input output : list A) : Prop :=
  Permutation output input
  /\ StronglySorted (desc key) output
  /\ forall v, List.filter (fun a => key a =? v) output
               = List.filter (fun a => key a =? v) input.

(** ** Classifier *)

(** Some keyword of the table entry occurs in the lower-cased name. *)
Definition matches (name : pystr) (entry : pystr * list pystr) : Prop :=
  exists kw, In kw (snd entry) /\ contains kw (lower name) = true.

(** ** Aggregator: what a record contributes, by dimension *)

(** The key of the record along the warehouse and the region dimension. *)
Definition warehouse_key (mp : mp_type) (item : order) : pystr :=
  match mp with
  | wb => default Unknown (warehouseName item)
  | ozon => default Unknown (analytics_data item ≫= warehouse_name)
  end.

Definition region_key (mp : mp_type) (item : order) : pystr :=
  match mp with
  | wb => default Unknown (regionName item)
  | ozon => ozon_region (financial_data item) (analytics_data item)
  end.

(** The order value added to the warehouse and the region bucket. *)
Definition order_value (mp : mp_type) (item : order) : Z :=
  match mp with
  | wb => default 0 (priceWithDisc item)
  | ozon => ozon_price (financial_data item)
  end.

(** The contributions to the product dimension: article, units, revenue.
    A WB order is one unit of one article; an Ozon posting contributes each
    line of its [products]. *)
Definition product_lines (mp : mp_type) (item : order)
  : list (pystr * (Z * Z)) :=
  match mp with
  | wb => [ (default Unknown (supplierArticle item),
             (1, default 0 (priceWithDisc item))) ]
  | ozon =>
    map (fun prod =>
           (default Unknown (offer_id prod),
            (default 1 (quantity prod),
             default 0 (price prod) * default 1 (quantity prod))))
      (default [] (products item))
  end.

Definition product_keys (mp : mp_type) (item : order) : list pystr :=
  map fst (product_lines mp item).

Definition product_units (mp : mp_type) (item : order) : Z :=
  sumZ (map (fun l => fst (snd l)) (product_lines mp item)).

(** ** Aggregator: insertion order and the state of the loop *)

(** Keys in the order in which they are first met. *)
Definition see (seen : list pystr) (k : pystr) : list pystr :=
  if mem k seen then seen else seen ++ [k].

Definition first_seen (l : list pystr) : list pystr := fold_left see l [].

(** Every value of the dict is filed under its own name. *)
Definition named {V : Type} (nm : V -> pystr) (d : odict V) : Prop :=
  Forall (fun kv => nm (snd kv) = fst kv) d.

(** The state of the loop over a prefix of the sales, summed up. *)
Record agg_inv (mp : mp_type) (seen : list order) (st : agg_state) : Prop := {
  inv_orders : st_orders_count st = Z.of_nat (length seen);
  inv_wh_named : named a_name (st_by_warehouse st);
  inv_rg_named : named e_name (st_by_region st);
  inv_pr_named : named a_name (st_by_product st);
  inv_wh_keys :
    keys (st_by_warehouse st) = first_seen (map (warehouse_key mp) seen);
  inv_rg_keys :
    keys (st_by_region st) = first_seen (map (region_key mp) seen);
  inv_pr_keys :
    keys (st_by_product st) = first_seen (flat_map (product_keys mp) seen);
  inv_wh_count :
    sumZ (map a_count (values (st_by_warehouse st))) = Z.of_nat (length seen);
  inv_rg_count :
    sumZ (map e_count (values (st_by_region st))) = Z.of_nat (length seen);
  inv_pr_count :
    sumZ (map a_count (values (st_by_product st)))
    = sumZ (map (product_units mp) seen);
  inv_wh_pos : Forall (fun b => 0 <= a_count b) (values (st_by_warehouse st));
  inv_rg_pos : Forall (fun e => 0 <= e_count e) (values (st_by_region st))
}.

(** ** Aggregator: totals and lookups *)

(** A bucket whose totals are the sums over its breakdown. *)
Definition acc_additive (b : acc_bucket) : Prop :=
  a_revenue b = sumZ (map e_revenue (values (a_breakdown b)))
  /\ a_count b = sumZ (map e_count (values (a_breakdown b))).

(** The same of a bucket of the result. *)
Definition additive (b : bucket) : Prop :=
  revenue b = sumZ (map e_revenue (breakdown b))
  /\ count b = sumZ (map e_count (breakdown b)).

(** The same of a bucket whose amounts are floats. *)
Definition float_additive (b : Binary64.bucket) : Prop :=
  Binary64.revenue b
  = Binary64.fsum (map Binary64.e_revenue (Binary64.breakdown b))
  /\ Binary64.count b = sumZ (map Binary64.e_count (Binary64.breakdown b)).

(** Three WB orders from one warehouse, two of the article A and one of the
    article B, at 1133.76, 900.08 and 1299.01. *)
#[warnings="-inexact-float"]
Definition fractional_prices : list Binary64.order :=
  map (fun ap : pystr * float =>
         {| Binary64.priceWithDisc := Some (snd ap);
            Binary64.warehouseName := Some (u "Коледино");
            Binary64.supplierArticle := Some (fst ap) |})
    [ (u "A", 1133.76%float); (u "B", 900.08%float); (u "A", 1299.01%float) ].

(** The three sums of C4 for one aggregation. *)
Definition partition_complete (sales : list order) (mp : mp_type) : Prop :=
  let r := aggregate_sales_data sales mp in
  let n := Z.of_nat (length sales) in
  sumZ (map count (sales_by_warehouse r)) = n
  /\ sumZ (map e_count (sales_by_region r)) = n
  /\ sumZ (map count (sales_by_product r)) = n.

(** The count and the revenue filed under [k], zero when [k] is absent. *)
Definition count_at (d : odict acc_bucket) (k : pystr) : Z :=
  match assoc k d with Some b => a_count b | None => 0 end.

Definition revenue_at (d : odict acc_bucket) (k : pystr) : Z :=
  match assoc k d with Some b => a_revenue b | None => 0 end.

Definition e_count_at (d : odict entry) (k : pystr) : Z :=
  match assoc k d with Some e => e_count e | None => 0 end.

Definition e_revenue_at (d : odict entry) (k : pystr) : Z :=
  match assoc k d with Some e => e_revenue e | None => 0 end.

(** The units and the revenue that the product lines give to article [k]. *)
Definition units_for (k : pystr) (lines : list (pystr * (Z * Z))) : Z :=
  sumZ (map (fun l => if pystr_eqb k (fst l) then fst (snd l) else 0) lines).

Definition revenue_for (k : pystr) (lines : list (pystr * (Z * Z))) : Z :=
  sumZ (map (fun l => if pystr_eqb k (fst l) then snd (snd l) else 0) lines).

(** ** ChartDatasetBuilder *)

(** The warehouses in chart order: cluster by cluster. *)
Definition chart_warehouses (mp : mp_type) (stocks_wp : list stock_wh)
  : list stock_wh :=
  let cw := group_by_cluster mp stocks_wp in
  flat_map (warehouses_of cw) (sort_clusters mp cw).

(** The series of an article over the warehouses in chart order. *)
Definition chart_series (mp : mp_type) (stocks_wp : list stock_wh)
  (article : pystr) : list Z :=
  let cw := group_by_cluster mp stocks_wp in
  series_data cw (sort_clusters mp cw) article.

(** The number of labels that the indices of a cluster span. *)
Definition span (c : cluster_info) : Z := end_index c - start_index c + 1.

(** The series emitted for an article. *)
Definition mk_dataset (rt : runtime) (mp : mp_type)
  (stocks_wp : list stock_wh) (article : pystr) : dataset :=
  {| label := article;
     data := chart_series mp stocks_wp article;
     backgroundColor := get_article_color rt article;
     borderColor := u "#1a1a1a";
     borderWidth := 1 |}.

(** [any(d > 0 for d in data)] *)
Definition has_positive (l : list Z) : bool := existsb (fun d => 0 <? d) l.

(** The equality of the totals, as C6 states it for every chart. *)
Definition totals_agree (chart : chart_data) : Prop :=
  sumZ (map total_stock (clusters chart))
  = sumZ (map (fun ds => sumZ (data ds)) (datasets chart)).

(** ** Combiner *)

(** What a window holds for WB when the WB document is [w]. *)
Definition wb_period_result (rt : runtime) (today : date) (w : wb_raw)
  (p : period) : period_result :=
  let redemptions :=
    filter_period rt today p sale_date_wb (default [] (wb_raw_sales w)) in
  {| agg :=
       aggregate_sales_data
         (filter_period rt today p order_date_wb (default [] (wb_raw_orders w)))
         wb;
     redemptions_revenue :=
       Some (sumZ (map (fun item => default 0 (forPay item)) redemptions));
     redemptions_count := Some (Z.of_nat (length redemptions)) |}.

(** What a window holds for Ozon when the Ozon document is [o]. *)
Definition ozon_period_result (rt : runtime) (today : date) (o : ozon_raw)
  (p : period) : period_result :=
  let redemptions :=
    filter_period rt today p operation_date
      (default [] (oz_finance_redemptions o)) in
  {| agg :=
       aggregate_sales_data
         (filter_period rt today p created_at (default [] (oz_raw_orders o)))
         ozon;
     redemptions_revenue :=
       Some (sumZ (map (fun txn => Z.abs (default 0 (amount txn))) redemptions));
     redemptions_count := Some (Z.of_nat (length redemptions)) |}.

(** The "today" window, the first of [periods_config]. *)
(** The files on which a run ends with an exception; the document that
    the other files give to [prepare]. *)
Definition aborts {A : Type} (f : file_state A) : Prop :=
  match f with
  | Undecodable | NotAnObject => True
  | _ => False
  end.

Definition data_of {A : Type} (f : file_state A) : option A :=
  match f with
  | Parsed d => Some d
  | _ => None
  end.


Definition today_window : period :=
  {| key := u "today"; days := 0; exact_day := false; p_label := u "Сегодня" |}.

(** ** Colorizer *)

(** The color that does not depend on the run: the override table on the
    upper-cased identifier, else the known prefixes. *)
Definition fixed_color (article : pystr) : option pystr :=
  let article_upper := upper article in
  match assoc article_upper color_map with
  | Some color => Some color
  | None =>
    if startswith (u "FSF") article_upper then Some (u "#015054")
    else if startswith (u "SF") article_upper then Some (u "#80651b")
    else if startswith (u "SM") article_upper then Some (u "#78011b")
    else None
  end.

(** ** Sample runs and records *)

Definition digit (c : N) : option Z :=
  if in_range 48 57 c then Some (Z.of_N c - 48) else None.

Definition days_in_month (year month : Z) : Z :=
  if month =? 2 then (if is_leap year then 29 else 28)
  else if (month =? 4) || (month =? 6) || (month =? 9) || (month =? 11)
       then 30 else 31.

Definition parse_ymd (s : pystr) : option datetime :=
  match s with
  | [y1; y2; y3; y4; 45%N; m1; m2; 45%N; d1; d2] =>
    y1 ← digit y1; y2 ← digit y2; y3 ← digit y3; y4 ← digit y4;
    m1 ← digit m1; m2 ← digit m2; d1 ← digit d1; d2 ← digit d2;
    let y := 1000 * y1 + 100 * y2 + 10 * y3 + y4 in
    let m := 10 * m1 + m2 in
    let d := 10 * d1 + d2 in
    if (1 <=? y) && (1 <=? m) && (m <=? 12) && (1 <=? d)
       && (d <=? days_in_month y m)
    then Some {| dt_date := ymd y m d; dt_seconds := 0 |}
    else None
  | _ => None
  end.

(** A runtime for the examples: its hash is [h] and its parsers read
    [YYYY-MM-DD], on which both parsers of the standard library agree. *)
Definition example_runtime (h : pystr -> Z) : runtime :=
  {| hash := h; fromisoformat := parse_ymd; strptime_ymd := parse_ymd;
     now_stamp := u "10.06.2024 12:00" |}.

(** An Ozon posting from the warehouse "A" with one product line. *)
Definition posting (line : product_line) : order :=
  {| date_ := None; dateFull := None; created_at := Some (u "2024-06-10");
     priceWithDisc := None; warehouseName := None; regionName := None;
     supplierArticle := None;
     financial_data :=
       Some {| fin_products := Some [line]; cluster_to := Some (u "R") |};
     analytics_data :=
       Some {| warehouse_name := Some (u "A"); city := None |};
     products := Some [line] |}.

(** An Ozon posting of 3 units of one article, its price absent. *)
Definition three_units_no_price : order :=
  posting {| offer_id := Some (u "SF0125"); price := None;
             quantity := Some 3 |}.

(** A WB order line. *)
Definition wb_order (warehouse article : pystr) (p : option Z) : order :=
  {| date_ := Some (u "2024-06-10"); dateFull := None; created_at := None;
     priceWithDisc := p; warehouseName := Some warehouse;
     regionName := Some (u "R"); supplierArticle := Some article;
     financial_data := None; analytics_data := None; products := None |}.

(** Sixteen WB orders, each from a warehouse of its own. *)
Definition sixteen_warehouses : list order :=
  map (fun i => wb_order [N.of_nat (65 + i)] (u "SF0125") (Some 100))
    (seq 0 16).

(** Two WB orders from two warehouses. *)
Definition two_orders : list order :=
  [ wb_order (u "Коледино") (u "SF0125") (Some 100);
    wb_order (u "Казань") (u "SM0250") None ].

(** A WB stock report with a negative quantity. *)
Definition negative_stock_rows : list raw_stock :=
  [ {| rs_supplierArticle := Some (u "SF0125"); rs_quantityFull := Some 10;
       rs_warehouseName := Some (u "Коледино") |};
    {| rs_supplierArticle := Some (u "SM0250"); rs_quantityFull := Some (-3);
       rs_warehouseName := Some (u "Коледино") |} ].

(** The scenario of the spec: Коледино stocks 10 and Невинномысск stocks 5
    units of SF0125. *)
Definition scenario_stocks : list stock_wh :=
  [ {| wh_name := u "Коледино"; wh_products := {[ u "SF0125" := 10 ]} |};
    {| wh_name := u "Невинномысск"; wh_products := {[ u "SF0125" := 5 ]} |} ].

(* ===================================================================== *)
(** * Vocabulary of the further properties *)
(* ===================================================================== *)

(** ** Aggregator *)

(** The records filed under [k] along a dimension. *)
Definition records_of (key_of : order -> pystr) (k : pystr)
  (sales : list order) : list order :=
  List.filter (fun item => pystr_eqb k (key_of item)) sales.

(** The count and the revenue that a bucket of the result must hold for the
    records of its name along [key_of]. *)
Definition holds_records (mp : mp_type) (key_of : order -> pystr)
  (sales : list order) (nm : pystr) (cnt rev : Z) : Prop :=
  let mine := records_of key_of nm sales in
  mine <> []
  /\ cnt = Z.of_nat (length mine)
  /\ rev = sumZ (map (order_value mp) mine).

(** A measure [m] of the breakdown entry [sub] of the bucket [k], zero when
    the bucket or the entry is absent. *)
Definition breakdown_at (m : entry -> Z) (d : odict acc_bucket)
  (k sub : pystr) : Z :=
  match assoc k d with
  | Some b =>
    match assoc sub (a_breakdown b) with Some e => m e | None => 0 end
  | None => 0
  end.

(** The product lines of the records filed under [k] along a dimension. *)
Definition lines_of (mp : mp_type) (key_of : order -> pystr) (k : pystr)
  (sales : list order) : list (pystr * (Z * Z)) :=
  flat_map (product_lines mp) (records_of key_of k sales).

(** The breakdown of a bucket is well formed: its entries are sorted by
    [key], have distinct names, and the entry [e] holds the units and the
    amounts that [lines e] gives to the article [article e]. *)
Definition breakdown_ok (key : entry -> Z)
  (lines : entry -> list (pystr * (Z * Z))) (article : entry -> pystr)
  (b : bucket) : Prop :=
  StronglySorted (desc key) (breakdown b)
  /\ NoDup (map e_name (breakdown b))
  /\ Forall (fun e => e_count e = units_for (article e) (lines e)
                      /\ e_revenue e = revenue_for (article e) (lines e))
       (breakdown b).

(** Every bucket of the dict has a breakdown that files its entries under
    their names, once each. *)
Definition breakdowns_wf (d : odict acc_bucket) : Prop :=
  Forall (fun b => named e_name (a_breakdown b)
                   /\ NoDup (keys (a_breakdown b)))
    (values d).

(** ** PeriodFilter *)

(** The window of [periods_config] with the key [k] (the first window when
    there is none). *)
Definition window (k : pystr) : period :=
  default today_window
    (find (fun p => pystr_eqb (key p) k) periods_config).

(** The dates of [p1] are dates of [p2], whatever the day. *)
Definition narrower (p1 p2 : period) : Prop :=
  forall today d : date,
    in_window today p1 d = true -> in_window today p2 d = true.

(** ** ChartDatasetBuilder *)

(** The cluster of a warehouse of [stocks_warehouse_products]. *)
Definition cluster_of (mp : mp_type) (wh : stock_wh) : pystr :=
  get_warehouse_cluster (wh_name wh) mp.

(** The warehouses of the cluster [c], in input order. *)
Definition group (mp : mp_type) (c : pystr) (stocks_wp : list stock_wh)
  : list stock_wh :=
  List.filter (fun wh => pystr_eqb c (cluster_of mp wh)) stocks_wp.

(** The cluster metadata, cluster by cluster, the labels counted from
    [from]. *)
Fixpoint infos (cw : odict (list stock_wh)) (from : nat) (sc : list pystr)
  : list cluster_info :=
  match sc with
  | [] => []
  | c :: rest =>
    let warehouses := warehouses_of cw c in
    let n := length warehouses in
    {| ci_name := c;
       start_index := Z.of_nat from;
       warehouse_count := Z.of_nat n;
       total_stock :=
         sumZ (map (fun wh => sum_values (wh_products wh)) warehouses);
       end_index := Z.of_nat (from + n) - 1 |}
    :: infos cw (from + n) rest
  end.

(** The clusters cover the labels from [from] to [total] without a gap:
    each starts where the one before ended and spans
    [warehouse_count >= 1] labels. *)
Fixpoint contiguous (from : Z) (clusters : list cluster_info) (total : Z)
  : Prop :=
  match clusters with
  | [] => from = total
  | c :: rest =>
    start_index c = from
    /\ start_index c <= end_index c
    /\ warehouse_count c = end_index c - start_index c + 1
    /\ contiguous (end_index c + 1) rest total
  end.

(** [labels[start_index : end_index + 1]] *)
Definition slice (labels : list pystr) (c : cluster_info) : list pystr :=
  take (Z.to_nat (end_index c + 1 - start_index c))
    (drop (Z.to_nat (start_index c)) labels).

(** [a <= b] on strings *)
Definition pystr_le (a b : pystr) : Prop := pystr_ltb b a = false.

(** *** Stock totals *)

(** The three fields that [calculate_total_stocks_by_product] reads from a
    row, with their defaults. *)
Definition stock_article (item : raw_stock) : pystr :=
  default Unknown (rs_supplierArticle item).

Definition stock_qty (item : raw_stock) : Z :=
  default 0 (rs_quantityFull item).

Definition stock_warehouse (item : raw_stock) : pystr :=
  default Unknown (rs_warehouseName item).

(** The rows of an article; those of them with stock; those of a warehouse. *)
Definition stock_rows (article : pystr) (raw_stocks : list raw_stock)
  : list raw_stock :=
  List.filter (fun item => pystr_eqb article (stock_article item)) raw_stocks.

Definition in_stock (item : raw_stock) : bool := 0 <? stock_qty item.

Definition stocked_at (warehouse : pystr) (rows : list raw_stock)
  : list raw_stock :=
  List.filter (fun item => pystr_eqb warehouse (stock_warehouse item))
    (List.filter in_stock rows).

(** [products[a]['quantity']] and [product_warehouses[a][w]], 0 when absent. *)
Definition quantity_at (d : odict acc_product) (a : pystr) : Z :=
  match assoc a d with Some p => ap_quantity p | None => 0 end.

Definition stored_at (ws : odict Z) (w : pystr) : Z :=
  match assoc w ws with Some q => q | None => 0 end.

Definition warehouse_at (d : odict acc_product) (a w : pystr) : Z :=
  match assoc a d with Some p => stored_at (ap_warehouses p) w | None => 0 end.

(** The second loop of [calculate_total_stocks_by_product] on one product. *)
Definition finish_product (p : acc_product) : stock_product :=
  {| sp_article := ap_article p;
     sp_quantity := ap_quantity p;
     sp_warehouses_count := Z.of_nat (length (ap_warehouses p));
     sp_color := ap_color p;
     sp_by_warehouse := sorted_desc snd (ap_warehouses p) |}.

(** What holds of every accumulated product. *)
Definition product_wf (rt : runtime) (p : acc_product) : Prop :=
  ap_color p = get_article_color rt (ap_article p)
  /\ NoDup (keys (ap_warehouses p))
  /\ Forall (fun q => 0 < q) (values (ap_warehouses p)).

(** A product line of the result, read against the rows of its article. *)
Definition stock_line_ok (rt : runtime) (raw_stocks : list raw_stock)
  (p : stock_product) : Prop :=
  let rows := stock_rows (sp_article p) raw_stocks in
  rows <> []
  /\ sp_quantity p = sumZ (map stock_qty rows)
  /\ sp_color p = get_article_color rt (sp_article p)
  /\ sp_warehouses_count p = Z.of_nat (length (sp_by_warehouse p))
  /\ StronglySorted (desc snd) (sp_by_warehouse p)
  /\ NoDup (map fst (sp_by_warehouse p))
  /\ (forall w, In w (map fst (sp_by_warehouse p)) <->
                exists item, In item rows /\ in_stock item = true
                             /\ stock_warehouse item = w)
  /\ Forall (fun e => 0 < snd e
                      /\ snd e = sumZ (map stock_qty (stocked_at (fst e) rows)))
       (sp_by_warehouse p)
  /\ sumZ (map snd (sp_by_warehouse p))
     = sumZ (map stock_qty (List.filter in_stock rows)).

Definition two_stock_rows : list raw_stock :=
  [ {| rs_supplierArticle := Some (u "SF0125"); rs_quantityFull := Some 3;
       rs_warehouseName := Some (u "Коледино") |};
    {| rs_supplierArticle := Some (u "SF0125"); rs_quantityFull := Some 0;
       rs_warehouseName := Some (u "Казань") |};
    {| rs_supplierArticle := None; rs_quantityFull := None;
       rs_warehouseName := None |} ].

(** *** The figures of a window in the finished document *)

(** A figure of one marketplace in the window [k], 0 when it is not there. *)
Definition figure (f : period_result -> Z)
  (side : period_entry -> option period_result) (d : dashboard) (k : pystr)
  : Z :=
  match assoc k (period_data d) ≫= side with Some r => f r | None => 0 end.

Definition orders_of (r : period_result) : Z := r_orders_count (agg r).

Definition redemptions_of (r : period_result) : Z :=
  default 0 (redemptions_count r).

(** A figure that grows with the window. *)
Definition grows (f : pystr -> Z) : Prop :=
  0 <= f (u "today") /\ 0 <= f (u "yesterday")
  /\ f (u "today") + f (u "yesterday") <= f (u "days_3")
  /\ f (u "days_3") <= f (u "days_7")
  /\ f (u "days_7") <= f (u "days_30").

(** *** Colors *)



(** *** The document without its colors *)

Definition plain_acc (p : acc_product) : acc_product :=
  {| ap_article := ap_article p; ap_quantity := ap_quantity p;
     ap_color := []; ap_warehouses := ap_warehouses p |}.

Definition plain_product (p : stock_product) : stock_product :=
  {| sp_article := sp_article p; sp_quantity := sp_quantity p;
     sp_warehouses_count := sp_warehouses_count p; sp_color := [];
     sp_by_warehouse := sp_by_warehouse p |}.

Definition plain_dataset (ds : dataset) : dataset :=
  {| label := label ds; data := data ds; backgroundColor := [];
     borderColor := borderColor ds; borderWidth := borderWidth ds |}.

Definition plain_chart (c : chart_data) : chart_data :=
  {| labels := labels c; datasets := map plain_dataset (datasets c);
     clusters := clusters c |}.

Definition plain_wb_stocks (s : wb_stocks) : wb_stocks :=
  {| ws_by_warehouse := ws_by_warehouse s;
     ws_by_product := map plain_product (ws_by_product s);
     ws_chart_data := plain_chart <$> ws_chart_data s;
     ws_all_articles := ws_all_articles s |}.

Definition plain_ozon_stocks (s : ozon_stocks) : ozon_stocks :=
  {| os_by_warehouse := os_by_warehouse s;
     os_by_product := map (fun ic => (fst ic, [])) (os_by_product s);
     os_chart_data := plain_chart <$> os_chart_data s;
     os_all_articles := os_all_articles s |}.

Definition plain (d : dashboard) : dashboard :=
  {| last_update := last_update d;
     dsummary := dsummary d; marketplaces := marketplaces d;
     stocks_wb := plain_wb_stocks <$> stocks_wb d;
     stocks_ozon := plain_ozon_stocks <$> stocks_ozon d;
     period_data := period_data d |}.

(** Two runs that parse dates alike and print the same time stamp; their
    [hash] may differ. *)
Definition same_clock (rt1 rt2 : runtime) : Prop :=
  fromisoformat rt1 = fromisoformat rt2
  /\ strptime_ymd rt1 = strptime_ymd rt2
  /\ now_stamp rt1 = now_stamp rt2.

(** The document of the WB fetcher for one stock row and one order of the
    article "ABC", which has no fixed color. *)
Definition abc_document : wb_raw :=
  wb_result
    [ {| rs_supplierArticle := Some (u "ABC"); rs_quantityFull := Some 5;
         rs_warehouseName := Some (u "Коледино") |} ]
    [ wb_order (u "Коледино") (u "ABC") (Some 100) ] [].

(** The colors of the product lines under [stocks.wb.by_product]. *)
Definition product_colors (r : run dashboard) : list pystr :=
  match r with
  | Returns d =>
    match stocks_wb d with
    | Some s => map sp_color (ws_by_product s)
    | None => []
    end
  | Raises _ => []
  end.

Definition revenue_of (r : period_result) : Z := r_revenue (agg r).

(** ** The fetchers *)

(** The name, count and revenue of a bucket, without its breakdown. *)
Definition acc_totals (b : acc_bucket) : entry :=
  {| e_name := a_name b; e_count := a_count b; e_revenue := a_revenue b |}.

Definition bucket_totals (b : bucket) : entry :=
  {| e_name := name b; e_count := count b; e_revenue := revenue b |}.

(** The three fields that the stock loops read from a row. *)
Record stock_row := {
  sr_wh : pystr;
  sr_article : pystr;
  sr_qty : Z
}.

Definition wb_row (item : raw_stock) : stock_row :=
  {| sr_wh := stock_warehouse item; sr_article := stock_article item;
     sr_qty := stock_qty item |}.

Definition fbo_row_of (row : FetchOzon.fbo_row) : stock_row :=
  {| sr_wh := default Unknown (FetchOzon.fbo_warehouse_name row);
     sr_article := default Unknown (FetchOzon.item_code row);
     sr_qty := default 0 (FetchOzon.free_to_sell_amount row) |}.

(** The rows that pass the test of the loop. *)
Definition wb_kept (stocks : list raw_stock) : list stock_row :=
  List.filter (fun r => negb (sr_qty r =? 0)) (map wb_row stocks).

Definition ozon_kept (fbo_analytics : list FetchOzon.fbo_row)
  : list stock_row :=
  List.filter (fun r => negb (sr_qty r <=? 0)) (map fbo_row_of fbo_analytics).

Definition add_row (st : odict wh_acc * gset pystr) (r : stock_row)
  : odict wh_acc * gset pystr :=
  add_stock (sr_wh r) (sr_article r) (sr_qty r) st.

Definition rows_at (w : pystr) (rows : list stock_row) : list stock_row :=
  List.filter (fun r => pystr_eqb w (sr_wh r)) rows.

Definition rows_with (a : pystr) (rows : list stock_row) : list stock_row :=
  List.filter (fun r => pystr_eqb a (sr_article r)) rows.

(** [warehouses[w]['products'].get(a)] *)
Definition cell (st : odict wh_acc * gset pystr) (w a : pystr) : option Z :=
  assoc w (fst st) ≫= (fun x => wa_products x !! a).

Definition cell_of (rows : list stock_row) : option Z :=
  match rows with [] => None | _ => Some (sumZ (map sr_qty rows)) end.

(** How one row changes one cell. *)
Definition cell_add (w a : pystr) (c : option Z) (r : stock_row) : option Z :=
  if pystr_eqb w (sr_wh r) && pystr_eqb a (sr_article r)
  then Some (default 0 c + sr_qty r) else c.

(** What the two functions promise of their result for the rows kept. *)
Definition wp_contract (kept : list stock_row) (whs : list wh_acc)
  (arts : list pystr) : Prop :=
  StronglySorted (fun a b => pystr_ltb a b = true) arts
  /\ (forall a, In a arts <-> exists r, In r kept /\ sr_article r = a)
  /\ StronglySorted (desc wa_total) whs
  /\ NoDup (map wa_name whs)
  /\ Forall (fun w =>
               let mine := rows_at (wa_name w) kept in
               mine <> []
               /\ wa_total w = sumZ (map sr_qty mine)
               /\ wa_total w = sum_values (wa_products w)
               /\ forall a, wa_products w !! a = cell_of (rows_with a mine))
       whs.

(** The rows of a warehouse in the WB stock report. *)
Definition warehouse_rows (w : pystr) (stocks : list raw_stock)
  : list raw_stock :=
  List.filter (fun item => pystr_eqb w (stock_warehouse item)) stocks.

(** The end of the loop body of [aggregate_stocks_by_product_from_fbo]. *)
Definition fbo_add (by_product : odict FetchOzon.fbo_acc) (r : stock_row)
  : odict FetchOzon.fbo_acc :=
  odict_update (sr_article r)
    {| FetchOzon.fa_article := sr_article r; FetchOzon.fa_quantity := 0;
       FetchOzon.fa_warehouses := ∅ |}
    (fun p =>
       {| FetchOzon.fa_article := FetchOzon.fa_article p;
          FetchOzon.fa_quantity := FetchOzon.fa_quantity p + sr_qty r;
          FetchOzon.fa_warehouses :=
            {[ sr_wh r ]} ∪ FetchOzon.fa_warehouses p |})
    by_product.

Definition fbo_finish (data : FetchOzon.fbo_acc) : FetchOzon.fbo_product :=
  {| FetchOzon.fp_article := FetchOzon.fa_article data;
     FetchOzon.fp_quantity := FetchOzon.fa_quantity data;
     FetchOzon.fp_warehouses_count :=
       Z.of_nat (size (FetchOzon.fa_warehouses data)) |}.

(** [by_product[a]['warehouses']], empty when absent. *)
Definition warehouses_at (d : odict FetchOzon.fbo_acc) (a : pystr)
  : gset pystr :=
  match assoc a d with Some p => FetchOzon.fa_warehouses p | None => ∅ end.

(* ===================================================================== *)
(** * Properties *)
(* ===================================================================== *)

(** ** Strings *)

Lemma startswith_spec (p s : pystr) :
  startswith p s = true <-> exists r, s = p ++ r.
Proof.
  revert s. induction p as [|a p IH]; intros s; simpl.
  - split; [intros _; exists s; reflexivity | reflexivity].
  - destruct s as [|b s].
    + split; [discriminate | intros [r Hr]; discriminate].
    + rewrite andb_true_iff, N.eqb_eq, IH. split.
      * intros [-> [r ->]]. exists r. reflexivity.
      * intros [r Hr]. injection Hr as -> ->. split; [reflexivity | eauto].
Qed.

Lemma contains_spec (kw s : pystr) :
  contains kw s = true <-> exists a b, s = a ++ kw ++ b.
Proof.
  induction s as [|c s IH].
  - simpl. rewrite orb_false_r, startswith_spec. split.
    + intros [r Hr]. exists [], r. exact Hr.
    + intros [a [b Hab]]. destruct a; [exists b; exact Hab | discriminate].
  - cbn [contains]. rewrite orb_true_iff, startswith_spec, IH. split.
    + intros [[r Hr] | [a [b Hab]]].
      * exists [], r. exact Hr.
      * exists (c :: a), b. rewrite Hab. reflexivity.
    + intros [a [b Hab]]. destruct a as [|c' a].
      * left. exists b. exact Hab.
      * right. injection Hab as _ ->. exists a, b. reflexivity.
Qed.

Lemma pystr_eqb_eq (a b : pystr) : pystr_eqb a b = true <-> a = b.
Proof.
  revert b. induction a as [|x a IH]; intros [|y b]; simpl;
    try (split; [discriminate | intros H; discriminate]); [tauto |].
  rewrite andb_true_iff, N.eqb_eq, IH. split.
  - intros [-> ->]. reflexivity.
  - intros [= -> ->]. auto.
Qed.

Lemma pystr_eqb_refl (a : pystr) : pystr_eqb a a = true.
Proof. apply pystr_eqb_eq. reflexivity. Qed.

Lemma pystr_eqb_neq (a b : pystr) : pystr_eqb a b = false <-> a <> b.
Proof.
  rewrite <- pystr_eqb_eq. destruct (pystr_eqb a b); split; congruence.
Qed.

Lemma in_range_true (lo hi c : N) :
  in_range lo hi c = true <-> (lo <= c <= hi)%N.
Proof. unfold in_range. rewrite andb_true_iff, !N.leb_le. reflexivity. Qed.

Lemma in_range_false (lo hi c : N) :
  in_range lo hi c = false <-> (c < lo \/ hi < c)%N.
Proof. unfold in_range. rewrite andb_false_iff, !N.leb_gt. reflexivity. Qed.

(** A code point outside the three upper-case ranges is its own lower case. *)
Lemma lower_cp_fixed (c : N) :
  in_range 65 90 c = false -> in_range 1040 1071 c = false ->
  in_range 1024 1039 c = false -> lower_cp c = c.
Proof. unfold lower_cp. intros -> -> ->. reflexivity. Qed.

Lemma lower_cp_idem (c : N) : lower_cp (lower_cp c) = lower_cp c.
Proof.
  unfold lower_cp at 2 3.
  destruct (in_range 65 90 c) eqn:E1;
    [| destruct (in_range 1040 1071 c) eqn:E2;
       [| destruct (in_range 1024 1039 c) eqn:E3]];
    rewrite ?in_range_true, ?in_range_false in *;
    apply lower_cp_fixed; apply in_range_false; lia.
Qed.

Lemma lower_idem (s : pystr) : lower (lower s) = lower s.
Proof.
  unfold lower. rewrite map_map. apply map_ext. intros c. apply lower_cp_idem.
Qed.

(** ** Sums *)

Lemma sumZ_cons (x : Z) (l : list Z) : sumZ (x :: l) = x + sumZ l.
Proof. reflexivity. Qed.

Lemma sumZ_app (l1 l2 : list Z) : sumZ (l1 ++ l2) = sumZ l1 + sumZ l2.
Proof. induction l1 as [|x l1 IH]; simpl; [reflexivity | rewrite IH; lia]. Qed.

Lemma sumZ_perm (l1 l2 : list Z) : Permutation l1 l2 -> sumZ l1 = sumZ l2.
Proof. induction 1; simpl; lia. Qed.

Lemma sumZ_map_perm {A : Type} (f : A -> Z) (l1 l2 : list A) :
  Permutation l1 l2 -> sumZ (map f l1) = sumZ (map f l2).
Proof. intros H. apply sumZ_perm, Permutation_map, H. Qed.

Lemma sumZ_nonneg (l : list Z) : Forall (fun x => 0 <= x) l -> 0 <= sumZ l.
Proof. induction 1; simpl; lia. Qed.

Lemma sumZ_zero (l : list Z) : Forall (fun x => x = 0) l -> sumZ l = 0.
Proof. induction 1; simpl; lia. Qed.

Lemma sumZ_take_drop (n : nat) (l : list Z) :
  sumZ (take n l) + sumZ (drop n l) = sumZ l.
Proof. rewrite <- sumZ_app, take_drop. reflexivity. Qed.

(** ** [sorted]: permutation, order, stability *)

Section Sorting.

Context {A : Type}.

Lemma insert_sorted_perm (before : A -> A -> bool) (x : A) (l : list A) :
  Permutation (insert_sorted before x l) (x :: l).
Proof.
  induction l as [|y t IH]; simpl; [reflexivity |].
  destruct (before y x); [| reflexivity].
  rewrite IH. apply perm_swap.
Qed.

Lemma py_sorted_perm (before : A -> A -> bool) (l : list A) :
  Permutation (py_sorted before l) l.
Proof.
  induction l as [|x t IH]; simpl; [reflexivity |].
  rewrite insert_sorted_perm. constructor. exact IH.
Qed.

Lemma py_sorted_length (before : A -> A -> bool) (l : list A) :
  length (py_sorted before l) = length l.
Proof. apply Permutation_length, py_sorted_perm. Qed.

(** Insertion moves [x] only past elements that [p] rejects when it
    accepts [x]: the elements selected by [p] keep their relative order. *)
Lemma insert_sorted_filter (before : A -> A -> bool) (p : A -> bool)
  (x : A) (l : list A) :
  (forall y, before y x = true -> p x = true -> p y = false) ->
  List.filter p (insert_sorted before x l) = List.filter p (x :: l).
Proof.
  intros Hb. induction l as [|y t IH]; [reflexivity |].
  cbn [insert_sorted]. destruct (before y x) eqn:Hyx; [| reflexivity].
  cbn [List.filter] in *. rewrite IH.
  destruct (p x) eqn:Hpx; [| reflexivity].
  rewrite (Hb y Hyx eq_refl). reflexivity.
Qed.

Variable key : A -> Z.

Lemma insert_desc_sorted (x : A) (l : list A) :
  StronglySorted (desc key) l ->
  StronglySorted (desc key) (insert_sorted (fun y x => key x <? key y) x l).
Proof.
  induction 1 as [|y t Hs IH Hall]; simpl.
  - repeat constructor.
  - destruct (Z.ltb_spec (key x) (key y)) as [Hlt | Hge].
    + constructor; [exact IH |].
      rewrite insert_sorted_perm. constructor; [unfold desc; lia | exact Hall].
    + constructor; [constructor; assumption |].
      constructor; [exact Hge |].
      eapply List.Forall_impl; [| exact Hall]. unfold desc. intros z Hz. lia.
Qed.

Lemma sorted_desc_sorted (l : list A) :
  StronglySorted (desc key) (sorted_desc key l).
Proof.
  induction l as [|x t IH]; [constructor |].
  apply insert_desc_sorted, IH.
Qed.

Lemma sorted_desc_perm (l : list A) : Permutation (sorted_desc key l) l.
Proof. apply py_sorted_perm. Qed.

(** Stability: the elements of any one key come out in input order. *)
Lemma sorted_desc_stable (v : Z) (l : list A) :
  List.filter (fun a => key a =? v) (sorted_desc key l)
  = List.filter (fun a => key a =? v) l.
Proof.
  induction l as [|x t IH]; [reflexivity |].
  unfold sorted_desc, py_sorted in *. cbn [fold_right].
  rewrite insert_sorted_filter.
  - cbn [List.filter]. rewrite IH. reflexivity.
  - intros y Hyx Hx. apply Z.eqb_eq in Hx. apply Z.ltb_lt in Hyx.
    apply Z.eqb_neq. lia.
Qed.

End Sorting.

Lemma sorted_desc_spec {A : Type} (key : A -> Z) (l : list A) :
  stable_desc_sort_of key l (sorted_desc key l).
Proof.
  split; [apply sorted_desc_perm |].
  split; [apply sorted_desc_sorted | intros v; apply sorted_desc_stable].
Qed.

(** Two lists in descending order with the same elements of every key, in
    the same order, are equal: the three conditions of [stable_desc_sort_of]
    leave one output. *)
Lemma sorted_filter_eq {A : Type} (key : A -> Z) (o1 o2 : list A) :
  StronglySorted (desc key) o1 -> StronglySorted (desc key) o2 ->
  (forall v, List.filter (fun a => key a =? v) o1
             = List.filter (fun a => key a =? v) o2) ->
  o1 = o2.
Proof.
  intros S1. revert o2. induction S1 as [|x t1 S1 IH H1]; intros o2 S2 Hf.
  - destruct o2 as [|y t2]; [reflexivity |].
    specialize (Hf (key y)). simpl in Hf. rewrite Z.eqb_refl in Hf.
    discriminate Hf.
  - destruct o2 as [|y t2].
    { specialize (Hf (key x)). simpl in Hf. rewrite Z.eqb_refl in Hf.
      discriminate Hf. }
    inversion S2 as [|? ? S2' H2]; subst.
    assert (Hxy : key x = key y).
    { assert (Hx : In x (y :: t2)).
      { eapply (proj1 (filter_In (fun a => key a =? key x) x (y :: t2))).
        rewrite <- Hf. simpl. rewrite Z.eqb_refl. left. reflexivity. }
      assert (Hy : In y (x :: t1)).
      { eapply (proj1 (filter_In (fun a => key a =? key y) y (x :: t1))).
        rewrite Hf. simpl. rewrite Z.eqb_refl. left. reflexivity. }
      rewrite List.Forall_forall in H1, H2. unfold desc in H1, H2.
      destruct Hx as [-> | Hx]; [reflexivity |].
      destruct Hy as [-> | Hy]; [reflexivity |].
      specialize (H1 _ Hy). specialize (H2 _ Hx). lia. }
    pose proof (Hf (key x)) as Hh. simpl in Hh.
    rewrite <- Hxy, Z.eqb_refl in Hh. injection Hh as <- Hh.
    f_equal. apply IH; [exact S2' |].
    intros v. destruct (Z.eq_dec v (key x)) as [-> | Hne]; [exact Hh |].
    specialize (Hf v). simpl in Hf.
    destruct (Z.eqb_spec (key x) v) as [E | _]; [congruence | exact Hf].
Qed.

Lemma stable_desc_sort_unique {A : Type} (key : A -> Z)
  (input o1 o2 : list A) :
  stable_desc_sort_of key input o1 -> stable_desc_sort_of key input o2 ->
  o1 = o2.
Proof.
  intros (_ & S1 & F1) (_ & S2 & F2).
  apply (sorted_filter_eq key); [exact S1 | exact S2 |].
  intros v. rewrite F1, F2. reflexivity.
Qed.

(** Sorting commutes with a map that preserves the key. *)
Lemma sorted_desc_map {A B : Type} (f : A -> B) (kA : A -> Z) (kB : B -> Z)
  (l : list A) :
  (forall a, kB (f a) = kA a) ->
  map f (sorted_desc kA l) = sorted_desc kB (map f l).
Proof.
  intros Hk. induction l as [|x t IH]; [reflexivity |].
  unfold sorted_desc, py_sorted in *. cbn [fold_right map]. rewrite <- IH.
  generalize (fold_right (insert_sorted (fun y x0 => kA x0 <? kA y)) [] t).
  intros s. induction s as [|y s IHs]; [reflexivity |].
  cbn [insert_sorted map]. rewrite !Hk.
  destruct (kA x <? kA y); cbn [map]; [rewrite IHs |]; reflexivity.
Qed.

(** ** Dicts in insertion order *)

Section Odict.

Context {V : Type}.
Implicit Types (d : odict V) (k : pystr) (f : V -> V).

Lemma assoc_update k k' init f d :
  assoc k (odict_update k' init f d)
  = if pystr_eqb k k' then Some (f (default init (assoc k' d)))
    else assoc k d.
Proof.
  induction d as [|[k0 v0] t IH]; simpl.
  - destruct (pystr_eqb k k'); reflexivity.
  - destruct (pystr_eqb k' k0) eqn:E0; simpl.
    + apply pystr_eqb_eq in E0. subst k0.
      destruct (pystr_eqb k k'); reflexivity.
    + rewrite IH. destruct (pystr_eqb k k') eqn:E1; [| reflexivity].
      apply pystr_eqb_eq in E1. subst k'. rewrite E0. reflexivity.
Qed.

Lemma values_update_Forall (P : V -> Prop) k init f d :
  P (f init) -> (forall v, P v -> P (f v)) ->
  Forall P (values d) -> Forall P (values (odict_update k init f d)).
Proof.
  intros Hi Hf. induction d as [|[k0 v0] t IH]; simpl; intros H.
  - constructor; [exact Hi | constructor].
  - inversion H; subst. destruct (pystr_eqb k k0); simpl; constructor; auto.
Qed.

(** A measure that [f] raises by [delta] is raised by [delta] in total. *)
Lemma sum_values_update (m : V -> Z) (delta : Z) k init f d :
  m init = 0 -> (forall v, m (f v) = m v + delta) ->
  sumZ (map m (values (odict_update k init f d)))
  = sumZ (map m (values d)) + delta.
Proof.
  intros Hi Hf. induction d as [|[k0 v0] t IH]; simpl.
  - rewrite Hf, Hi. lia.
  - destruct (pystr_eqb k k0); simpl; [rewrite Hf | rewrite IH]; lia.
Qed.

End Odict.

(** ** Classifier *)

Lemma scan_keywords_true (name : pystr) (kws : list pystr) :
  scan_keywords name kws = true <->
  exists kw, In kw kws /\ contains kw name = true.
Proof.
  induction kws as [|k kws IH]; simpl.
  - split; [discriminate | intros [kw [[] _]]].
  - destruct (contains k name) eqn:Hk.
    + split; [intros _; exists k; auto | reflexivity].
    + rewrite IH. split.
      * intros [kw [Hin Hc]]. exists kw. auto.
      * intros [kw [[<- | Hin] Hc]]; [congruence | exists kw; auto].
Qed.

Lemma scan_clusters_None (name : pystr) (t : cluster_table) :
  scan_clusters (lower name) t = None <-> Forall (fun e => ~ matches name e) t.
Proof.
  induction t as [|[c kws] t IH]; simpl.
  - split; [constructor | reflexivity].
  - destruct (scan_keywords (lower name) kws) eqn:Hs.
    + split; [discriminate |].
      intros H. inversion H as [|? ? Hno _]; subst. exfalso. apply Hno.
      apply scan_keywords_true in Hs. exact Hs.
    + rewrite IH. split.
      * intros H. constructor; [| exact H].
        intros Hm. apply scan_keywords_true in Hm. simpl in Hm. congruence.
      * intros H. inversion H; assumption.
Qed.

Lemma scan_clusters_Some (name : pystr) (t : cluster_table) (c : pystr) :
  scan_clusters (lower name) t = Some c ->
  exists pre kws post,
    t = pre ++ (c, kws) :: post /\
    Forall (fun e => ~ matches name e) pre /\
    matches name (c, kws).
Proof.
  induction t as [|[c' kws] t IH]; simpl; [discriminate |].
  destruct (scan_keywords (lower name) kws) eqn:Hs.
  - intros [= ->]. exists [], kws, t. repeat split; [constructor |].
    apply scan_keywords_true in Hs. exact Hs.
  - intros H. destruct (IH H) as (pre & kws' & post & -> & Hpre & Hm).
    exists ((c', kws) :: pre), kws', post. repeat split; [| exact Hm].
    constructor; [| exact Hpre].
    intros Hm'. apply scan_keywords_true in Hm'. simpl in Hm'. congruence.
Qed.

(** No cluster of either table is named like the fallback. *)
Lemma fallback_not_declared (mp : mp_type) (c : pystr) (kws : list pystr) :
  In (c, kws) (clusters_of mp) -> c <> fallback_cluster.
Proof.
  assert (H : forallb (fun e => negb (pystr_eqb (fst e) fallback_cluster))
                (clusters_of mp) = true)
    by (destruct mp; vm_compute; reflexivity).
  rewrite forallb_forall in H. intros Hin Heq. specialize (H _ Hin).
  simpl in H. apply pystr_eqb_eq in Heq. rewrite Heq in H. discriminate.
Qed.

Lemma keywords_lowercase (mp : mp_type) :
  Forall (fun e => Forall (fun kw => lower kw = kw) (snd e)) (clusters_of mp).
Proof.
  assert (H : forallb (fun e => forallb (fun kw => pystr_eqb (lower kw) kw) (snd e))
                (clusters_of mp) = true)
    by (destruct mp; vm_compute; reflexivity).
  rewrite forallb_forall in H. apply List.Forall_forall. intros e He.
  specialize (H e He). rewrite forallb_forall in H.
  apply List.Forall_forall. intros kw Hkw. specialize (H kw Hkw).
  apply pystr_eqb_eq. exact H.
Qed.

Example cluster_koledino :
  get_warehouse_cluster (u "Коледино") wb = u "Центральный".
Proof. vm_compute. reflexivity. Qed.

Example cluster_nevinnomyssk :
  get_warehouse_cluster (u "Невинномысск") wb = u "Южный + Северо-Кавказский".
Proof. vm_compute. reflexivity. Qed.

(** The first declared match wins: "Самара-Казань" holds keywords of the
    Ozon clusters Казань and Самара and goes to the one declared first. *)
Example cluster_first_declared :
  get_warehouse_cluster (u "Самара-Казань") ozon = u "Казань".
Proof. vm_compute. reflexivity. Qed.

(** C3, as the spec states it: with the fallback named "Other", the
    equivalence between "the fallback is returned" and "no keyword matches"
    fails: nothing matches the name "xyz", and the classifier returns the
    literal 'Прочие'. *)
Lemma other_is_not_the_fallback :
  ~ (forall name mp,
        get_warehouse_cluster name mp = u "Other" <->
        Forall (fun e => ~ matches name e) (clusters_of mp)).
Proof.
  intros H. destruct (H (u "xyz") wb) as [_ H2].
  assert (Hno : Forall (fun e => ~ matches (u "xyz") e) (clusters_of wb))
    by (apply scan_clusters_None; vm_compute; reflexivity).
  specialize (H2 Hno). vm_compute in H2. discriminate.
Qed.

(** C3 (amended): classification is total and first declared match wins: the
    result is the name of the first table entry, in declared order, one of
    whose keywords occurs in the lower-cased name; the fallback 'Прочие' is
    returned if and only if no keyword of any entry of the marketplace's
    table matches. *)
Theorem get_warehouse_cluster_first_match (name : pystr) (mp : mp_type) :
  ((exists pre c kws post,
       clusters_of mp = pre ++ (c, kws) :: post /\
       Forall (fun e => ~ matches name e) pre /\
       matches name (c, kws) /\
       get_warehouse_cluster name mp = c)
   \/
   (Forall (fun e => ~ matches name e) (clusters_of mp) /\
    get_warehouse_cluster name mp = fallback_cluster))
  /\
  (get_warehouse_cluster name mp = fallback_cluster <->
   Forall (fun e => ~ matches name e) (clusters_of mp)).
Proof.
  unfold get_warehouse_cluster.
  destruct (scan_clusters (lower name) (clusters_of mp)) as [c|] eqn:Hs.
  - destruct (scan_clusters_Some _ _ _ Hs) as (pre & kws & post & Ht & Hpre & Hm).
    split.
    + left. exists pre, c, kws, post. auto.
    + split.
      * intros ->. exfalso.
        apply (fallback_not_declared mp fallback_cluster kws); [| reflexivity].
        rewrite Ht. apply in_or_app. right. left. reflexivity.
      * intros Hno. apply scan_clusters_None in Hno. congruence.
  - apply scan_clusters_None in Hs. split; [right; auto | split; auto].
Qed.

(** C10: the classifier depends on the name only through its lower-casing:
    two names with the same lower-casing (letter-case variants of each
    other) get the same cluster, in particular a name and [name.lower()];
    and every keyword of both tables is lower-case. *)
Theorem get_warehouse_cluster_case_insensitive
  (name name' : pystr) (mp : mp_type) :
  lower name' = lower name ->
  get_warehouse_cluster name' mp = get_warehouse_cluster name mp
  /\ get_warehouse_cluster (lower name) mp = get_warehouse_cluster name mp
  /\ Forall (fun e => Forall (fun kw => lower kw = kw) (snd e)) (clusters_of mp).
Proof.
  intros H. unfold get_warehouse_cluster. rewrite H, lower_idem.
  repeat split. apply keywords_lowercase.
Qed.

Lemma get_warehouse_cluster_case_insensitive_witness :
  lower (u "КОЛЕДИНО") = lower (u "Коледино") /\
  get_warehouse_cluster (u "КОЛЕДИНО") wb = get_warehouse_cluster (u "Коледино") wb.
Proof.
  assert (H : lower (u "КОЛЕДИНО") = lower (u "Коледино"))
    by (vm_compute; reflexivity).
  exact (conj H (proj1 (get_warehouse_cluster_case_insensitive _ _ wb H))).
Defined.

(** ** Aggregator *)

Lemma fold_left_inv {S X : Type} (P : S -> Prop) (f : S -> X -> S)
  (l : list X) (s : S) :
  P s -> (forall s x, P s -> P (f s x)) -> P (fold_left f l s).
Proof.
  intros Hs Hf. revert s Hs. induction l as [|x l IH]; simpl; auto.
Qed.

Lemma bucket_add_with_additive (sub : pystr) (n amount : Z) (b : acc_bucket) :
  acc_additive b -> acc_additive (bucket_add_with sub n amount b).
Proof.
  intros [Hr Hc]. split; simpl.
  - rewrite (sum_values_update e_revenue amount); [lia | reflexivity | reflexivity].
  - rewrite (sum_values_update e_count n); [lia | reflexivity | reflexivity].
Qed.

Lemma new_bucket_additive (k : pystr) : acc_additive (new_bucket k).
Proof. split; reflexivity. Qed.

Lemma update_with_additive (k sub : pystr) (n amount : Z)
  (d : odict acc_bucket) :
  Forall acc_additive (values d) ->
  Forall acc_additive
    (values (odict_update k (new_bucket k) (bucket_add_with sub n amount) d)).
Proof.
  apply values_update_Forall.
  - apply bucket_add_with_additive, new_bucket_additive.
  - intros v. apply bucket_add_with_additive.
Qed.

Lemma flatten_additive (key : entry -> Z) (b : acc_bucket) :
  acc_additive b -> additive (flatten key b).
Proof.
  intros [Hr Hc]. split; simpl.
  - rewrite Hr. symmetry. apply sumZ_map_perm, sorted_desc_perm.
  - rewrite Hc. symmetry. apply sumZ_map_perm, sorted_desc_perm.
Qed.

Lemma Forall_sorted_desc {A : Type} (P : A -> Prop) (key : A -> Z)
  (l : list A) :
  Forall P l -> Forall P (sorted_desc key l).
Proof.
  intros H. apply List.Forall_forall. intros x Hx.
  rewrite List.Forall_forall in H. apply H.
  eapply Permutation_in; [apply sorted_desc_perm | exact Hx].
Qed.

Lemma Forall_map_flatten (P : acc_bucket -> Prop) (Q : bucket -> Prop)
  (key : entry -> Z) (l : list acc_bucket) :
  (forall b, P b -> Q (flatten key b)) ->
  Forall P l -> Forall Q (map (flatten key) l).
Proof. intros HPQ. induction 1; simpl; constructor; auto. Qed.

(** The product dict, for either marketplace, holds additive buckets. *)
Lemma by_product_additive (mp : mp_type) (sales : list order) :
  Forall acc_additive (values (st_by_product (agg_loop mp sales))).
Proof.
  unfold agg_loop. apply fold_left_inv; [constructor |].
  intros st item H. destruct mp; simpl.
  - apply update_with_additive, H.
  - apply fold_left_inv; [exact H |].
    intros bp prod Hbp. apply update_with_additive, Hbp.
Qed.

(** The WB warehouse dict holds additive buckets. *)
Lemma by_warehouse_additive_wb (sales : list order) :
  Forall acc_additive (values (st_by_warehouse (agg_loop wb sales))).
Proof.
  unfold agg_loop. apply fold_left_inv; [constructor |].
  intros st item H. simpl. apply update_with_additive, H.
Qed.

(** The Ozon warehouse dict holds buckets with an empty breakdown. *)
Lemma by_warehouse_empty_ozon (sales : list order) :
  Forall (fun b => a_breakdown b = [])
    (values (st_by_warehouse (agg_loop ozon sales))).
Proof.
  unfold agg_loop. apply fold_left_inv; [constructor |].
  intros st item H. simpl. apply values_update_Forall; auto.
Qed.

(** On Ozon the warehouse bucket of a single posting has count 1 and
    revenue 200, and its [by_product] breakdown is empty. *)
Lemma additivity_fails_for_ozon_warehouses :
  ~ (forall sales mp,
       Forall additive (sales_by_warehouse (aggregate_sales_data sales mp))).
Proof.
  intros H.
  specialize (H [posting {| offer_id := Some (u "SF0125");
                            price := Some 100; quantity := Some 2 |}] ozon).
  inversion H as [|b l [Hr Hc] _]; subst. vm_compute in Hc. discriminate.
Qed.

(** With the prices of [fractional_prices] the warehouse bucket holds
    3332.8500000000004, its two [by_product] entries hold 2432.77 and 900.08
    and add up to 3332.85; the counts are 3 and 2 + 1. *)
#[warnings="-inexact-float"]
Example rounded_revenue :
  map (fun b => (Binary64.revenue b,
                 map Binary64.e_revenue (Binary64.breakdown b),
                 Binary64.fsum (map Binary64.e_revenue (Binary64.breakdown b)),
                 Binary64.count b,
                 map Binary64.e_count (Binary64.breakdown b)))
    (Binary64.sales_by_warehouse fractional_prices)
  = [ (3332.8500000000004%float, [ 2432.77%float; 900.08%float ],
       3332.85%float, 3, [ 2; 1 ]) ].
Proof. vm_compute. reflexivity. Qed.

Lemma revenue_additivity_fails_in_floats :
  ~ (forall sales, Forall float_additive (Binary64.sales_by_warehouse sales)).
Proof.
  intros H. specialize (H fractional_prices).
  remember (Binary64.sales_by_warehouse fractional_prices) as l eqn:E.
  vm_compute in E. subst l.
  apply Forall_inv in H. destruct H as [Hr _]. vm_compute in Hr.
  match type of Hr with
  | ?x = ?y => apply (f_equal (fun z => PrimFloat.ltb y z)) in Hr
  end.
  vm_compute in Hr. discriminate Hr.
Qed.

(** C1, as the spec states it, fails twice: an Ozon warehouse bucket has an
    empty breakdown, and with prices that are not whole numbers the revenue
    of a WB warehouse bucket and the sum of its breakdown differ in the
    last bit. *)
Lemma additivity_fails :
  ~ (forall sales mp,
       Forall additive (sales_by_warehouse (aggregate_sales_data sales mp)))
  /\ ~ (forall sales,
          Forall float_additive (Binary64.sales_by_warehouse sales)).
Proof.
  split;
    [exact additivity_fails_for_ozon_warehouses
    | exact revenue_additivity_fails_in_floats].
Qed.

(** C1 (amended): when every amount is a whole number, so that the sums
    of the code are exact: in a WB aggregation every warehouse bucket's
    [by_product] entries and every product bucket's [by_warehouse] entries
    sum to the bucket's revenue and count; in an Ozon aggregation this holds
    of every product bucket, and every warehouse bucket has an empty
    breakdown (region buckets have none, for either marketplace). *)
Theorem breakdown_additivity (sales : list order) :
  Forall additive (sales_by_warehouse (aggregate_sales_data sales wb))
  /\ Forall additive (sales_by_product (aggregate_sales_data sales wb))
  /\ Forall additive (sales_by_product (aggregate_sales_data sales ozon))
  /\ Forall (fun b => breakdown b = [])
       (sales_by_warehouse (aggregate_sales_data sales ozon)).
Proof.
  unfold aggregate_sales_data; cbn [sales_by_warehouse sales_by_product].
  repeat split.
  - apply (Forall_map_flatten acc_additive); [apply flatten_additive |].
    apply Forall_take, Forall_sorted_desc, by_warehouse_additive_wb.
  - apply (Forall_map_flatten acc_additive); [apply flatten_additive |].
    apply Forall_sorted_desc, by_product_additive.
  - apply (Forall_map_flatten acc_additive); [apply flatten_additive |].
    apply Forall_sorted_desc, by_product_additive.
  - apply (Forall_map_flatten (fun b => a_breakdown b = [])).
    + intros b Hb. simpl. rewrite Hb. reflexivity.
    + apply Forall_take, Forall_sorted_desc, by_warehouse_empty_ozon.
Qed.

Lemma keys_update {V : Type} (k : pystr) (init : V) (f : V -> V)
  (d : odict V) :
  keys (odict_update k init f d) = see (keys d) k.
Proof.
  unfold see. induction d as [|[k0 v0] t IH]; simpl; [reflexivity |].
  destruct (pystr_eqb k k0); simpl; [reflexivity |].
  rewrite IH. destruct (mem k (keys t)); reflexivity.
Qed.

Lemma named_update {V : Type} (nm : V -> pystr) (k : pystr) (init : V)
  (f : V -> V) (d : odict V) :
  nm init = k -> (forall v, nm (f v) = nm v) ->
  named nm d -> named nm (odict_update k init f d).
Proof.
  intros Hi Hf. unfold named. induction d as [|[k0 v0] t IH]; simpl; intros H.
  - constructor; [simpl; rewrite Hf; exact Hi | constructor].
  - apply List.Forall_cons_iff in H. destruct H as [Hk Ht]. simpl in Hk.
    destruct (pystr_eqb k k0); simpl; constructor; simpl; auto.
    rewrite Hf. exact Hk.
Qed.

Lemma named_values {V : Type} (nm : V -> pystr) (d : odict V) :
  named nm d -> map nm (values d) = keys d.
Proof.
  unfold named, values, keys. induction 1 as [|[k v] t Hk _ IH]; simpl;
    [reflexivity |]. simpl in Hk. rewrite Hk, IH. reflexivity.
Qed.

Lemma product_dict_step (wh_name : pystr) (lines : list product_line)
  (bp : odict acc_bucket) :
  let bp' := fold_left (ozon_product_step wh_name) lines bp in
  named a_name bp ->
  named a_name bp'
  /\ keys bp'
     = fold_left see (map (fun prod => default Unknown (offer_id prod)) lines)
         (keys bp)
  /\ sumZ (map a_count (values bp'))
     = sumZ (map a_count (values bp))
       + sumZ (map (fun prod => default 1 (quantity prod)) lines).
Proof.
  revert bp. induction lines as [|prod lines IH]; intros bp; simpl.
  - intros H. repeat split; [exact H | lia].
  - intros H.
    assert (Hn : named a_name (ozon_product_step wh_name bp prod))
      by (apply named_update; [reflexivity | reflexivity | exact H]).
    destruct (IH _ Hn) as (H1 & H2 & H3). split; [exact H1 |].
    split.
    + rewrite H2. unfold ozon_product_step. rewrite keys_update. reflexivity.
    + rewrite H3. unfold ozon_product_step.
      rewrite (sum_values_update a_count (default 1 (quantity prod)));
        [lia | reflexivity | reflexivity].
Qed.

Lemma first_seen_snoc (l : list pystr) (k : pystr) :
  first_seen (l ++ [k]) = see (first_seen l) k.
Proof. unfold first_seen. rewrite fold_left_app. reflexivity. Qed.

Lemma first_seen_app (l1 l2 : list pystr) :
  first_seen (l1 ++ l2) = fold_left see l2 (first_seen l1).
Proof. unfold first_seen. apply fold_left_app. Qed.

Lemma sumZ_snoc (l : list Z) (x : Z) : sumZ (l ++ [x]) = sumZ l + x.
Proof. rewrite sumZ_app. simpl. lia. Qed.

Lemma agg_inv_init (mp : mp_type) : agg_inv mp [] agg_init.
Proof. constructor; try reflexivity; constructor. Qed.

Lemma agg_inv_step (mp : mp_type) (seen : list order) (st : agg_state)
  (item : order) :
  agg_inv mp seen st -> agg_inv mp (seen ++ [item]) (agg_step mp st item).
Proof.
  intros I.
  assert (Hlen : Z.of_nat (length (seen ++ [item])) = Z.of_nat (length seen) + 1)
    by (rewrite length_app; simpl; lia).
  destruct mp.
  - constructor; cbn [agg_step st_orders_count st_by_warehouse st_by_region
                      st_by_product];
      rewrite ?keys_update, ?map_app, ?flat_map_app, ?first_seen_app,
        ?sumZ_app, ?Hlen; cbn [map flat_map fold_left app].
    + rewrite (inv_orders _ _ _ I). reflexivity.
    + apply named_update; [reflexivity | reflexivity | apply I].
    + apply named_update; [reflexivity | reflexivity | apply I].
    + apply named_update; [reflexivity | reflexivity | apply I].
    + rewrite (inv_wh_keys _ _ _ I). reflexivity.
    + rewrite (inv_rg_keys _ _ _ I). reflexivity.
    + rewrite (inv_pr_keys _ _ _ I). reflexivity.
    + rewrite (sum_values_update a_count 1); [| reflexivity | reflexivity].
      rewrite (inv_wh_count _ _ _ I). reflexivity.
    + rewrite (sum_values_update e_count 1); [| reflexivity | reflexivity].
      rewrite (inv_rg_count _ _ _ I). reflexivity.
    + rewrite (sum_values_update a_count 1); [| reflexivity | reflexivity].
      rewrite (inv_pr_count _ _ _ I). unfold product_units. simpl. lia.
    + apply values_update_Forall; [simpl; lia | simpl; intros; lia | apply I].
    + apply values_update_Forall; [simpl; lia | simpl; intros; lia | apply I].
  - destruct (product_dict_step
                (default Unknown (analytics_data item ≫= warehouse_name))
                (default [] (products item)) (st_by_product st)
                (inv_pr_named _ _ _ I)) as (P1 & P2 & P3).
    constructor; cbn [agg_step st_orders_count st_by_warehouse st_by_region
                      st_by_product];
      rewrite ?keys_update, ?map_app, ?flat_map_app, ?first_seen_app,
        ?sumZ_app, ?Hlen; cbn [map flat_map fold_left app].
    + rewrite (inv_orders _ _ _ I). reflexivity.
    + apply named_update; [reflexivity | reflexivity | apply I].
    + apply named_update; [reflexivity | reflexivity | apply I].
    + exact P1.
    + rewrite (inv_wh_keys _ _ _ I). reflexivity.
    + rewrite (inv_rg_keys _ _ _ I). reflexivity.
    + rewrite P2, (inv_pr_keys _ _ _ I), app_nil_r.
      unfold product_keys, product_lines. rewrite map_map. reflexivity.
    + rewrite (sum_values_update a_count 1); [| reflexivity | reflexivity].
      rewrite (inv_wh_count _ _ _ I). reflexivity.
    + rewrite (sum_values_update e_count 1); [| reflexivity | reflexivity].
      rewrite (inv_rg_count _ _ _ I). reflexivity.
    + rewrite P3, (inv_pr_count _ _ _ I). unfold product_units, product_lines.
      rewrite map_map. simpl. lia.
    + apply values_update_Forall; [simpl; lia | simpl; intros; lia | apply I].
    + apply values_update_Forall; [simpl; lia | simpl; intros; lia | apply I].
Qed.

Lemma agg_loop_inv (mp : mp_type) (sales : list order) :
  agg_inv mp sales (agg_loop mp sales).
Proof.
  unfold agg_loop.
  assert (G : forall l seen st, agg_inv mp seen st ->
                agg_inv mp (seen ++ l) (fold_left (agg_step mp) l st)).
  { induction l as [|x l IH]; intros seen st I; simpl.
    - rewrite app_nil_r. exact I.
    - replace (seen ++ x :: l) with ((seen ++ [x]) ++ l)
        by (rewrite <- app_assoc; reflexivity).
      apply IH, agg_inv_step, I. }
  apply (G sales [] agg_init), agg_inv_init.
Qed.

Lemma StronglySorted_take {A : Type} (R : A -> A -> Prop) (n : nat)
  (l : list A) :
  StronglySorted R l -> StronglySorted R (take n l).
Proof.
  intros H. revert n. induction H as [|x l Hs IH Hall]; intros [|n]; simpl;
    try constructor; auto. apply Forall_take, Hall.
Qed.

Lemma values_length {V : Type} (d : odict V) : length (values d) = length (keys d).
Proof. unfold values, keys. rewrite !length_map. reflexivity. Qed.

Lemma sum_count_flatten (key : entry -> Z) (l : list acc_bucket) :
  sumZ (map count (map (flatten key) l)) = sumZ (map a_count l).
Proof. rewrite map_map. reflexivity. Qed.

(** A truncated sum of non-negative terms does not exceed the full sum, and
    equals it when nothing is cut. *)
Lemma sum_take_le {A : Type} (m : A -> Z) (n : nat) (l : list A) :
  Forall (fun a => 0 <= m a) l ->
  sumZ (map m (take n l)) <= sumZ (map m l)
  /\ ((length l <= n)%nat -> sumZ (map m (take n l)) = sumZ (map m l)).
Proof.
  intros H. split.
  - pose proof (sumZ_take_drop n (map m l)) as E.
    rewrite firstn_map in E.
    assert (0 <= sumZ (drop n (map m l))); [| lia].
    apply sumZ_nonneg. rewrite skipn_map. apply List.Forall_map.
    apply Forall_drop, H.
  - intros Hle. rewrite take_ge; [reflexivity | exact Hle].
Qed.

(** C4, as the spec states it, fails in two ways: with sixteen warehouses
    the returned warehouse buckets count 15 of the 16 records, and one Ozon
    posting of 3 units gives a product bucket of count 3. *)
Lemma partition_completeness_fails :
  ~ partition_complete sixteen_warehouses wb
  /\ ~ partition_complete
         [posting {| offer_id := Some (u "SF0125"); price := Some 100;
                     quantity := Some 3 |}] ozon.
Proof.
  split.
  - intros [H _]. vm_compute in H. discriminate.
  - intros (_ & _ & H). vm_compute in H. discriminate.
Qed.

(** C4 (amended): [orders_count] is the number of records; along the
    warehouse and the region dimension the counts of the returned buckets sum
    to at most that number, and to exactly that number when at most 15
    distinct warehouses (regions) occur, so that nothing is truncated; along
    the product dimension the counts sum to the units of the product lines,
    which for WB is the number of records. *)
Theorem partition_completeness (sales : list order) (mp : mp_type) :
  let r := aggregate_sales_data sales mp in
  let n := Z.of_nat (length sales) in
  r_orders_count r = n
  /\ sumZ (map count (sales_by_warehouse r)) <= n
  /\ sumZ (map e_count (sales_by_region r)) <= n
  /\ ((length (first_seen (map (warehouse_key mp) sales)) <= 15)%nat ->
      sumZ (map count (sales_by_warehouse r)) = n)
  /\ ((length (first_seen (map (region_key mp) sales)) <= 15)%nat ->
      sumZ (map e_count (sales_by_region r)) = n)
  /\ sumZ (map count (sales_by_product r)) = sumZ (map (product_units mp) sales)
  /\ sumZ (map count (sales_by_product (aggregate_sales_data sales wb))) = n.
Proof.
  intros r n. subst r n. pose proof (agg_loop_inv mp sales) as I.
  unfold aggregate_sales_data;
    cbn [r_orders_count sales_by_warehouse sales_by_region sales_by_product].
  rewrite !sum_count_flatten.
  destruct (sum_take_le a_count 15
              (sorted_desc a_revenue (values (st_by_warehouse (agg_loop mp sales)))))
    as [Hw1 Hw2]; [apply Forall_sorted_desc, I |].
  destruct (sum_take_le e_count 15
              (sorted_desc e_revenue (values (st_by_region (agg_loop mp sales)))))
    as [Hr1 Hr2]; [apply Forall_sorted_desc, I |].
  rewrite (sumZ_map_perm a_count _ _ (sorted_desc_perm a_revenue _)) in Hw1, Hw2.
  rewrite (sumZ_map_perm e_count _ _ (sorted_desc_perm e_revenue _)) in Hr1, Hr2.
  rewrite (inv_wh_count _ _ _ I) in Hw1, Hw2.
  rewrite (inv_rg_count _ _ _ I) in Hr1, Hr2.
  unfold sorted_desc in Hw2, Hr2.
  rewrite py_sorted_length, values_length in Hw2.
  rewrite py_sorted_length, values_length in Hr2.
  rewrite (inv_wh_keys _ _ _ I) in Hw2. rewrite (inv_rg_keys _ _ _ I) in Hr2.
  repeat split; try assumption.
  - apply I.
  - rewrite (sumZ_map_perm a_count _ _ (sorted_desc_perm a_revenue _)). apply I.
  - rewrite (sumZ_map_perm a_count _ _ (sorted_desc_perm a_revenue _)).
    rewrite (inv_pr_count _ _ _ (agg_loop_inv wb sales)).
    clear. induction sales as [|x l IH]; simpl; [reflexivity |].
    rewrite IH. unfold product_units. simpl. lia.
Qed.

Lemma partition_completeness_witness :
  (length (first_seen (map (warehouse_key wb) two_orders)) <= 15)%nat
  /\ sumZ (map count (sales_by_warehouse
                        (aggregate_sales_data two_orders wb))) = 2.
Proof.
  assert (H : (length (first_seen (map (warehouse_key wb) two_orders)) <= 15)%nat)
    by (vm_compute; lia).
  split; [exact H |].
  destruct (partition_completeness two_orders wb) as (_ & _ & _ & Hw & _).
  exact (Hw H).
Defined.

Lemma flatten_names (key : entry -> Z) (l : list acc_bucket) :
  map name (map (flatten key) l) = map a_name l.
Proof. rewrite map_map. reflexivity. Qed.

Lemma take_sorted_flatten (key : entry -> Z) (n : nat) (l : list acc_bucket) :
  map (flatten key) (take n (sorted_desc a_revenue l))
  = take n (sorted_desc revenue (map (flatten key) l)).
Proof.
  rewrite <- firstn_map. f_equal. apply sorted_desc_map. reflexivity.
Qed.

(** Three warehouses, the first two with the same revenue. *)
Example ties_keep_first_seen_order :
  map (fun b => (name b, revenue b))
    (sales_by_warehouse
       (aggregate_sales_data
          [ wb_order (u "A") (u "SF0125") (Some 100);
            wb_order (u "B") (u "SF0125") (Some 100);
            wb_order (u "C") (u "SF0125") (Some 200) ] wb))
  = [ (u "C", 200); (u "A", 100); (u "B", 100) ].
Proof. vm_compute. reflexivity. Qed.

(** C8: the buckets of each dimension, taken in the order in which their
    keys are first met in the input, are sorted by descending revenue with
    ties left in that order; the warehouse and the region list are the first
    15 of the sorted buckets, the product list is all of them. *)
Theorem output_ordering_and_truncation (sales : list order) (mp : mp_type) :
  let r := aggregate_sales_data sales mp in
  let st := agg_loop mp sales in
  let warehouses := map (flatten e_count) (values (st_by_warehouse st)) in
  let regions := values (st_by_region st) in
  let products := map (flatten e_revenue) (values (st_by_product st)) in
  map name warehouses = first_seen (map (warehouse_key mp) sales)
  /\ map e_name regions = first_seen (map (region_key mp) sales)
  /\ map name products = first_seen (flat_map (product_keys mp) sales)
  /\ (exists W, stable_desc_sort_of revenue warehouses W
                /\ sales_by_warehouse r = take 15 W)
  /\ (exists R, stable_desc_sort_of e_revenue regions R
                /\ sales_by_region r = take 15 R)
  /\ stable_desc_sort_of revenue products (sales_by_product r)
  /\ StronglySorted (desc revenue) (sales_by_warehouse r)
  /\ StronglySorted (desc e_revenue) (sales_by_region r)
  /\ (length (sales_by_warehouse r) <= 15)%nat
  /\ (length (sales_by_region r) <= 15)%nat
  /\ length (sales_by_product r)
     = length (first_seen (flat_map (product_keys mp) sales)).
Proof.
  intros r st warehouses regions products.
  pose proof (agg_loop_inv mp sales) as I. fold st in I.
  assert (Ew : sales_by_warehouse r = take 15 (sorted_desc revenue warehouses))
    by apply take_sorted_flatten.
  assert (Ep : sales_by_product r = sorted_desc revenue products)
    by (apply sorted_desc_map; reflexivity).
  assert (Er : sales_by_region r = take 15 (sorted_desc e_revenue regions))
    by reflexivity.
  assert (Np : map name products = first_seen (flat_map (product_keys mp) sales)).
  { unfold products. rewrite flatten_names, (named_values a_name); apply I. }
  split; [unfold warehouses; rewrite flatten_names, (named_values a_name);
          apply I |].
  split; [unfold regions; rewrite (named_values e_name); apply I |].
  split; [exact Np |].
  split; [exists (sorted_desc revenue warehouses);
          split; [apply sorted_desc_spec | exact Ew] |].
  split; [exists (sorted_desc e_revenue regions);
          split; [apply sorted_desc_spec | exact Er] |].
  split; [rewrite Ep; apply sorted_desc_spec |].
  split; [rewrite Ew; apply StronglySorted_take, sorted_desc_sorted |].
  split; [rewrite Er; apply StronglySorted_take, sorted_desc_sorted |].
  split; [rewrite Ew; apply firstn_le_length |].
  split; [rewrite Er; apply firstn_le_length |].
  rewrite Ep, <- Np. unfold sorted_desc.
  rewrite py_sorted_length, length_map. reflexivity.
Qed.

Lemma pystr_eqb_sym (a b : pystr) : pystr_eqb a b = pystr_eqb b a.
Proof.
  destruct (pystr_eqb a b) eqn:E.
  - apply pystr_eqb_eq in E. subst. symmetry. apply pystr_eqb_refl.
  - symmetry. apply pystr_eqb_neq. apply pystr_eqb_neq in E. congruence.
Qed.

(** A measure [m] of the value stored at [k], zero on a fresh value, after
    an update at [k'] that raises it by [delta]. *)
Lemma measure_at_update {V : Type} (m : V -> Z) (delta : Z) (k k' : pystr)
  (init : V) (f : V -> V) (d : odict V) :
  m init = 0 -> (forall v, m (f v) = m v + delta) ->
  match assoc k (odict_update k' init f d) with Some v => m v | None => 0 end
  = match assoc k d with Some v => m v | None => 0 end
    + (if pystr_eqb k k' then delta else 0).
Proof.
  intros Hi Hf. rewrite assoc_update.
  destruct (pystr_eqb k k') eqn:E; [| lia].
  apply pystr_eqb_eq in E. subst k'. rewrite Hf.
  destruct (assoc k d); simpl; [reflexivity | rewrite Hi; reflexivity].
Qed.

Lemma product_loop_at (wh_name k : pystr) (lines : list product_line)
  (bp : odict acc_bucket) :
  let contributions :=
    map (fun prod =>
           (default Unknown (offer_id prod),
            (default 1 (quantity prod),
             default 0 (price prod) * default 1 (quantity prod)))) lines in
  let bp' := fold_left (ozon_product_step wh_name) lines bp in
  count_at bp' k = count_at bp k + units_for k contributions
  /\ revenue_at bp' k = revenue_at bp k + revenue_for k contributions.
Proof.
  revert bp. induction lines as [|prod lines IH]; intros bp; simpl.
  - unfold units_for, revenue_for. simpl. lia.
  - destruct (IH (ozon_product_step wh_name bp prod)) as [Hc Hr].
    simpl in Hc, Hr. rewrite Hc, Hr. unfold units_for, revenue_for.
    cbn [map fst snd]. rewrite !sumZ_cons.
    unfold count_at, revenue_at, ozon_product_step.
    rewrite (measure_at_update a_count (default 1 (quantity prod)));
      [| reflexivity | reflexivity].
    rewrite (measure_at_update a_revenue
               (default 0 (price prod) * default 1 (quantity prod)));
      [| reflexivity | reflexivity].
    split; lia.
Qed.

(** C5, as the spec states it, fails along the warehouse dimension: the
    posting of 3 units raises the count of its warehouse bucket by 1, the
    posting itself, not by 3. *)
Lemma warehouse_count_is_per_order :
  ~ (forall mp item,
       Forall (fun b => count b = product_units mp item)
         (sales_by_warehouse (aggregate_sales_data [item] mp))).
Proof.
  intros H. specialize (H ozon three_units_no_price).
  inversion H as [|b l Hb _]; subst. vm_compute in Hb. discriminate.
Qed.

(** C5 (amended): every record is counted ([orders_count] grows by one);
    its warehouse and its region bucket gain count 1 and the order value
    (for WB the [priceWithDisc], zero when absent; for Ozon the sum of price
    times quantity over [financial_data.products]); along the product
    dimension each product line gives its units and its price times quantity
    to the bucket of its article (for WB one unit at the order value) and no
    other bucket changes. In particular an Ozon product line of quantity 3
    without a price adds 3 to the count and 0 to the revenue of its product
    bucket. *)
Theorem accumulation_rule (mp : mp_type) (st : agg_state) (item : order)
  (k : pystr) :
  let st' := agg_step mp st item in
  let hit (key : pystr) (amount : Z) := if pystr_eqb k key then amount else 0 in
  st_orders_count st' = st_orders_count st + 1
  /\ st_total_revenue st' = st_total_revenue st + order_value mp item
  /\ count_at (st_by_warehouse st') k
     = count_at (st_by_warehouse st) k + hit (warehouse_key mp item) 1
  /\ revenue_at (st_by_warehouse st') k
     = revenue_at (st_by_warehouse st) k
       + hit (warehouse_key mp item) (order_value mp item)
  /\ e_count_at (st_by_region st') k
     = e_count_at (st_by_region st) k + hit (region_key mp item) 1
  /\ e_revenue_at (st_by_region st') k
     = e_revenue_at (st_by_region st) k
       + hit (region_key mp item) (order_value mp item)
  /\ count_at (st_by_product st') k
     = count_at (st_by_product st) k + units_for k (product_lines mp item)
  /\ revenue_at (st_by_product st') k
     = revenue_at (st_by_product st) k + revenue_for k (product_lines mp item)
  /\ (forall article wh_name bp,
        let line := {| offer_id := Some article; price := None;
                       quantity := Some 3 |} in
        let bp' := ozon_product_step wh_name bp line in
        count_at bp' article = count_at bp article + 3
        /\ revenue_at bp' article = revenue_at bp article + 0).
Proof.
  intros st' hit. subst st' hit.
  split; [destruct mp; reflexivity |].
  split; [destruct mp; reflexivity |].
  split; [destruct mp; apply (measure_at_update a_count 1); reflexivity |].
  split; [destruct mp; apply (measure_at_update a_revenue); reflexivity |].
  split; [destruct mp; apply (measure_at_update e_count 1); reflexivity |].
  split; [destruct mp; apply (measure_at_update e_revenue); reflexivity |].
  assert (Hp : count_at (st_by_product (agg_step mp st item)) k
               = count_at (st_by_product st) k
                 + units_for k (product_lines mp item)
               /\ revenue_at (st_by_product (agg_step mp st item)) k
                  = revenue_at (st_by_product st) k
                    + revenue_for k (product_lines mp item)).
  { destruct mp.
    - unfold units_for, revenue_for, product_lines.
      cbn [map fst snd agg_step st_by_product]. rewrite !sumZ_cons. simpl sumZ.
      rewrite !Z.add_0_r. split.
      + apply (measure_at_update a_count 1); reflexivity.
      + apply (measure_at_update a_revenue); reflexivity.
    - apply product_loop_at. }
  split; [apply Hp |]. split; [apply Hp |].
  intros article wh_name bp line bp'. subst line bp'.
  unfold count_at, revenue_at, ozon_product_step. cbn [offer_id price quantity default].
  rewrite (measure_at_update a_count 3); [| reflexivity | reflexivity].
  rewrite (measure_at_update a_revenue (0 * 3)); [| reflexivity | reflexivity].
  rewrite pystr_eqb_refl. split; reflexivity.
Qed.

Example three_units_no_price_product_bucket :
  map (fun b => (name b, count b, revenue b))
    (sales_by_product (aggregate_sales_data [three_units_no_price] ozon))
  = [ (u "SF0125", 3, 0) ].
Proof. vm_compute. reflexivity. Qed.

Example wb_order_without_price :
  let r := aggregate_sales_data [wb_order (u "Казань") (u "SM0250") None] wb in
  map (fun b => (name b, count b, revenue b)) (sales_by_warehouse r)
  = [ (u "Казань", 1, 0) ]
  /\ r_orders_count r = 1.
Proof. vm_compute. split; reflexivity. Qed.

(** ** PeriodFilter *)

Example ordinals :
  [ ymd 2024 6 10; ymd 2024 6 9; ymd 2024 3 1; ymd 2023 12 31; ymd 1 1 1;
    ymd 2000 2 29; ymd 1900 3 1 ]
  = [ 739047; 739046; 738946; 738885; 1; 730179; 693655 ].
Proof. vm_compute. reflexivity. Qed.

Lemma filter_period_In {A : Type} (rt : runtime) (today : date) (p : period)
  (date_field : A -> option pystr) (items : list A) (item : A) :
  In item (filter_period rt today p date_field items) <->
  In item items
  /\ exists dt, parse_date rt (date_field item) = Some dt
                /\ in_window today p (dt_date dt) = true.
Proof.
  unfold filter_period. rewrite filter_In.
  destruct (parse_date rt (date_field item)) as [dt|]; split.
  - intros [Hin Hw]. split; [exact Hin | exists dt; auto].
  - intros [Hin [dt' [[= <-] Hw]]]. auto.
  - intros [_ H]. discriminate.
  - intros [_ [dt' [H _]]]. discriminate.
Qed.

(** A WB order of 2024-06-09, filtered on 2024-06-10 in a run whose parsers
    read the date. *)
Example order_of_the_day_before :
  let item := {| date_ := Some (u "2024-06-09"); dateFull := None;
                 created_at := None; priceWithDisc := Some 100;
                 warehouseName := Some (u "Коледино"); regionName := None;
                 supplierArticle := Some (u "SF0125"); financial_data := None;
                 analytics_data := None; products := None |} in
  map (fun p =>
         (key p,
          length (filter_period (example_runtime (CPython.seeded_hash 0))
                    (ymd 2024 6 10) p order_date_wb [item])))
    periods_config
  = [ (u "today", 0%nat); (u "yesterday", 1%nat); (u "days_3", 1%nat);
      (u "days_7", 1%nat); (u "days_30", 1%nat) ].
Proof. vm_compute. reflexivity. Qed.

(** C2: with today = 2024-06-10 a record dated 2024-06-09 fails the test of
    the "today" window and passes those of "yesterday" and "7-day" (and of
    the other two); the five windows are the fixed ones; a window that is not
    [exact_day] accepts exactly the dates on or after today minus its offset,
    today's among them, and "yesterday" accepts exactly the date one day
    before today, never today's; the records of a window are the records
    whose timestamp parses to an accepted date. *)
Theorem window_correctness :
  map (fun p => (key p, in_window (ymd 2024 6 10) p (ymd 2024 6 9)))
    periods_config
  = [ (u "today", false); (u "yesterday", true); (u "days_3", true);
      (u "days_7", true); (u "days_30", true) ]
  /\ map (fun p => (key p, days p, exact_day p)) periods_config
     = [ (u "today", 0, false); (u "yesterday", 1, true);
         (u "days_3", 2, false); (u "days_7", 6, false);
         (u "days_30", 29, false) ]
  /\ Forall
       (fun p =>
          forall today d : date,
            if exact_day p then
              (in_window today p d = true <-> d = today - 1)
              /\ in_window today p today = false
            else
              (in_window today p d = true <-> today - days p <= d)
              /\ in_window today p today = true)
       periods_config
  /\ (forall (A : Type) (date_field : A -> option pystr) (rt : runtime)
        (today : date) (p : period) (items : list A) (item : A),
         In item (filter_period rt today p date_field items) <->
         In item items
         /\ exists dt, parse_date rt (date_field item) = Some dt
                       /\ in_window today p (dt_date dt) = true).
Proof.
  split; [vm_compute; reflexivity |].
  split; [vm_compute; reflexivity |].
  split.
  - unfold periods_config.
    repeat (apply List.Forall_cons || apply List.Forall_nil);
      intros today d; unfold in_window; cbn [exact_day days];
      rewrite ?Z.eqb_eq, ?Z.leb_le; (split; [lia |]);
      try (apply Z.eqb_neq; lia); apply Z.leb_le; lia.
  - intros. apply filter_period_In.
Qed.

(** ** ChartDatasetBuilder *)

Lemma fold_left_inv_In {S X : Type} (P : S -> Prop) (f : S -> X -> S)
  (l : list X) (s : S) :
  P s -> (forall s x, In x l -> P s -> P (f s x)) -> P (fold_left f l s).
Proof.
  revert s. induction l as [|x l IH]; simpl; intros s Hs Hf; [exact Hs |].
  apply IH; [apply Hf; auto | intros s' y Hy; apply Hf; auto].
Qed.

Lemma flat_map_map {X Y W : Type} (g : Y -> W) (F : X -> list Y) (l : list X) :
  flat_map (fun x => map g (F x)) l = map g (flat_map F l).
Proof.
  induction l as [|x l IH]; simpl; [reflexivity |].
  rewrite IH, map_app. reflexivity.
Qed.

Lemma chart_series_eq (mp : mp_type) (stocks_wp : list stock_wh)
  (article : pystr) :
  chart_series mp stocks_wp article
  = map (fun wh => default 0 (wh_products wh !! article))
      (chart_warehouses mp stocks_wp).
Proof. apply flat_map_map. Qed.

Lemma cluster_loop (cw : odict (list stock_wh)) (sc : list pystr)
  (labels0 : list pystr) (clusters0 : list cluster_info) :
  let whs := flat_map (warehouses_of cw) sc in
  let st := fold_left (cluster_step cw) sc (labels0, clusters0) in
  fst st = labels0 ++ map wh_name whs
  /\ map ci_name (snd st) = map ci_name clusters0 ++ sc
  /\ sumZ (map span (snd st))
     = sumZ (map span clusters0) + Z.of_nat (length whs)
  /\ sumZ (map total_stock (snd st))
     = sumZ (map total_stock clusters0)
       + sumZ (map (fun wh => sum_values (wh_products wh)) whs).
Proof.
  revert labels0 clusters0. induction sc as [|c sc IH]; intros labels0 clusters0.
  - simpl. rewrite !app_nil_r. repeat split; lia.
  - cbn [fold_left flat_map].
    set (labels1 := labels0 ++ map wh_name (warehouses_of cw c)).
    set (info :=
           {| ci_name := c;
              start_index := Z.of_nat (length labels0);
              warehouse_count := Z.of_nat (length (warehouses_of cw c));
              total_stock :=
                sumZ (map (fun wh => sum_values (wh_products wh))
                        (warehouses_of cw c));
              end_index := Z.of_nat (length labels1) - 1 |}).
    change (cluster_step cw (labels0, clusters0) c)
      with (labels1, clusters0 ++ [info]).
    destruct (IH labels1 (clusters0 ++ [info])) as (H1 & H2 & H3 & H4).
    cbn zeta in H1, H2, H3, H4 |- *. rewrite H1, H2, H3, H4.
    subst labels1 info.
    rewrite !map_app, !sumZ_app, !length_app, !length_map, <- !app_assoc.
    cbn [map sumZ fold_right app]. unfold span at 2.
    cbn [end_index start_index total_stock ci_name].
    repeat split; lia.
Qed.

Lemma dataset_loop (rt : runtime) (mp : mp_type) (stocks_wp : list stock_wh)
  (articles : list pystr) (acc : list dataset) :
  let cw := group_by_cluster mp stocks_wp in
  fold_left (dataset_step rt cw (sort_clusters mp cw)) articles acc
  = acc ++ map (mk_dataset rt mp stocks_wp)
             (List.filter (fun a => has_positive (chart_series mp stocks_wp a))
                articles).
Proof.
  cbn zeta. revert acc. induction articles as [|a l IH]; intros acc;
    cbn [fold_left List.filter]; [rewrite app_nil_r; reflexivity |].
  rewrite IH. unfold dataset_step. cbn [data].
  change (series_data (group_by_cluster mp stocks_wp)
            (sort_clusters mp (group_by_cluster mp stocks_wp)) a)
    with (chart_series mp stocks_wp a).
  change (existsb (fun d => 0 <? d) (chart_series mp stocks_wp a))
    with (has_positive (chart_series mp stocks_wp a)).
  destruct (has_positive (chart_series mp stocks_wp a)); [| reflexivity].
  rewrite <- app_assoc. reflexivity.
Qed.

(** The chart that is built, in closed form. *)
Lemma build_chart_data_Some (rt : runtime) (mp : mp_type)
  (stocks_wp : list stock_wh) (all_articles : list pystr) (chart : chart_data) :
  build_chart_data rt mp stocks_wp all_articles = Some chart ->
  labels chart = map wh_name (chart_warehouses mp stocks_wp)
  /\ datasets chart
     = map (mk_dataset rt mp stocks_wp)
         (List.filter (fun a => has_positive (chart_series mp stocks_wp a))
            all_articles)
  /\ map ci_name (clusters chart)
     = sort_clusters mp (group_by_cluster mp stocks_wp)
  /\ sumZ (map span (clusters chart))
     = Z.of_nat (length (chart_warehouses mp stocks_wp))
  /\ sumZ (map total_stock (clusters chart))
     = sumZ (map (fun wh => sum_values (wh_products wh))
               (chart_warehouses mp stocks_wp)).
Proof.
  unfold build_chart_data.
  destruct stocks_wp as [|w0 ws]; [discriminate |].
  destruct all_articles as [|a0 arts]; [discriminate |].
  set (swp := w0 :: ws). set (aa := a0 :: arts).
  pose proof (cluster_loop (group_by_cluster mp swp)
                (sort_clusters mp (group_by_cluster mp swp)) [] []) as H.
  cbn zeta in H.
  destruct (fold_left (cluster_step (group_by_cluster mp swp))
              (sort_clusters mp (group_by_cluster mp swp)) ([], []))
    as [ls cs].
  cbn [fst snd] in H. destruct H as (H1 & H2 & H3 & H4).
  intros [= <-]. cbn [labels datasets clusters].
  split; [exact H1 |].
  split; [exact (dataset_loop rt mp swp aa []) |].
  split; [exact H2 |]. split; [exact H3 | exact H4].
Qed.

Lemma group_members (mp : mp_type) (stocks_wp : list stock_wh) (c : pystr)
  (wh : stock_wh) :
  In wh (warehouses_of (group_by_cluster mp stocks_wp) c) -> In wh stocks_wp.
Proof.
  revert c wh. unfold group_by_cluster.
  apply (fold_left_inv_In
           (fun cw => forall c wh, In wh (warehouses_of cw c) -> In wh stocks_wp)).
  - intros c wh [].
  - intros cw x Hx IH c wh. unfold warehouses_of. rewrite assoc_update.
    destruct (pystr_eqb c (get_warehouse_cluster (wh_name x) mp)).
    + simpl. intros H. apply in_app_or in H. destruct H as [H | [<- | []]].
      * eapply IH. exact H.
      * exact Hx.
    + apply IH.
Qed.

Lemma chart_warehouses_members (mp : mp_type) (stocks_wp : list stock_wh)
  (wh : stock_wh) :
  In wh (chart_warehouses mp stocks_wp) -> In wh stocks_wp.
Proof.
  unfold chart_warehouses. rewrite in_flat_map. intros [c [_ H]].
  eapply group_members, H.
Qed.

Lemma sumZ_map_add {X : Type} (f g : X -> Z) (l : list X) :
  sumZ (map (fun x => f x + g x) l) = sumZ (map f l) + sumZ (map g l).
Proof. induction l as [|x l IH]; simpl; lia. Qed.

Lemma sumZ_map_ext {X : Type} (f g : X -> Z) (l : list X) :
  (forall x, In x l -> f x = g x) -> sumZ (map f l) = sumZ (map g l).
Proof.
  induction l as [|x l IH]; simpl; intros H; [reflexivity |].
  rewrite (H x), IH; auto.
Qed.

Lemma sumZ_swap {X Y : Type} (g : X -> Y -> Z) (xs : list X) (ys : list Y) :
  sumZ (map (fun x => sumZ (map (g x) ys)) xs)
  = sumZ (map (fun y => sumZ (map (fun x => g x y) xs)) ys).
Proof.
  induction xs as [|x xs IH]; simpl.
  - symmetry. apply sumZ_zero, List.Forall_map, List.Forall_forall. auto.
  - rewrite IH, <- sumZ_map_add. reflexivity.
Qed.

Lemma sumZ_filter {X : Type} (p : X -> bool) (f : X -> Z) (l : list X) :
  (forall x, In x l -> p x = false -> f x = 0) ->
  sumZ (map f (List.filter p l)) = sumZ (map f l).
Proof.
  induction l as [|x l IH]; simpl; intros H; [reflexivity |].
  destruct (p x) eqn:E; simpl; rewrite IH; auto. rewrite (H x); auto.
Qed.

Lemma sum_indicator (k : pystr) (v : Z) (arts : list pystr) :
  NoDup arts -> In k arts ->
  sumZ (map (fun a => if decide (k = a) then v else 0) arts) = v.
Proof.
  induction 1 as [|a l Hnin Hnd IH]; simpl; [tauto |].
  intros [-> | Hin].
  - destruct (decide (k = k)); [| congruence].
    rewrite sumZ_zero; [lia |]. apply List.Forall_map, List.Forall_forall.
    intros a Ha. destruct (decide (k = a)); [| reflexivity].
    subst. exfalso. apply Hnin, list_elem_of_In, Ha.
  - destruct (decide (k = a)) as [-> | _].
    + exfalso. apply Hnin, list_elem_of_In, Hin.
    + rewrite IH; [lia | exact Hin].
Qed.

(** The lookups of a list of distinct articles that covers the keys of a
    [products] dict add up to the sum of its values. *)
Lemma sum_values_lookup (arts : list pystr) (m : gmap pystr Z) :
  NoDup arts ->
  (forall a q, m !! a = Some q -> In a arts) ->
  sumZ (map (fun a => default 0 (m !! a)) arts) = sum_values m.
Proof.
  intros Hnd. induction m as [|k v m Hk IH] using map_ind; intros Hcov.
  - unfold sum_values. rewrite map_fold_empty.
    apply sumZ_zero, List.Forall_map, List.Forall_forall. intros a _.
    rewrite lookup_empty. reflexivity.
  - unfold sum_values. rewrite map_fold_insert_L; [| intros; lia | exact Hk].
    fold (sum_values m). rewrite <- IH.
    + rewrite (sumZ_map_ext _
                 (fun a => (if decide (k = a) then v else 0)
                           + default 0 (m !! a))).
      * rewrite sumZ_map_add, sum_indicator; [reflexivity | exact Hnd |].
        apply (Hcov k v), lookup_insert_eq.
      * intros a _. rewrite lookup_insert.
        destruct (decide (k = a)) as [<- | Hne]; simpl; [| reflexivity].
        rewrite Hk. simpl. lia.
    + intros a q Ha. apply (Hcov a q). rewrite lookup_insert_ne; [exact Ha |].
      intros ->. congruence.
Qed.

Lemma no_positive_sum (l : list Z) :
  Forall (fun x => 0 <= x) l -> has_positive l = false -> sumZ l = 0.
Proof.
  induction 1 as [|x l Hx _ IH]; simpl; [reflexivity |].
  intros H. apply orb_false_iff in H. destruct H as [H1 H2].
  apply Z.ltb_ge in H1. rewrite IH; [lia | exact H2].
Qed.

Lemma has_positive_spec (l : list Z) :
  has_positive l = true <-> exists v, In v l /\ 0 < v.
Proof.
  unfold has_positive. rewrite existsb_exists. split.
  - intros [v [Hin Hv]]. exists v. apply Z.ltb_lt in Hv. auto.
  - intros [v [Hin Hv]]. exists v. apply Z.ltb_lt in Hv. auto.
Qed.

(** Priority clusters come first, in declared order, the others sorted. *)
Example cluster_order :
  let stocks :=
    map (fun n => {| wh_name := n; wh_products := ∅ |})
      [ u "Краснодар"; u "Минск"; u "Казань"; u "Склад"; u "Коледино";
        u "Ташкент" ] in
  sort_clusters wb (group_by_cluster wb stocks)
  = [ u "Центральный"; u "Приволжский"; u "Беларусь"; u "Прочие";
      u "Узбекистан"; u "Южный + Северо-Кавказский" ].
Proof. vm_compute. reflexivity. Qed.

Example scenario_chart (h : pystr -> Z) :
  build_chart_data (example_runtime h) wb scenario_stocks [u "SF0125"]
  = Some
      {| labels := [ u "Коледино"; u "Невинномысск" ];
         datasets :=
           [ {| label := u "SF0125"; data := [10; 5];
                backgroundColor := u "#614701"; borderColor := u "#1a1a1a";
                borderWidth := 1 |} ];
         clusters :=
           [ {| ci_name := u "Центральный"; start_index := 0;
                warehouse_count := 1; total_stock := 10; end_index := 0 |};
             {| ci_name := u "Южный + Северо-Кавказский"; start_index := 1;
                warehouse_count := 1; total_stock := 5; end_index := 1 |} ] |}.
Proof. vm_compute. reflexivity. Qed.

(** C6, as the spec states it, fails for the totals.  The WB stock report
    may hold a negative [quantityFull]; the fetcher skips only the rows with
    quantity 0, so it writes a warehouse with SF0125: 10 and SM0250: -3 and
    the full list of the two articles.  The cluster total is 7, the series of
    SM0250 has no positive value and is dropped, and the series that remain
    add up to 10. *)
Lemma totals_need_nonnegative_stock :
  ~ (forall rt mp stocks_wp all_articles chart,
       build_chart_data rt mp stocks_wp all_articles = Some chart ->
       NoDup all_articles ->
       Forall (fun wh => map_Forall (fun a _ => a ∈ all_articles)
                           (wh_products wh)) stocks_wp ->
       totals_agree chart).
Proof.
  intros H.
  set (out := FetchWb.aggregate_stocks_by_warehouse_and_product
                negative_stock_rows).
  specialize (H (example_runtime (fun _ => 0)) wb
                (map as_stock_wh (fst out)) (snd out)).
  assert (E : exists chart,
             build_chart_data (example_runtime (fun _ => 0)) wb
               (map as_stock_wh (fst out)) (snd out) = Some chart
             /\ sumZ (map total_stock (clusters chart)) = 7
             /\ map (fun ds => (label ds, data ds)) (datasets chart)
                = [ (u "SF0125", [10]) ]).
  { eexists. split; [vm_compute; reflexivity |]. split; reflexivity. }
  destruct E as (chart & E & Ht & Hd). specialize (H chart E).
  assert (Hnd : NoDup (snd out))
    by (apply (bool_decide_unpack _); vm_compute; reflexivity).
  assert (Hcov : Forall (fun wh => map_Forall (fun a _ => a ∈ snd out)
                                     (wh_products wh))
                   (map as_stock_wh (fst out)))
    by (apply (bool_decide_unpack _); vm_compute; reflexivity).
  specialize (H Hnd Hcov). unfold totals_agree in H.
  assert (Hs : map (fun ds => sumZ (data ds)) (datasets chart)
               = map (fun p : pystr * list Z => sumZ (snd p))
                   (map (fun ds => (label ds, data ds)) (datasets chart)))
    by (rewrite map_map; reflexivity).
  rewrite Ht, Hs, Hd in H. discriminate H.
Qed.

(** C6 (amended): for every chart that is built, the number of labels is the
    sum of [end_index - start_index + 1] over the clusters; every emitted
    series has one value per label; the series of an article is emitted if
    and only if the article is in [all_articles] and one of its values is
    positive; and, [all_articles] being the full list of distinct articles
    (no duplicates, every article stocked by a warehouse listed), the
    cluster totals sum to the values of the emitted series provided no
    quantity is negative. *)
Theorem chart_alignment (rt : runtime) (mp : mp_type)
  (stocks_wp : list stock_wh) (all_articles : list pystr) (chart : chart_data) :
  build_chart_data rt mp stocks_wp all_articles = Some chart ->
  Z.of_nat (length (labels chart))
  = sumZ (map (fun c => end_index c - start_index c + 1) (clusters chart))
  /\ Forall (fun ds => length (data ds) = length (labels chart)
                       /\ data ds = chart_series mp stocks_wp (label ds))
       (datasets chart)
  /\ (forall article,
        In article (map label (datasets chart)) <->
        In article all_articles
        /\ exists v, In v (chart_series mp stocks_wp article) /\ 0 < v)
  /\ (NoDup all_articles ->
      Forall (fun wh => map_Forall (fun a q => a ∈ all_articles /\ 0 <= q)
                          (wh_products wh)) stocks_wp ->
      totals_agree chart).
Proof.
  intros Hb.
  destruct (build_chart_data_Some _ _ _ _ _ Hb) as (HL & HD & _ & HS & HT).
  split; [rewrite HL, length_map; symmetry; exact HS |].
  split.
  { rewrite HD, HL. apply List.Forall_map, List.Forall_forall. intros a _.
    cbn [data label mk_dataset]. split; [| reflexivity].
    rewrite chart_series_eq, !length_map. reflexivity. }
  split.
  { intros article. rewrite HD, map_map. cbn [label mk_dataset].
    rewrite map_id, filter_In, has_positive_spec. reflexivity. }
  intros Hnd Hok. unfold totals_agree. rewrite HT, HD, map_map.
  cbn [data mk_dataset].
  assert (Hwh : forall wh, In wh (chart_warehouses mp stocks_wp) ->
                  map_Forall (fun a q => a ∈ all_articles /\ 0 <= q)
                    (wh_products wh)).
  { intros wh Hin. rewrite List.Forall_forall in Hok.
    apply Hok, (chart_warehouses_members mp), Hin. }
  rewrite sumZ_filter.
  - rewrite (sumZ_map_ext (fun a => sumZ (chart_series mp stocks_wp a))
               (fun a : pystr =>
                  sumZ (map (fun wh => default 0 (wh_products wh !! a))
                          (chart_warehouses mp stocks_wp))))
      by (intros a _; rewrite chart_series_eq; reflexivity).
    rewrite (sumZ_swap (fun (a : pystr) (wh : stock_wh) =>
                          default 0 (wh_products wh !! a))).
    apply sumZ_map_ext. intros wh Hin. symmetry.
    apply sum_values_lookup; [exact Hnd |].
    intros a q Ha. apply list_elem_of_In. apply (Hwh wh Hin a q Ha).
  - intros a _ Hneg. apply no_positive_sum; [| exact Hneg].
    rewrite chart_series_eq. apply List.Forall_map, List.Forall_forall.
    intros wh Hin. destruct (wh_products wh !! a) as [q|] eqn:Hq; simpl; [| lia].
    apply (Hwh wh Hin a q Hq).
Qed.

Lemma chart_alignment_witness :
  exists chart,
    build_chart_data (example_runtime (fun _ => 0)) wb scenario_stocks
      [u "SF0125"] = Some chart
    /\ NoDup [u "SF0125"]
    /\ Forall (fun wh => map_Forall (fun a q => a ∈ [u "SF0125"] /\ 0 <= q)
                           (wh_products wh)) scenario_stocks
    /\ totals_agree chart.
Proof.
  eexists.
  assert (Hb : build_chart_data (example_runtime (fun _ => 0)) wb
                 scenario_stocks [u "SF0125"] = Some _)
    by apply scenario_chart.
  assert (Hnd : NoDup [u "SF0125"]) by (apply (bool_decide_unpack _); vm_compute; reflexivity).
  assert (Hok : Forall (fun wh => map_Forall
                                    (fun a q => a ∈ [u "SF0125"] /\ 0 <= q)
                                    (wh_products wh)) scenario_stocks)
    by (apply (bool_decide_unpack _); vm_compute; reflexivity).
  split; [exact Hb |]. split; [exact Hnd |]. split; [exact Hok |].
  exact (proj2 (proj2 (proj2 (chart_alignment _ _ _ _ _ Hb))) Hnd Hok).
Defined.

(** ** Combiner *)

(** A run ends with an exception exactly on the files that abort it;
    otherwise it returns the document filled in from what the files hold. *)
Lemma prepare_outcome (rt : runtime) (today : date)
  (wbf : file_state wb_raw) (ozf : file_state ozon_raw) :
  match prepare rt today wbf ozf with
  | Returns d =>
    ~ aborts wbf /\ ~ aborts ozf
    /\ d = fill rt today (data_of wbf) (data_of ozf)
  | Raises _ => aborts wbf \/ aborts ozf
  end.
Proof.
  destruct wbf, ozf; cbn -[fill]; tauto.
Qed.

(** The content of [period_data], window by window. *)
Lemma fill_period_data (rt : runtime) (today : date)
  (wb_data : option wb_raw) (ozon_data : option ozon_raw) :
  period_data (fill rt today wb_data ozon_data)
  = map (fun p =>
           (key p,
            {| pd_wb := (fun w => wb_period_result rt today w p) <$> wb_data;
               pd_ozon :=
                 (fun o => ozon_period_result rt today o p) <$> ozon_data |}))
      periods_config.
Proof.
  destruct wb_data as [w|], ozon_data as [o|]; reflexivity.
Qed.

Example today_window_first : hd_error periods_config = Some today_window.
Proof. reflexivity. Qed.



(** WB's file is missing, Ozon's holds a stock total of 7 and one posting of
    today worth 200. *)
Example run_without_wb :
  let o := {| oz_total_stock_value := Some 7; oz_stocks_by_warehouse := None;
              oz_stocks_by_product := None;
              oz_stocks_warehouse_products := None; oz_all_articles := None;
              oz_raw_orders :=
                Some [ posting {| offer_id := Some (u "SF0125");
                                  price := Some 100; quantity := Some 2 |} ];
              oz_finance_redemptions := None |} in
  exists d,
    prepare (example_runtime (CPython.seeded_hash 0)) (ymd 2024 6 10)
      Missing (Parsed o) = Returns d
    /\ dsummary d
       = {| sum_wb_stocks := 0; sum_ozon_stocks := 7; total_stocks := 7;
            total_sales_today := 200 |}
    /\ marketplaces d
       = [ {| mp_name := u "Wildberries"; status := u "No Data" |};
           {| mp_name := u "Ozon"; status := u "Online" |} ].
Proof.
  cbn zeta. eexists. split; [reflexivity |]. vm_compute. split; reflexivity.
Qed.

(** WB's file is cut in the middle of a Cyrillic letter: the run ends with
    the exception, whatever Ozon's file holds. *)
Example run_with_undecodable_wb (rt : runtime) (today : date)
  (ozf : file_state ozon_raw) :
  prepare rt today Undecodable ozf = Raises UnicodeDecodeError.
Proof. reflexivity. Qed.

(** ** Colorizer *)

(** Values of [hash] printed by CPython 3.11 for the seeds 0, 1 and 2. *)
Example hash_of_ABC :
  map (fun seed => CPython.seeded_hash seed (u "ABC")) [0; 1; 2]
  = [ -7916030486012238584; -3667562698289283989; -5997441170985339276 ].
Proof. vm_compute. reflexivity. Qed.

Example hash_vectors :
  map (CPython.seeded_hash 1)
    [ u ""; u "a"; u "Неизвестно"; u "WAREHOUSE-12345"; u "abcdefgh" ]
  = [ 0; -3012895188637184397; 4964000623185222114; 2807849250628975799;
      -202642195356325900 ].
Proof. vm_compute. reflexivity. Qed.

(** C7: the color of an identifier is its fixed color when it has one (so
    "SF0125" is "#614701" in every run), and else the palette entry at the
    built-in [hash] of the identifier modulo 5; that hash is salted per
    process, and the identifier "ABC" gets "#14b8a6" in a run started with
    PYTHONHASHSEED=1 and "#22c55e" in a run started with PYTHONHASHSEED=2. *)
Theorem article_color_across_runs :
  (forall rt article,
     get_article_color rt article
     = default (nth (Z.to_nat (hash rt article mod 5)) fallback_colors [])
         (fixed_color article))
  /\ (forall rt, get_article_color rt (u "SF0125") = u "#614701")
  /\ fixed_color (u "ABC") = None
  /\ get_article_color (example_runtime (CPython.seeded_hash 1)) (u "ABC")
     = u "#14b8a6"
  /\ get_article_color (example_runtime (CPython.seeded_hash 2)) (u "ABC")
     = u "#22c55e".
Proof.
  split.
  { intros rt article. unfold get_article_color, fixed_color.
    destruct (assoc (upper article) color_map); [reflexivity |].
    repeat match goal with
           | |- context [if ?b then _ else _] => destruct b; [reflexivity |]
           end.
    reflexivity. }
  split; [intros rt; vm_compute; reflexivity |].
  repeat split; vm_compute; reflexivity.
Qed.

(* ===================================================================== *)
(** * Further properties *)
(* ===================================================================== *)

(** ** Lists and dicts *)

Lemma mem_In (k : pystr) (l : list pystr) : mem k l = true <-> In k l.
Proof.
  unfold mem. rewrite existsb_exists. split.
  - intros [x [Hx E]]. apply pystr_eqb_eq in E. subst. exact Hx.
  - intros H. exists k. split; [exact H | apply pystr_eqb_refl].
Qed.

Lemma see_NoDup (seen : list pystr) (k : pystr) :
  NoDup seen -> NoDup (see seen k).
Proof.
  intros H. unfold see. destruct (mem k seen) eqn:E; [exact H |].
  apply NoDup_app. split; [exact H |]. split.
  - intros x Hx Hk. apply list_elem_of_In in Hk. destruct Hk as [<- | []].
    apply list_elem_of_In, mem_In in Hx. congruence.
  - apply NoDup_singleton.
Qed.

Lemma see_In (seen : list pystr) (k x : pystr) :
  In x (see seen k) <-> In x seen \/ x = k.
Proof.
  unfold see. destruct (mem k seen) eqn:E.
  - apply mem_In in E. split; [auto | intros [H | ->]; assumption].
  - rewrite in_app_iff. simpl. intuition.
Qed.

Lemma fold_see_NoDup (l seen : list pystr) :
  NoDup seen -> NoDup (fold_left see l seen).
Proof.
  revert seen. induction l as [|k l IH]; simpl; intros seen H; [exact H |].
  apply IH, see_NoDup, H.
Qed.

Lemma fold_see_In (l seen : list pystr) (x : pystr) :
  In x (fold_left see l seen) <-> In x seen \/ In x l.
Proof.
  revert seen. induction l as [|k l IH]; simpl; intros seen; [tauto |].
  rewrite IH, see_In. intuition.
Qed.

Lemma first_seen_NoDup (l : list pystr) : NoDup (first_seen l).
Proof. apply fold_see_NoDup, NoDup_nil_2. Qed.

Lemma first_seen_In (l : list pystr) (x : pystr) :
  In x (first_seen l) <-> In x l.
Proof. unfold first_seen. rewrite fold_see_In. simpl. tauto. Qed.

Lemma keys_update_NoDup {V : Type} (k : pystr) (init : V) (f : V -> V)
  (d : odict V) :
  NoDup (keys d) -> NoDup (keys (odict_update k init f d)).
Proof. rewrite keys_update. apply see_NoDup. Qed.

Lemma assoc_None {V : Type} (k : pystr) (d : odict V) :
  assoc k d = None <-> ~ In k (keys d).
Proof.
  induction d as [|[k0 v0] t IH]; simpl; [tauto |].
  destruct (pystr_eqb k k0) eqn:E.
  - apply pystr_eqb_eq in E. subst. split; [discriminate | tauto].
  - apply pystr_eqb_neq in E. rewrite IH. split; [intros H [H1 | H1]; auto |tauto].
Qed.

(** In a dict with distinct keys a stored pair is what the lookup finds. *)
Lemma assoc_In {V : Type} (k : pystr) (v : V) (d : odict V) :
  NoDup (keys d) -> In (k, v) d -> assoc k d = Some v.
Proof.
  induction d as [|[k0 v0] t IH]; simpl; [tauto |].
  intros Hnd. apply NoDup_cons in Hnd. destruct Hnd as [Hk Hnd].
  intros [[= -> ->] | Hin].
  - rewrite pystr_eqb_refl. reflexivity.
  - destruct (pystr_eqb k k0) eqn:E; [| auto].
    apply pystr_eqb_eq in E. subst. exfalso. apply Hk, list_elem_of_In.
    unfold keys. apply in_map_iff. exists (k0, v). auto.
Qed.

Lemma assoc_Some_In {V : Type} (k : pystr) (v : V) (d : odict V) :
  assoc k d = Some v -> In (k, v) d.
Proof.
  induction d as [|[k0 v0] t IH]; simpl; [discriminate |].
  destruct (pystr_eqb k k0) eqn:E.
  - apply pystr_eqb_eq in E. intros [= ->]. subst. auto.
  - auto.
Qed.

(** A value of a dict that files every value under its name is found under
    that name. *)
Lemma assoc_named {V : Type} (nm : V -> pystr) (d : odict V) (v : V) :
  named nm d -> NoDup (keys d) -> In v (values d) -> assoc (nm v) d = Some v.
Proof.
  intros Hn Hnd Hin. unfold values in Hin. apply in_map_iff in Hin.
  destruct Hin as [[k v'] [E Hin]]. simpl in E. subst v'.
  unfold named in Hn. rewrite List.Forall_forall in Hn.
  pose proof (Hn _ Hin) as Hk. simpl in Hk. rewrite Hk.
  apply assoc_In; assumption.
Qed.

Lemma fold_left_measure {S X : Type} (m : S -> Z) (w : X -> Z)
  (f : S -> X -> S) (l : list X) (s : S) :
  (forall s x, m (f s x) = m s + w x) ->
  m (fold_left f l s) = m s + sumZ (map w l).
Proof.
  intros Hf. revert s. induction l as [|x l IH]; intros s; simpl; [lia |].
  rewrite IH, Hf. lia.
Qed.

(** A sum over the records selected by a test. *)
Lemma sumZ_filter_hits {X : Type} (p : X -> bool) (w : X -> Z) (l : list X) :
  sumZ (map (fun x => if p x then w x else 0) l)
  = sumZ (map w (List.filter p l)).
Proof.
  induction l as [|x l IH]; simpl; [reflexivity |].
  destruct (p x); simpl; lia.
Qed.

Lemma length_filter_hits {X : Type} (p : X -> bool) (l : list X) :
  sumZ (map (fun x => if p x then 1 else 0) l)
  = Z.of_nat (length (List.filter p l)).
Proof.
  induction l as [|x l IH]; simpl; [reflexivity |].
  destruct (p x); simpl length; lia.
Qed.

(** ** Aggregator: what each bucket holds *)

Lemma In_sorted_desc {A : Type} (key : A -> Z) (l : list A) (x : A) :
  In x (sorted_desc key l) <-> In x l.
Proof.
  split; apply Permutation_in;
    [apply sorted_desc_perm | symmetry; apply sorted_desc_perm].
Qed.

Lemma In_take {A : Type} (n : nat) (l : list A) (x : A) :
  In x (take n l) -> In x l.
Proof.
  intros H. rewrite <- (take_drop n l). apply in_or_app. left. exact H.
Qed.

(** The lookups of the three dicts after one more record. *)
Lemma agg_step_at (mp : mp_type) (st : agg_state) (item : order) (k : pystr) :
  let st' := agg_step mp st item in
  let hit (key : pystr) (amount : Z) := if pystr_eqb k key then amount else 0 in
  (count_at (st_by_warehouse st') k
   = count_at (st_by_warehouse st) k + hit (warehouse_key mp item) 1
   /\ revenue_at (st_by_warehouse st') k
      = revenue_at (st_by_warehouse st) k
        + hit (warehouse_key mp item) (order_value mp item))
  /\ (e_count_at (st_by_region st') k
      = e_count_at (st_by_region st) k + hit (region_key mp item) 1
      /\ e_revenue_at (st_by_region st') k
         = e_revenue_at (st_by_region st) k
           + hit (region_key mp item) (order_value mp item))
  /\ (count_at (st_by_product st') k
      = count_at (st_by_product st) k + units_for k (product_lines mp item)
      /\ revenue_at (st_by_product st') k
         = revenue_at (st_by_product st) k
           + revenue_for k (product_lines mp item)).
Proof.
  cbn zeta.
  split; [split; destruct mp;
          first [apply (measure_at_update a_count 1)
                | apply (measure_at_update a_revenue)]; reflexivity |].
  split; [split; destruct mp;
          first [apply (measure_at_update e_count 1)
                | apply (measure_at_update e_revenue)]; reflexivity |].
  destruct mp.
  - unfold units_for, revenue_for, product_lines.
    cbn [map fst snd agg_step st_by_product]. rewrite !sumZ_cons. simpl sumZ.
    rewrite !Z.add_0_r. split.
    + apply (measure_at_update a_count 1); reflexivity.
    + apply (measure_at_update a_revenue); reflexivity.
  - apply product_loop_at.
Qed.

Lemma units_for_app (k : pystr) (l1 l2 : list (pystr * (Z * Z))) :
  units_for k (l1 ++ l2) = units_for k l1 + units_for k l2.
Proof. unfold units_for. rewrite map_app, sumZ_app. reflexivity. Qed.

Lemma revenue_for_app (k : pystr) (l1 l2 : list (pystr * (Z * Z))) :
  revenue_for k (l1 ++ l2) = revenue_for k l1 + revenue_for k l2.
Proof. unfold revenue_for. rewrite map_app, sumZ_app. reflexivity. Qed.

Lemma units_for_flat_map {X : Type} (k : pystr)
  (F : X -> list (pystr * (Z * Z))) (l : list X) :
  sumZ (map (fun x => units_for k (F x)) l) = units_for k (flat_map F l).
Proof.
  induction l as [|x l IH]; simpl; [reflexivity |].
  rewrite units_for_app, IH. reflexivity.
Qed.

Lemma revenue_for_flat_map {X : Type} (k : pystr)
  (F : X -> list (pystr * (Z * Z))) (l : list X) :
  sumZ (map (fun x => revenue_for k (F x)) l) = revenue_for k (flat_map F l).
Proof.
  induction l as [|x l IH]; simpl; [reflexivity |].
  rewrite revenue_for_app, IH. reflexivity.
Qed.

(** The lookups of the three dicts after the whole loop. *)
Lemma agg_loop_at (mp : mp_type) (sales : list order) (k : pystr) :
  let st := agg_loop mp sales in
  (count_at (st_by_warehouse st) k
   = Z.of_nat (length (records_of (warehouse_key mp) k sales))
   /\ revenue_at (st_by_warehouse st) k
      = sumZ (map (order_value mp) (records_of (warehouse_key mp) k sales)))
  /\ (e_count_at (st_by_region st) k
      = Z.of_nat (length (records_of (region_key mp) k sales))
      /\ e_revenue_at (st_by_region st) k
         = sumZ (map (order_value mp) (records_of (region_key mp) k sales)))
  /\ (count_at (st_by_product st) k
      = units_for k (flat_map (product_lines mp) sales)
      /\ revenue_at (st_by_product st) k
         = revenue_for k (flat_map (product_lines mp) sales)).
Proof.
  cbn zeta. unfold agg_loop, records_of.
  rewrite <- !length_filter_hits, <- !sumZ_filter_hits,
    <- units_for_flat_map, <- revenue_for_flat_map.
  repeat split;
    match goal with
    | |- ?m (?proj (fold_left _ _ _)) k = sumZ (map ?w _) =>
        rewrite (fold_left_measure (fun st => m (proj st) k) w);
          [reflexivity | intros st item; apply (agg_step_at mp st item k)]
    end.
Qed.

(** A bucket stored in a dict of the loop, looked up under its name. *)
Lemma stored_bucket_at (d : odict acc_bucket) (a : acc_bucket) :
  named a_name d -> NoDup (keys d) -> In a (values d) ->
  count_at d (a_name a) = a_count a /\ revenue_at d (a_name a) = a_revenue a.
Proof.
  intros Hn Hnd Hin. unfold count_at, revenue_at.
  rewrite (assoc_named a_name d a Hn Hnd Hin). auto.
Qed.

Lemma stored_entry_at (d : odict entry) (e : entry) :
  named e_name d -> NoDup (keys d) -> In e (values d) ->
  e_count_at d (e_name e) = e_count e /\ e_revenue_at d (e_name e) = e_revenue e.
Proof.
  intros Hn Hnd Hin. unfold e_count_at, e_revenue_at.
  rewrite (assoc_named e_name d e Hn Hnd Hin). auto.
Qed.

Lemma agg_loop_keys_NoDup (mp : mp_type) (sales : list order) :
  let st := agg_loop mp sales in
  NoDup (keys (st_by_warehouse st))
  /\ NoDup (keys (st_by_region st))
  /\ NoDup (keys (st_by_product st)).
Proof.
  pose proof (agg_loop_inv mp sales) as I. cbn zeta.
  rewrite (inv_wh_keys _ _ _ I), (inv_rg_keys _ _ _ I), (inv_pr_keys _ _ _ I).
  repeat split; apply first_seen_NoDup.
Qed.

Lemma records_of_nonempty (key_of : order -> pystr) (k : pystr)
  (sales : list order) :
  In k (map key_of sales) -> records_of key_of k sales <> [].
Proof.
  intros H. apply in_map_iff in H. destruct H as [item [E Hin]].
  assert (Hf : In item (records_of key_of k sales)).
  { apply filter_In. split; [exact Hin |]. rewrite E. apply pystr_eqb_refl. }
  intros Hnil. rewrite Hnil in Hf. exact Hf.
Qed.

(** X1: every returned warehouse bucket holds the records of its warehouse:
    there is at least one, the count is their number and the revenue the sum
    of their order values; the same holds of every region bucket. *)
Theorem warehouse_and_region_buckets (sales : list order) (mp : mp_type) :
  let r := aggregate_sales_data sales mp in
  Forall (fun b => holds_records mp (warehouse_key mp) sales
                     (name b) (count b) (revenue b))
    (sales_by_warehouse r)
  /\ Forall (fun e => holds_records mp (region_key mp) sales
                        (e_name e) (e_count e) (e_revenue e))
       (sales_by_region r).
Proof.
  cbn zeta. pose proof (agg_loop_inv mp sales) as I.
  destruct (agg_loop_keys_NoDup mp sales) as (Nw & Nr & _).
  unfold aggregate_sales_data; cbn [sales_by_warehouse sales_by_region].
  split.
  - apply List.Forall_map, List.Forall_forall. intros a Ha.
    apply In_take, In_sorted_desc in Ha.
    destruct (stored_bucket_at _ a (inv_wh_named _ _ _ I) Nw Ha) as [Hc Hr].
    destruct (agg_loop_at mp sales (a_name a)) as ((Ac & Av) & _).
    unfold holds_records. cbn [name count revenue flatten].
    split; [| split; congruence].
    apply records_of_nonempty, first_seen_In.
    rewrite <- (inv_wh_keys _ _ _ I), <- (named_values a_name); [| apply I].
    apply in_map, Ha.
  - apply List.Forall_forall. intros e He.
    apply In_take, In_sorted_desc in He.
    destruct (stored_entry_at _ e (inv_rg_named _ _ _ I) Nr He) as [Hc Hr].
    destruct (agg_loop_at mp sales (e_name e)) as (_ & (Ac & Av) & _).
    unfold holds_records.
    split; [| split; congruence].
    apply records_of_nonempty, first_seen_In.
    rewrite <- (inv_rg_keys _ _ _ I), <- (named_values e_name); [| apply I].
    apply in_map, He.
Qed.

(** X2: every product bucket holds the product lines of its article: the
    article occurs among the lines, the count is the sum of their units and
    the revenue the sum of their amounts (for WB each order is one line of
    one unit at its order value; for Ozon the lines are those of the
    postings' [products], price times quantity each). *)
Theorem product_buckets (sales : list order) (mp : mp_type) :
  let r := aggregate_sales_data sales mp in
  let lines := flat_map (product_lines mp) sales in
  Forall (fun b => In (name b) (map fst lines)
                   /\ count b = units_for (name b) lines
                   /\ revenue b = revenue_for (name b) lines)
    (sales_by_product r).
Proof.
  cbn zeta. pose proof (agg_loop_inv mp sales) as I.
  destruct (agg_loop_keys_NoDup mp sales) as (_ & _ & Np).
  unfold aggregate_sales_data; cbn [sales_by_product].
  apply List.Forall_map, List.Forall_forall. intros a Ha.
  apply In_sorted_desc in Ha.
  destruct (stored_bucket_at _ a (inv_pr_named _ _ _ I) Np Ha) as [Hc Hr].
  destruct (agg_loop_at mp sales (a_name a)) as (_ & _ & (Ac & Av)).
  cbn [name count revenue flatten].
  split; [| split; congruence].
  assert (Hk : In (a_name a) (first_seen (flat_map (product_keys mp) sales))).
  { rewrite <- (inv_pr_keys _ _ _ I), <- (named_values a_name); [| apply I].
    apply in_map, Ha. }
  apply (proj1 (first_seen_In _ _)) in Hk. unfold product_keys in Hk.
  rewrite flat_map_concat_map, concat_map, map_map, <- flat_map_concat_map.
  exact Hk.
Qed.

(** ** Aggregator: totals, names, truncation *)

Lemma product_dict_revenue (wh_name : pystr) (lines : list product_line)
  (bp : odict acc_bucket) :
  sumZ (map a_revenue (values (fold_left (ozon_product_step wh_name) lines bp)))
  = sumZ (map a_revenue (values bp))
    + sumZ (map (fun prod => default 0 (price prod) * default 1 (quantity prod))
              lines).
Proof.
  apply (fold_left_measure (fun bp => sumZ (map a_revenue (values bp)))).
  intros s prod. unfold ozon_product_step.
  apply (sum_values_update a_revenue); reflexivity.
Qed.

Lemma sumZ_map_flat_map {X Y : Type} (g : Y -> Z) (F : X -> list Y)
  (l : list X) :
  sumZ (map g (flat_map F l)) = sumZ (map (fun x => sumZ (map g (F x))) l).
Proof.
  induction l as [|x l IH]; simpl; [reflexivity |].
  rewrite map_app, sumZ_app, IH. reflexivity.
Qed.

(** The totals of the loop: the revenue and the revenues of the buckets of
    each dict. *)
Lemma agg_loop_revenue (mp : mp_type) (sales : list order) :
  let st := agg_loop mp sales in
  let total := sumZ (map (order_value mp) sales) in
  st_total_revenue st = total
  /\ sumZ (map a_revenue (values (st_by_warehouse st))) = total
  /\ sumZ (map e_revenue (values (st_by_region st))) = total
  /\ sumZ (map a_revenue (values (st_by_product st)))
     = sumZ (map (fun l => snd (snd l)) (flat_map (product_lines mp) sales)).
Proof.
  cbn zeta. unfold agg_loop.
  split; [| split; [| split]].
  - rewrite (fold_left_measure st_total_revenue (order_value mp));
      [reflexivity | intros st item; destruct mp; reflexivity].
  - rewrite (fold_left_measure
               (fun st => sumZ (map a_revenue (values (st_by_warehouse st))))
               (order_value mp)); [reflexivity |].
    intros st item. destruct mp; apply (sum_values_update a_revenue);
      reflexivity.
  - rewrite (fold_left_measure
               (fun st => sumZ (map e_revenue (values (st_by_region st))))
               (order_value mp)); [reflexivity |].
    intros st item. destruct mp; apply (sum_values_update e_revenue);
      reflexivity.
  - rewrite (fold_left_measure
               (fun st => sumZ (map a_revenue (values (st_by_product st))))
               (fun item => sumZ (map (fun l => snd (snd l))
                                    (product_lines mp item)))).
    + rewrite sumZ_map_flat_map. reflexivity.
    + intros st item. destruct mp.
      * cbn [agg_step st_by_product product_lines map snd]. rewrite sumZ_cons.
        simpl sumZ. rewrite Z.add_0_r.
        apply (sum_values_update a_revenue); reflexivity.
      * cbn [agg_step st_by_product]. rewrite product_dict_revenue.
        unfold product_lines. rewrite map_map. reflexivity.
Qed.

Lemma sum_revenue_flatten (key : entry -> Z) (l : list acc_bucket) :
  sumZ (map revenue (map (flatten key) l)) = sumZ (map a_revenue l).
Proof. rewrite map_map. reflexivity. Qed.

(** With order values that are not negative, no bucket has a negative
    revenue. *)
Lemma agg_loop_revenue_nonneg (mp : mp_type) (sales : list order) :
  Forall (fun item => 0 <= order_value mp item) sales ->
  let st := agg_loop mp sales in
  Forall (fun b => 0 <= a_revenue b) (values (st_by_warehouse st))
  /\ Forall (fun e => 0 <= e_revenue e) (values (st_by_region st)).
Proof.
  intros Hpos. cbn zeta. unfold agg_loop. rewrite List.Forall_forall in Hpos.
  apply (fold_left_inv_In
           (fun st => Forall (fun b => 0 <= a_revenue b)
                        (values (st_by_warehouse st))
                      /\ Forall (fun e => 0 <= e_revenue e)
                           (values (st_by_region st)))).
  - split; constructor.
  - intros st item Hin [Hw Hr]. specialize (Hpos item Hin).
    destruct mp; cbn [order_value] in Hpos; split;
      apply values_update_Forall; try assumption; simpl; intros; lia.
Qed.

(** X3: when every amount is a whole number, so that the sums of the code
    are exact: [revenue] is the sum of the order values of the records; the
    revenues of the returned warehouse (region) buckets sum to it when at
    most 15 distinct warehouses (regions) occur, and to no more than it when
    no order value is negative; the revenues of the product buckets sum to
    the amounts of all product lines, which for WB is [revenue] again.
    (With prices that have a fraction the sums of differently grouped
    floats agree up to rounding only, see [rounded_revenue].) *)
Theorem revenue_completeness (sales : list order) (mp : mp_type) :
  let r := aggregate_sales_data sales mp in
  let total := sumZ (map (order_value mp) sales) in
  r_revenue r = total
  /\ ((length (first_seen (map (warehouse_key mp) sales)) <= 15)%nat ->
      sumZ (map revenue (sales_by_warehouse r)) = total)
  /\ ((length (first_seen (map (region_key mp) sales)) <= 15)%nat ->
      sumZ (map e_revenue (sales_by_region r)) = total)
  /\ (Forall (fun item => 0 <= order_value mp item) sales ->
      sumZ (map revenue (sales_by_warehouse r)) <= total
      /\ sumZ (map e_revenue (sales_by_region r)) <= total)
  /\ sumZ (map revenue (sales_by_product r))
     = sumZ (map (fun l => snd (snd l)) (flat_map (product_lines mp) sales))
  /\ sumZ (map revenue (sales_by_product (aggregate_sales_data sales wb)))
     = r_revenue (aggregate_sales_data sales wb).
Proof.
  cbn zeta. pose proof (agg_loop_inv mp sales) as I.
  destruct (agg_loop_revenue mp sales) as (T0 & T1 & T2 & T3).
  unfold aggregate_sales_data;
    cbn [r_revenue sales_by_warehouse sales_by_region sales_by_product].
  rewrite !sum_revenue_flatten.
  split; [exact T0 |].
  split.
  { intros Hle. rewrite take_ge.
    - rewrite (sumZ_map_perm a_revenue _ _ (sorted_desc_perm a_revenue _)).
      exact T1.
    - unfold sorted_desc. rewrite py_sorted_length, values_length.
      rewrite (inv_wh_keys _ _ _ I). exact Hle. }
  split.
  { intros Hle. rewrite take_ge.
    - rewrite (sumZ_map_perm e_revenue _ _ (sorted_desc_perm e_revenue _)).
      exact T2.
    - unfold sorted_desc. rewrite py_sorted_length, values_length.
      rewrite (inv_rg_keys _ _ _ I). exact Hle. }
  split.
  { intros Hpos. destruct (agg_loop_revenue_nonneg mp sales Hpos) as [Pw Pr].
    destruct (sum_take_le a_revenue 15
                (sorted_desc a_revenue
                   (values (st_by_warehouse (agg_loop mp sales)))))
      as [Hw _]; [apply Forall_sorted_desc, Pw |].
    destruct (sum_take_le e_revenue 15
                (sorted_desc e_revenue
                   (values (st_by_region (agg_loop mp sales)))))
      as [Hr _]; [apply Forall_sorted_desc, Pr |].
    rewrite (sumZ_map_perm a_revenue _ _ (sorted_desc_perm a_revenue _)) in Hw.
    rewrite (sumZ_map_perm e_revenue _ _ (sorted_desc_perm e_revenue _)) in Hr.
    rewrite T1 in Hw. rewrite T2 in Hr. split; assumption. }
  split.
  { rewrite (sumZ_map_perm a_revenue _ _ (sorted_desc_perm a_revenue _)).
    exact T3. }
  rewrite (sumZ_map_perm a_revenue _ _ (sorted_desc_perm a_revenue _)).
  destruct (agg_loop_revenue wb sales) as (W0 & _ & _ & W3).
  rewrite W3, W0. clear. induction sales as [|x l IH]; simpl; [reflexivity |].
  rewrite IH. lia.
Qed.

Lemma revenue_completeness_witness :
  (length (first_seen (map (warehouse_key wb) two_orders)) <= 15)%nat
  /\ sumZ (map revenue (sales_by_warehouse
                          (aggregate_sales_data two_orders wb))) = 100.
Proof.
  assert (H : (length (first_seen (map (warehouse_key wb) two_orders)) <= 15)%nat)
    by (vm_compute; lia).
  split; [exact H |].
  exact (proj1 (proj2 (revenue_completeness two_orders wb)) H).
Defined.

Lemma sorted_names (key : acc_bucket -> Z) (d : odict acc_bucket) :
  named a_name d ->
  Permutation (map a_name (sorted_desc key (values d))) (keys d).
Proof.
  intros Hn. rewrite <- (named_values a_name d Hn).
  apply Permutation_map, sorted_desc_perm.
Qed.

(** X4: in each returned list the bucket names are pairwise distinct; the
    warehouse (region) list has as many buckets as there are distinct
    warehouses (regions) among the records, capped at 15, so it is empty
    only for an empty input; the product list names exactly the articles of
    the product lines. *)
Theorem bucket_names (sales : list order) (mp : mp_type) :
  let r := aggregate_sales_data sales mp in
  NoDup (map name (sales_by_warehouse r))
  /\ NoDup (map e_name (sales_by_region r))
  /\ NoDup (map name (sales_by_product r))
  /\ length (sales_by_warehouse r)
     = Nat.min 15 (length (first_seen (map (warehouse_key mp) sales)))
  /\ length (sales_by_region r)
     = Nat.min 15 (length (first_seen (map (region_key mp) sales)))
  /\ (sales_by_warehouse r = [] <-> sales = [])
  /\ Forall (fun k => In k (map (warehouse_key mp) sales))
       (map name (sales_by_warehouse r))
  /\ (forall k, In k (map name (sales_by_product r)) <->
                In k (flat_map (product_keys mp) sales)).
Proof.
  cbn zeta. pose proof (agg_loop_inv mp sales) as I.
  destruct (agg_loop_keys_NoDup mp sales) as (Nw & Nr & Np).
  unfold aggregate_sales_data;
    cbn [sales_by_warehouse sales_by_region sales_by_product].
  rewrite !flatten_names.
  assert (Lw : length (take 15 (sorted_desc a_revenue
                                  (values (st_by_warehouse (agg_loop mp sales)))))
               = Nat.min 15 (length (first_seen (map (warehouse_key mp) sales)))).
  { rewrite length_take. unfold sorted_desc.
    rewrite py_sorted_length, values_length, (inv_wh_keys _ _ _ I).
    reflexivity. }
  split.
  { rewrite <- firstn_map. eapply sublist_NoDup; [| apply sublist_take].
    rewrite (sorted_names a_revenue); [exact Nw | apply I]. }
  split.
  { rewrite <- firstn_map. eapply sublist_NoDup; [| apply sublist_take].
    rewrite (Permutation_map e_name (sorted_desc_perm e_revenue _)).
    rewrite (named_values e_name); [exact Nr | apply I]. }
  split.
  { rewrite (sorted_names a_revenue); [exact Np | apply I]. }
  split; [rewrite length_map; exact Lw |].
  split.
  { rewrite length_take. unfold sorted_desc.
    rewrite py_sorted_length, values_length, (inv_rg_keys _ _ _ I).
    reflexivity. }
  split.
  { rewrite <- length_zero_iff_nil, length_map, Lw. split.
    - intros H. destruct sales as [|x l]; [reflexivity |]. exfalso.
      assert (Hin : In (warehouse_key mp x)
                      (first_seen (map (warehouse_key mp) (x :: l))))
        by (apply first_seen_In; left; reflexivity).
      destruct (first_seen (map (warehouse_key mp) (x :: l)));
        [exact Hin | simpl in H; lia].
    - intros ->. reflexivity. }
  split.
  { apply List.Forall_forall. intros k Hk.
    rewrite <- firstn_map in Hk. apply In_take in Hk.
    apply (Permutation_in _ (sorted_names a_revenue _ (inv_wh_named _ _ _ I)))
      in Hk.
    rewrite (inv_wh_keys _ _ _ I) in Hk. apply first_seen_In, Hk. }
  intros k. rewrite <- (first_seen_In (flat_map (product_keys mp) sales)).
  rewrite <- (inv_pr_keys _ _ _ I).
  split; apply Permutation_in;
    [| symmetry]; apply sorted_names, I.
Qed.

Lemma StronglySorted_app_rel {A : Type} (R : A -> A -> Prop)
  (l1 l2 : list A) (x y : A) :
  StronglySorted R (l1 ++ l2) -> In x l1 -> In y l2 -> R x y.
Proof.
  induction l1 as [|a l1 IH]; simpl; [tauto |].
  intros H. inversion H as [|? ? Hs Hall]; subst. intros [-> | Hx] Hy.
  - rewrite List.Forall_forall in Hall. apply Hall, in_or_app. auto.
  - apply IH; assumption.
Qed.

Lemma keys_In_values {V : Type} (nm : V -> pystr) (d : odict V) (k : pystr) :
  named nm d -> In k (keys d) -> exists v, In v (values d) /\ nm v = k.
Proof.
  intros Hn Hk. unfold keys in Hk. apply in_map_iff in Hk.
  destruct Hk as [[k' v] [E Hin]]. simpl in E. subst k'.
  exists v. split; [apply in_map_iff; exists (k, v); auto |].
  unfold named in Hn. rewrite List.Forall_forall in Hn. apply (Hn _ Hin).
Qed.

(** X5: truncation keeps the top: a warehouse of the input that is not
    among the returned buckets has a revenue (the sum of the order values of
    its records) that does not exceed the revenue of any returned bucket;
    the same holds of the regions. *)
Theorem truncation_keeps_the_top (sales : list order) (mp : mp_type) :
  let r := aggregate_sales_data sales mp in
  (forall k b,
     In k (map (warehouse_key mp) sales) ->
     ~ In k (map name (sales_by_warehouse r)) ->
     In b (sales_by_warehouse r) ->
     sumZ (map (order_value mp) (records_of (warehouse_key mp) k sales))
     <= revenue b)
  /\ (forall k e,
        In k (map (region_key mp) sales) ->
        ~ In k (map e_name (sales_by_region r)) ->
        In e (sales_by_region r) ->
        sumZ (map (order_value mp) (records_of (region_key mp) k sales))
        <= e_revenue e).
Proof.
  cbn zeta. pose proof (agg_loop_inv mp sales) as I.
  destruct (agg_loop_keys_NoDup mp sales) as (Nw & Nr & _).
  unfold aggregate_sales_data; cbn [sales_by_warehouse sales_by_region].
  split.
  - intros k b Hk Hout Hb.
    set (W := sorted_desc a_revenue
                (values (st_by_warehouse (agg_loop mp sales)))) in *.
    apply first_seen_In in Hk. rewrite <- (inv_wh_keys _ _ _ I) in Hk.
    destruct (keys_In_values a_name _ _ (inv_wh_named _ _ _ I) Hk)
      as (a & Ha & <-).
    destruct (stored_bucket_at _ a (inv_wh_named _ _ _ I) Nw Ha) as [_ Hr].
    destruct (agg_loop_at mp sales (a_name a)) as ((_ & Av) & _).
    rewrite <- Av, Hr.
    apply in_map_iff in Hb. destruct Hb as (a' & <- & Ha').
    cbn [revenue flatten].
    assert (HaW : In a W) by (apply In_sorted_desc, Ha).
    rewrite <- (take_drop 15 W) in HaW. apply in_app_or in HaW.
    destruct HaW as [Hkept | Hdrop].
    + exfalso. apply Hout. rewrite flatten_names. apply in_map, Hkept.
    + apply (StronglySorted_app_rel (desc a_revenue) (take 15 W) (drop 15 W));
        [rewrite take_drop; apply sorted_desc_sorted | exact Ha' | exact Hdrop].
  - intros k e Hk Hout He.
    set (R := sorted_desc e_revenue
                (values (st_by_region (agg_loop mp sales)))) in *.
    apply first_seen_In in Hk. rewrite <- (inv_rg_keys _ _ _ I) in Hk.
    destruct (keys_In_values e_name _ _ (inv_rg_named _ _ _ I) Hk)
      as (a & Ha & <-).
    destruct (stored_entry_at _ a (inv_rg_named _ _ _ I) Nr Ha) as [_ Hr].
    destruct (agg_loop_at mp sales (e_name a)) as (_ & (_ & Av) & _).
    rewrite <- Av, Hr.
    assert (HaR : In a R) by (apply In_sorted_desc, Ha).
    rewrite <- (take_drop 15 R) in HaR. apply in_app_or in HaR.
    destruct HaR as [Hkept | Hdrop].
    + exfalso. apply Hout. apply in_map, Hkept.
    + apply (StronglySorted_app_rel (desc e_revenue) (take 15 R) (drop 15 R));
        [rewrite take_drop; apply sorted_desc_sorted | exact He | exact Hdrop].
Qed.

(** The sixteenth warehouse, [P], is cut, and its revenue of 100 does not
    exceed that of the first returned bucket. *)
Lemma truncation_keeps_the_top_witness :
  exists b,
    In [80%N] (map (warehouse_key wb) sixteen_warehouses)
    /\ ~ In [80%N] (map name (sales_by_warehouse
                                (aggregate_sales_data sixteen_warehouses wb)))
    /\ In b (sales_by_warehouse (aggregate_sales_data sixteen_warehouses wb))
    /\ sumZ (map (order_value wb)
               (records_of (warehouse_key wb) [80%N] sixteen_warehouses))
       <= revenue b.
Proof.
  assert (H1 : In [80%N] (map (warehouse_key wb) sixteen_warehouses))
    by (apply list_elem_of_In, (bool_decide_unpack _); vm_compute; reflexivity).
  assert (H2 : ~ In [80%N]
                 (map name (sales_by_warehouse
                              (aggregate_sales_data sixteen_warehouses wb)))).
  { intros H. apply list_elem_of_In in H. revert H.
    apply (bool_decide_unpack _). vm_compute. reflexivity. }
  assert (H3 : In (hd {| name := []; count := 0; revenue := 0; breakdown := [] |}
                      (sales_by_warehouse
                         (aggregate_sales_data sixteen_warehouses wb)))
                 (sales_by_warehouse (aggregate_sales_data sixteen_warehouses wb)))
    by (vm_compute; left; reflexivity).
  eexists. split; [exact H1 |]. split; [exact H2 |]. split; [exact H3 |].
  exact (proj1 (truncation_keeps_the_top sixteen_warehouses wb) _ _ H1 H2 H3).
Defined.

(** ** Aggregator: the nested breakdowns *)

Lemma breakdown_at_update (m : entry -> Z) (delta : Z) (k k' sub sub' : pystr)
  (n amount : Z) (d : odict acc_bucket) :
  (forall s, m (new_entry s) = 0) ->
  (forall e, m (entry_add n amount e) = m e + delta) ->
  breakdown_at m
    (odict_update k' (new_bucket k') (bucket_add_with sub' n amount) d) k sub
  = breakdown_at m d k sub
    + (if pystr_eqb k k' then if pystr_eqb sub sub' then delta else 0 else 0).
Proof.
  intros Hi Hf. unfold breakdown_at.
  apply (measure_at_update
           (fun b => match assoc sub (a_breakdown b) with
                     | Some e => m e
                     | None => 0
                     end)
           (if pystr_eqb sub sub' then delta else 0)).
  - reflexivity.
  - intros v. cbn [a_breakdown bucket_add_with].
    apply (measure_at_update m delta); [apply Hi | apply Hf].
Qed.

Lemma breakdown_at_untouched (m : entry -> Z) (k k' sub : pystr)
  (n amount : Z) (d : odict acc_bucket) :
  breakdown_at m (odict_update k' (new_bucket k') (bucket_add n amount) d) k sub
  = breakdown_at m d k sub.
Proof.
  unfold breakdown_at. rewrite assoc_update.
  destruct (pystr_eqb k k') eqn:E; [| reflexivity].
  apply pystr_eqb_eq in E. subst k'. cbn [a_breakdown bucket_add].
  destruct (assoc k d); reflexivity.
Qed.

Lemma product_loop_breakdown_at (wh_name a w : pystr)
  (lines : list product_line) (bp : odict acc_bucket) :
  let contributions :=
    map (fun prod =>
           (default Unknown (offer_id prod),
            (default 1 (quantity prod),
             default 0 (price prod) * default 1 (quantity prod)))) lines in
  let bp' := fold_left (ozon_product_step wh_name) lines bp in
  let hit (amount : Z) := if pystr_eqb w wh_name then amount else 0 in
  breakdown_at e_count bp' a w
  = breakdown_at e_count bp a w + hit (units_for a contributions)
  /\ breakdown_at e_revenue bp' a w
     = breakdown_at e_revenue bp a w + hit (revenue_for a contributions).
Proof.
  cbn zeta. revert bp. induction lines as [|prod lines IH]; intros bp.
  - unfold units_for, revenue_for. simpl.
    destruct (pystr_eqb w wh_name); lia.
  - cbn [fold_left map]. destruct (IH (ozon_product_step wh_name bp prod))
      as [Hc Hr]. rewrite Hc, Hr. unfold ozon_product_step.
    rewrite (breakdown_at_update e_count (default 1 (quantity prod)));
      [| reflexivity | reflexivity].
    rewrite (breakdown_at_update e_revenue
               (default 0 (price prod) * default 1 (quantity prod)));
      [| reflexivity | reflexivity].
    unfold units_for, revenue_for. cbn [map fst snd]. rewrite !sumZ_cons.
    destruct (pystr_eqb a (default Unknown (offer_id prod)));
      destruct (pystr_eqb w wh_name); split; lia.
Qed.

(** The entry for the warehouse [w] of the product bucket [a], and for WB
    the entry for the article [a] of the warehouse bucket [w], after one
    more record. *)
Lemma agg_step_breakdown_at (mp : mp_type) (st : agg_state) (item : order)
  (a w : pystr) :
  let st' := agg_step mp st item in
  let hit (amount : Z) :=
    if pystr_eqb w (warehouse_key mp item) then amount else 0 in
  (breakdown_at e_count (st_by_product st') a w
   = breakdown_at e_count (st_by_product st) a w
     + hit (units_for a (product_lines mp item))
   /\ breakdown_at e_revenue (st_by_product st') a w
      = breakdown_at e_revenue (st_by_product st) a w
        + hit (revenue_for a (product_lines mp item)))
  /\ (breakdown_at e_count (st_by_warehouse st') w a
      = breakdown_at e_count (st_by_warehouse st) w a
        + match mp with
          | wb => hit (units_for a (product_lines mp item))
          | ozon => 0
          end
      /\ breakdown_at e_revenue (st_by_warehouse st') w a
         = breakdown_at e_revenue (st_by_warehouse st) w a
           + match mp with
             | wb => hit (revenue_for a (product_lines mp item))
             | ozon => 0
             end).
Proof.
  cbn zeta. destruct mp.
  - cbn [agg_step st_by_product st_by_warehouse warehouse_key product_lines].
    unfold units_for, revenue_for. cbn [map fst snd]. rewrite !sumZ_cons.
    simpl sumZ. rewrite !Z.add_0_r.
    rewrite (breakdown_at_update e_count 1); [| reflexivity | reflexivity].
    rewrite (breakdown_at_update e_revenue (default 0 (priceWithDisc item)));
      [| reflexivity | reflexivity].
    rewrite (breakdown_at_update e_count 1); [| reflexivity | reflexivity].
    rewrite (breakdown_at_update e_revenue (default 0 (priceWithDisc item)));
      [| reflexivity | reflexivity].
    destruct (pystr_eqb a (default Unknown (supplierArticle item)));
      destruct (pystr_eqb w (default Unknown (warehouseName item)));
      repeat split; reflexivity.
  - cbn [agg_step st_by_product st_by_warehouse warehouse_key].
    rewrite !breakdown_at_untouched.
    split; [apply product_loop_breakdown_at | split; lia].
Qed.

Lemma hits_lines_of (mp : mp_type) (w : pystr)
  (g : list (pystr * (Z * Z)) -> Z) (sales : list order) :
  sumZ (map (fun item => if pystr_eqb w (warehouse_key mp item)
                         then g (product_lines mp item) else 0) sales)
  = sumZ (map (fun item => g (product_lines mp item))
            (records_of (warehouse_key mp) w sales)).
Proof. apply sumZ_filter_hits. Qed.

(** The breakdown entries after the whole loop. *)
Lemma agg_loop_breakdown_at (mp : mp_type) (sales : list order) (a w : pystr) :
  let st := agg_loop mp sales in
  let lines := lines_of mp (warehouse_key mp) w sales in
  (breakdown_at e_count (st_by_product st) a w = units_for a lines
   /\ breakdown_at e_revenue (st_by_product st) a w = revenue_for a lines)
  /\ (breakdown_at e_count (st_by_warehouse st) w a
      = match mp with wb => units_for a lines | ozon => 0 end
      /\ breakdown_at e_revenue (st_by_warehouse st) w a
         = match mp with wb => revenue_for a lines | ozon => 0 end).
Proof.
  cbn zeta. unfold agg_loop, lines_of.
  rewrite <- units_for_flat_map, <- revenue_for_flat_map.
  rewrite <- !(hits_lines_of mp w).
  split; split.
  - rewrite (fold_left_measure
               (fun st => breakdown_at e_count (st_by_product st) a w)
               (fun item => if pystr_eqb w (warehouse_key mp item)
                            then units_for a (product_lines mp item) else 0));
      [reflexivity | intros st item; apply (agg_step_breakdown_at mp st item a w)].
  - rewrite (fold_left_measure
               (fun st => breakdown_at e_revenue (st_by_product st) a w)
               (fun item => if pystr_eqb w (warehouse_key mp item)
                            then revenue_for a (product_lines mp item) else 0));
      [reflexivity | intros st item; apply (agg_step_breakdown_at mp st item a w)].
  - destruct mp.
    + rewrite (fold_left_measure
                 (fun st => breakdown_at e_count (st_by_warehouse st) w a)
                 (fun item => if pystr_eqb w (warehouse_key wb item)
                              then units_for a (product_lines wb item) else 0));
        [reflexivity
        | intros st item; apply (agg_step_breakdown_at wb st item a w)].
    + rewrite (fold_left_measure
                 (fun st => breakdown_at e_count (st_by_warehouse st) w a)
                 (fun _ => 0)).
      * rewrite sumZ_zero; [reflexivity |].
        apply List.Forall_map, List.Forall_forall. reflexivity.
      * intros st item. apply (agg_step_breakdown_at ozon st item a w).
  - destruct mp.
    + rewrite (fold_left_measure
                 (fun st => breakdown_at e_revenue (st_by_warehouse st) w a)
                 (fun item => if pystr_eqb w (warehouse_key wb item)
                              then revenue_for a (product_lines wb item) else 0));
        [reflexivity
        | intros st item; apply (agg_step_breakdown_at wb st item a w)].
    + rewrite (fold_left_measure
                 (fun st => breakdown_at e_revenue (st_by_warehouse st) w a)
                 (fun _ => 0)).
      * rewrite sumZ_zero; [reflexivity |].
        apply List.Forall_map, List.Forall_forall. reflexivity.
      * intros st item. apply (agg_step_breakdown_at ozon st item a w).
Qed.

Lemma bucket_add_with_wf (sub : pystr) (n amount : Z) (b : acc_bucket) :
  named e_name (a_breakdown b) /\ NoDup (keys (a_breakdown b)) ->
  named e_name (a_breakdown (bucket_add_with sub n amount b))
  /\ NoDup (keys (a_breakdown (bucket_add_with sub n amount b))).
Proof.
  intros [Hn Hd]. cbn [a_breakdown bucket_add_with]. split.
  - apply named_update; [reflexivity | reflexivity | exact Hn].
  - apply keys_update_NoDup, Hd.
Qed.

Lemma update_with_wf (k sub : pystr) (n amount : Z) (d : odict acc_bucket) :
  breakdowns_wf d ->
  breakdowns_wf
    (odict_update k (new_bucket k) (bucket_add_with sub n amount) d).
Proof.
  apply values_update_Forall.
  - apply bucket_add_with_wf. split; [constructor | apply NoDup_nil_2].
  - intros v. apply bucket_add_with_wf.
Qed.

Lemma agg_loop_breakdowns_wf (mp : mp_type) (sales : list order) :
  let st := agg_loop mp sales in
  breakdowns_wf (st_by_warehouse st) /\ breakdowns_wf (st_by_product st).
Proof.
  cbn zeta. unfold agg_loop.
  apply (fold_left_inv (fun st => breakdowns_wf (st_by_warehouse st)
                                  /\ breakdowns_wf (st_by_product st))).
  - split; constructor.
  - intros st item [Hw Hp]. destruct mp; cbn [agg_step st_by_warehouse
                                                st_by_product]; split.
    + apply update_with_wf, Hw.
    + apply update_with_wf, Hp.
    + apply values_update_Forall; [| auto | exact Hw].
      split; [constructor | apply NoDup_nil_2].
    + apply fold_left_inv; [exact Hp |].
      intros bp prod Hbp. apply update_with_wf, Hbp.
Qed.

(** An entry stored in the breakdown of a stored bucket, looked up. *)
Lemma stored_breakdown_at (m : entry -> Z) (d : odict acc_bucket)
  (a : acc_bucket) (e : entry) :
  named a_name d -> NoDup (keys d) -> breakdowns_wf d ->
  In a (values d) -> In e (values (a_breakdown a)) ->
  breakdown_at m d (a_name a) (e_name e) = m e.
Proof.
  intros Hn Hnd Hwf Ha He. unfold breakdown_at.
  rewrite (assoc_named a_name d a Hn Hnd Ha).
  unfold breakdowns_wf in Hwf. rewrite List.Forall_forall in Hwf.
  destruct (Hwf a Ha) as [Hn' Hnd'].
  rewrite (assoc_named e_name _ e Hn' Hnd' He). reflexivity.
Qed.

Lemma flatten_breakdown_shape (key : entry -> Z) (a : acc_bucket) :
  named e_name (a_breakdown a) -> NoDup (keys (a_breakdown a)) ->
  StronglySorted (desc key) (breakdown (flatten key a))
  /\ NoDup (map e_name (breakdown (flatten key a))).
Proof.
  intros Hn Hd. cbn [breakdown flatten]. split; [apply sorted_desc_sorted |].
  rewrite (Permutation_map e_name (sorted_desc_perm key _)).
  rewrite (named_values e_name); assumption.
Qed.

(** X6: the breakdown of every product bucket lists the warehouses of its
    article once each, sorted by descending revenue, and the entry of a
    warehouse holds the units and the amounts that the product lines of the
    records of that warehouse give to the article; for WB the breakdown of
    every warehouse bucket lists its articles once each, sorted by descending
    count, and the entry of an article holds the units and the amounts of
    the lines of that article among the records of the warehouse. *)
Theorem breakdown_entries (sales : list order) (mp : mp_type) :
  Forall (fun b =>
            breakdown_ok e_revenue
              (fun e => lines_of mp (warehouse_key mp) (e_name e) sales)
              (fun _ => name b) b)
    (sales_by_product (aggregate_sales_data sales mp))
  /\ Forall (fun b =>
               breakdown_ok e_count
                 (fun _ => lines_of wb (warehouse_key wb) (name b) sales)
                 e_name b)
       (sales_by_warehouse (aggregate_sales_data sales wb)).
Proof.
  split.
  - pose proof (agg_loop_inv mp sales) as I.
    destruct (agg_loop_keys_NoDup mp sales) as (_ & _ & Np).
    destruct (agg_loop_breakdowns_wf mp sales) as [_ Wp].
    unfold aggregate_sales_data; cbn [sales_by_product].
    apply List.Forall_map, List.Forall_forall. intros a Ha.
    apply In_sorted_desc in Ha.
    pose proof Wp as Wp'. unfold breakdowns_wf in Wp'.
    rewrite List.Forall_forall in Wp'. destruct (Wp' a Ha) as [Hn Hd].
    destruct (flatten_breakdown_shape e_revenue a Hn Hd) as [S1 S2].
    split; [exact S1 |]. split; [exact S2 |].
    apply List.Forall_forall. intros e He. cbn [breakdown flatten] in He.
    apply In_sorted_desc in He. cbn [name flatten].
    destruct (agg_loop_breakdown_at mp sales (a_name a) (e_name e))
      as ((Hc & Hr) & _).
    rewrite <- Hc, <- Hr.
    rewrite !(stored_breakdown_at _ _ a e (inv_pr_named _ _ _ I) Np Wp Ha He).
    auto.
  - pose proof (agg_loop_inv wb sales) as I.
    destruct (agg_loop_keys_NoDup wb sales) as (Nw & _ & _).
    destruct (agg_loop_breakdowns_wf wb sales) as [Ww _].
    unfold aggregate_sales_data; cbn [sales_by_warehouse].
    apply List.Forall_map, List.Forall_forall. intros a Ha.
    apply In_take, In_sorted_desc in Ha.
    pose proof Ww as Ww'. unfold breakdowns_wf in Ww'.
    rewrite List.Forall_forall in Ww'. destruct (Ww' a Ha) as [Hn Hd].
    destruct (flatten_breakdown_shape e_count a Hn Hd) as [S1 S2].
    split; [exact S1 |]. split; [exact S2 |].
    apply List.Forall_forall. intros e He. cbn [breakdown flatten] in He.
    apply In_sorted_desc in He. cbn [name flatten].
    destruct (agg_loop_breakdown_at wb sales (e_name e) (a_name a))
      as (_ & (Hc & Hr)).
    rewrite <- Hc, <- Hr.
    rewrite !(stored_breakdown_at _ _ a e (inv_wh_named _ _ _ I) Nw Ww Ha He).
    auto.
Qed.

(** ** PeriodFilter: nesting of the windows *)

Lemma filter_filter_narrow {A : Type} (f g : A -> bool) (l : list A) :
  (forall x, f x = true -> g x = true) ->
  List.filter f (List.filter g l) = List.filter f l.
Proof.
  intros H. induction l as [|x l IH]; simpl; [reflexivity |].
  destruct (g x) eqn:G; simpl.
  - rewrite IH. reflexivity.
  - destruct (f x) eqn:F; [| exact IH]. rewrite (H x F) in G. discriminate.
Qed.

Lemma filter_length_le {A : Type} (f g : A -> bool) (l : list A) :
  (forall x, f x = true -> g x = true) ->
  (length (List.filter f l) <= length (List.filter g l))%nat.
Proof.
  intros H. induction l as [|x l IH]; simpl; [lia |].
  destruct (f x) eqn:F.
  - rewrite (H x F). simpl. lia.
  - destruct (g x); simpl; lia.
Qed.

Lemma filter_sublist {A : Type} (f : A -> bool) (l : list A) :
  List.filter f l `sublist_of` l.
Proof.
  induction l as [|x l IH]; simpl; [constructor |].
  destruct (f x); [apply sublist_skip | apply sublist_cons]; exact IH.
Qed.

Lemma filter_period_narrow {A : Type} (rt : runtime) (today : date)
  (p1 p2 : period) (date_field : A -> option pystr) (items : list A) :
  narrower p1 p2 ->
  filter_period rt today p1 date_field
    (filter_period rt today p2 date_field items)
  = filter_period rt today p1 date_field items
  /\ (length (filter_period rt today p1 date_field items)
      <= length (filter_period rt today p2 date_field items))%nat.
Proof.
  intros H. unfold filter_period. split.
  - apply filter_filter_narrow. intros x.
    destruct (parse_date rt (date_field x)); [apply H | discriminate].
  - apply filter_length_le. intros x.
    destruct (parse_date rt (date_field x)); [apply H | discriminate].
Qed.

Lemma windows_narrower :
  narrower (window (u "today")) (window (u "days_3"))
  /\ narrower (window (u "yesterday")) (window (u "days_3"))
  /\ narrower (window (u "days_3")) (window (u "days_7"))
  /\ narrower (window (u "days_7")) (window (u "days_30")).
Proof.
  repeat split; intros today d; unfold in_window;
    change (exact_day (window (u "today"))) with false;
    change (exact_day (window (u "yesterday"))) with true;
    change (exact_day (window (u "days_3"))) with false;
    change (exact_day (window (u "days_7"))) with false;
    change (exact_day (window (u "days_30"))) with false;
    change (days (window (u "today"))) with 0;
    change (days (window (u "yesterday"))) with 1;
    change (days (window (u "days_3"))) with 2;
    change (days (window (u "days_7"))) with 6;
    change (days (window (u "days_30"))) with 29;
    cbn iota; rewrite ?Z.eqb_eq, ?Z.leb_le; lia.
Qed.

(** X7: the windows nest: filtering the records of the 3-day window for
    "today" or for "yesterday" gives the records of "today" or "yesterday",
    and likewise the 3-day window within the 7-day and the 7-day within the
    30-day window; no record is in both "today" and "yesterday"; the
    records of a window are a subsequence of the input, in input order. *)
Theorem windows_nest {A : Type} (rt : runtime) (today : date)
  (date_field : A -> option pystr) (items : list A) :
  let records k := filter_period rt today (window k) date_field items in
  let within k l := filter_period rt today (window k) date_field l in
  within (u "today") (records (u "days_3")) = records (u "today")
  /\ within (u "yesterday") (records (u "days_3")) = records (u "yesterday")
  /\ within (u "days_3") (records (u "days_7")) = records (u "days_3")
  /\ within (u "days_7") (records (u "days_30")) = records (u "days_7")
  /\ within (u "today") (records (u "yesterday")) = []
  /\ Forall (fun p => filter_period rt today p date_field items
                      `sublist_of` items) periods_config.
Proof.
  cbn zeta. destruct windows_narrower as (N1 & N2 & N3 & N4).
  split; [apply filter_period_narrow, N1 |].
  split; [apply filter_period_narrow, N2 |].
  split; [apply filter_period_narrow, N3 |].
  split; [apply filter_period_narrow, N4 |].
  split.
  - unfold filter_period. induction items as [|x l IH]; [reflexivity |].
    cbn [List.filter]. destruct (parse_date rt (date_field x)) as [dt|] eqn:P;
      [| exact IH].
    destruct (in_window today (window (u "yesterday")) (dt_date dt)) eqn:Y;
      [| exact IH].
    cbn [List.filter]. rewrite P.
    assert (T : in_window today (window (u "today")) (dt_date dt) = false).
    { revert Y. unfold in_window.
      change (exact_day (window (u "today"))) with false.
      change (exact_day (window (u "yesterday"))) with true.
      change (days (window (u "today"))) with 0.
      change (days (window (u "yesterday"))) with 1.
      cbn iota. rewrite Z.eqb_eq, Z.leb_gt. lia. }
    rewrite T. exact IH.
  - apply List.Forall_forall. intros p _. apply filter_sublist.
Qed.

(** ** Colorizer: the palette *)

Lemma upper_lower_cp (c : N) : upper_cp (lower_cp c) = upper_cp c.
Proof.
  unfold lower_cp.
  destruct (in_range 65 90 c) eqn:E1;
    [| destruct (in_range 1040 1071 c) eqn:E2;
       [| destruct (in_range 1024 1039 c) eqn:E3]]; [| | | reflexivity];
    unfold upper_cp;
    rewrite ?in_range_true, ?in_range_false in *;
    repeat match goal with
           | |- context [in_range ?lo ?hi ?x] =>
               let E := fresh "E" in
               destruct (in_range lo hi x) eqn:E;
               rewrite ?in_range_true, ?in_range_false in E
           end; lia.
Qed.

Lemma upper_upper_cp (c : N) : upper_cp (upper_cp c) = upper_cp c.
Proof.
  unfold upper_cp at 2 3.
  destruct (in_range 97 122 c) eqn:E1;
    [| destruct (in_range 1072 1103 c) eqn:E2;
       [| destruct (in_range 1104 1119 c) eqn:E3]]; [| | | ];
    unfold upper_cp;
    rewrite ?in_range_true, ?in_range_false in *;
    repeat match goal with
           | |- context [in_range ?lo ?hi ?x] =>
               let E := fresh "E" in
               destruct (in_range lo hi x) eqn:E;
               rewrite ?in_range_true, ?in_range_false in E
           end; lia.
Qed.

Lemma upper_lower (s : pystr) : upper (lower s) = upper s.
Proof.
  unfold upper, lower. rewrite map_map. apply map_ext, upper_lower_cp.
Qed.

Lemma upper_upper (s : pystr) : upper (upper s) = upper s.
Proof.
  unfold upper. rewrite map_map. apply map_ext, upper_upper_cp.
Qed.


Lemma get_article_color_fixed (rt : runtime) (article : pystr) :
  get_article_color rt article
  = match fixed_color article with
    | Some c => c
    | None =>
      nth (Z.to_nat (hash rt article mod Z.of_nat (length fallback_colors)))
        fallback_colors []
    end.
Proof.
  unfold get_article_color, fixed_color.
  destruct (assoc (upper article) color_map); [reflexivity |].
  repeat match goal with
         | |- context [if ?b then _ else _] => destruct b; [reflexivity |]
         end.
  reflexivity.
Qed.



(** X9: the fixed colors do not depend on letter case: an identifier with a
    fixed color keeps it when lower-cased or upper-cased, in every run. *)
Theorem fixed_color_ignores_case (rt : runtime) (article c : pystr) :
  fixed_color article = Some c ->
  get_article_color rt article = c
  /\ get_article_color rt (lower article) = c
  /\ get_article_color rt (upper article) = c.
Proof.
  intros H. rewrite !get_article_color_fixed.
  assert (Hl : fixed_color (lower article) = Some c)
    by (unfold fixed_color in *; rewrite upper_lower; exact H).
  assert (Hu : fixed_color (upper article) = Some c)
    by (unfold fixed_color in *; rewrite upper_upper; exact H).
  rewrite H, Hl, Hu. auto.
Qed.

Lemma fixed_color_ignores_case_witness :
  fixed_color (u "Sf0125") = Some (u "#614701")
  /\ get_article_color (example_runtime (CPython.seeded_hash 1)) (u "sf0125")
     = u "#614701".
Proof.
  assert (H : fixed_color (u "Sf0125") = Some (u "#614701"))
    by (vm_compute; reflexivity).
  split; [exact H |].
  exact (proj1 (proj2 (fixed_color_ignores_case
                         (example_runtime (CPython.seeded_hash 1))
                         (u "Sf0125") (u "#614701") H))).
Defined.

(** ** Classifier: decorated names and the keywords themselves *)

Lemma lower_app (a b : pystr) : lower (a ++ b) = lower a ++ lower b.
Proof. apply map_app. Qed.

Lemma contains_decorated (kw name a b : pystr) :
  contains kw name = true -> contains kw (a ++ name ++ b) = true.
Proof.
  rewrite !contains_spec. intros (x & y & ->).
  exists (a ++ x), (y ++ b). rewrite <- !app_assoc. reflexivity.
Qed.

Lemma matches_decorated (name a b : pystr) (e : pystr * list pystr) :
  matches name e -> matches (a ++ name ++ b) e.
Proof.
  intros (kw & Hin & Hc). exists kw. split; [exact Hin |].
  rewrite !lower_app. apply contains_decorated, Hc.
Qed.

Lemma get_warehouse_cluster_fallback (name : pystr) (mp : mp_type) :
  get_warehouse_cluster name mp = fallback_cluster <->
  Forall (fun e => ~ matches name e) (clusters_of mp).
Proof.
  unfold get_warehouse_cluster.
  destruct (scan_clusters (lower name) (clusters_of mp)) as [c|] eqn:Hs.
  - destruct (scan_clusters_Some _ _ _ Hs) as (pre & kws & post & Ht & _ & _).
    split.
    + intros ->. exfalso.
      apply (fallback_not_declared mp fallback_cluster kws); [| reflexivity].
      rewrite Ht. apply in_or_app. right. left. reflexivity.
    + intros Hno. apply scan_clusters_None in Hno. congruence.
  - apply scan_clusters_None in Hs. tauto.
Qed.

(** X10: a name that is classified into a declared cluster stays classified
    (it never falls back to 'Прочие') when text is put before or after it;
    and every keyword of either table, taken as a name, is classified into
    the cluster that declares it: no keyword is shadowed by a cluster
    declared earlier. *)
Theorem classification_of_decorated_names (mp : mp_type) :
  (forall name a b,
     get_warehouse_cluster name mp <> fallback_cluster ->
     get_warehouse_cluster (a ++ name ++ b) mp <> fallback_cluster)
  /\ Forall (fun e => Forall (fun kw => get_warehouse_cluster kw mp = fst e)
                        (snd e))
       (clusters_of mp).
Proof.
  split.
  - intros name a b H Hf. apply H.
    apply get_warehouse_cluster_fallback.
    apply get_warehouse_cluster_fallback in Hf.
    rewrite List.Forall_forall in *. intros e He Hm.
    apply (Hf e He), matches_decorated, Hm.
  - assert (H : forallb (fun e => forallb
                           (fun kw => pystr_eqb (get_warehouse_cluster kw mp)
                                        (fst e)) (snd e))
                  (clusters_of mp) = true)
      by (destruct mp; vm_compute; reflexivity).
    rewrite forallb_forall in H. apply List.Forall_forall. intros e He.
    specialize (H e He). rewrite forallb_forall in H.
    apply List.Forall_forall. intros kw Hkw. apply pystr_eqb_eq, H, Hkw.
Qed.

Lemma classification_of_decorated_names_witness :
  get_warehouse_cluster (u "Коледино") wb <> fallback_cluster
  /\ get_warehouse_cluster (u "СЦ " ++ u "Коледино" ++ u " 2") wb
     <> fallback_cluster.
Proof.
  assert (H : get_warehouse_cluster (u "Коледино") wb <> fallback_cluster)
    by (vm_compute; discriminate).
  split; [exact H |].
  exact (proj1 (classification_of_decorated_names wb) _ _ _ H).
Defined.

(** ** ChartDatasetBuilder: grouping *)

Lemma warehouses_of_update (cw : odict (list stock_wh)) (c c' : pystr)
  (wh : stock_wh) :
  warehouses_of (odict_update c' [] (fun l => l ++ [wh]) cw) c
  = warehouses_of cw c ++ (if pystr_eqb c c' then [wh] else []).
Proof.
  unfold warehouses_of. rewrite assoc_update.
  destruct (pystr_eqb c c') eqn:E.
  - apply pystr_eqb_eq in E. subst c'. reflexivity.
  - rewrite app_nil_r. reflexivity.
Qed.

Lemma group_fold (mp : mp_type) (l : list stock_wh)
  (cw : odict (list stock_wh)) (c : pystr) :
  warehouses_of
    (fold_left
       (fun cw wh =>
          odict_update (get_warehouse_cluster (wh_name wh) mp) []
            (fun l => l ++ [wh]) cw) l cw) c
  = warehouses_of cw c ++ group mp c l.
Proof.
  revert cw. induction l as [|x l IH]; intros cw; simpl.
  - rewrite app_nil_r. reflexivity.
  - rewrite IH, warehouses_of_update, <- app_assoc. unfold cluster_of.
    destruct (pystr_eqb c (get_warehouse_cluster (wh_name x) mp));
      reflexivity.
Qed.

(** The group of a cluster is the warehouses of that cluster, in input
    order. *)
Lemma warehouses_of_group (mp : mp_type) (stocks_wp : list stock_wh)
  (c : pystr) :
  warehouses_of (group_by_cluster mp stocks_wp) c = group mp c stocks_wp.
Proof. unfold group_by_cluster. rewrite group_fold. reflexivity. Qed.

Lemma group_keys (mp : mp_type) (stocks_wp : list stock_wh) :
  keys (group_by_cluster mp stocks_wp)
  = first_seen (map (cluster_of mp) stocks_wp).
Proof.
  unfold group_by_cluster, first_seen.
  assert (G : forall l (cw : odict (list stock_wh)),
             keys (fold_left
                     (fun cw wh =>
                        odict_update (get_warehouse_cluster (wh_name wh) mp) []
                          (fun l => l ++ [wh]) cw) l cw)
             = fold_left see (map (cluster_of mp) l) (keys cw)).
  { induction l as [|x l IH]; intros cw; simpl; [reflexivity |].
    rewrite IH, keys_update. reflexivity. }
  apply (G stocks_wp []).
Qed.

Lemma priority_NoDup (mp : mp_type) : NoDup (priority_clusters mp).
Proof. destruct mp; apply (bool_decide_unpack _); vm_compute; reflexivity. Qed.

Lemma sort_clusters_In (mp : mp_type) (cw : odict (list stock_wh))
  (c : pystr) :
  In c (sort_clusters mp cw) <-> In c (keys cw).
Proof.
  unfold sort_clusters. rewrite in_app_iff, !filter_In.
  unfold sorted_str.
  rewrite (Permutation_in' (eq_refl c) (py_sorted_perm pystr_ltb (keys cw))).
  rewrite mem_In. split.
  - intros [[_ H] | [H _]]; exact H.
  - intros H. destruct (mem c (priority_clusters mp)) eqn:E.
    + left. split; [apply mem_In, E | exact H].
    + right. split; [exact H | reflexivity].
Qed.

Lemma sort_clusters_NoDup (mp : mp_type) (cw : odict (list stock_wh)) :
  NoDup (keys cw) -> NoDup (sort_clusters mp cw).
Proof.
  intros Hk. unfold sort_clusters. apply NoDup_app. split; [| split].
  - eapply sublist_NoDup; [apply priority_NoDup | apply filter_sublist].
  - intros x H1 H2. apply list_elem_of_In in H1, H2.
    apply filter_In in H1, H2. destruct H1 as [H1 _], H2 as [_ H2].
    apply mem_In in H1. rewrite H1 in H2. discriminate.
  - eapply sublist_NoDup; [| apply filter_sublist].
    unfold sorted_str. rewrite (py_sorted_perm pystr_ltb). exact Hk.
Qed.

Lemma sort_clusters_perm (mp : mp_type) (cw : odict (list stock_wh)) :
  NoDup (keys cw) -> Permutation (sort_clusters mp cw) (keys cw).
Proof.
  intros Hk. apply NoDup_Permutation;
    [apply sort_clusters_NoDup, Hk | exact Hk |].
  intros x. rewrite !list_elem_of_In. apply sort_clusters_In.
Qed.

Lemma filter_disjoint_perm {A : Type} (p q : A -> bool) (l : list A) :
  (forall x, p x = true -> q x = false) ->
  Permutation (List.filter p l ++ List.filter q l)
    (List.filter (fun x => p x || q x) l).
Proof.
  intros H. induction l as [|x l IH]; simpl; [reflexivity |].
  destruct (p x) eqn:P; simpl.
  - rewrite (H x P). constructor. exact IH.
  - destruct (q x); [| exact IH].
    rewrite <- Permutation_middle. constructor. exact IH.
Qed.

(** Grouping by distinct keys and concatenating the groups rearranges the
    elements whose key is among them. *)
Lemma groups_perm {A : Type} (cl : A -> pystr) (K : list pystr) (l : list A) :
  NoDup K ->
  Permutation
    (flat_map (fun c => List.filter (fun x => pystr_eqb c (cl x)) l) K)
    (List.filter (fun x => mem (cl x) K) l).
Proof.
  induction 1 as [|c K Hc Hnd IH]; simpl.
  - induction l; simpl; auto.
  - rewrite IH.
    rewrite (filter_disjoint_perm (fun x => pystr_eqb c (cl x))
               (fun x => mem (cl x) K)).
    + apply Permutation_refl'. apply filter_ext. intros x.
      rewrite (pystr_eqb_sym (cl x) c). reflexivity.
    + intros x E. apply pystr_eqb_eq in E. subst c.
      destruct (mem (cl x) K) eqn:M; [| reflexivity].
      exfalso. apply Hc, list_elem_of_In, mem_In, M.
Qed.

Lemma filter_all {A : Type} (p : A -> bool) (l : list A) :
  (forall x, In x l -> p x = true) -> List.filter p l = l.
Proof.
  induction l as [|x l IH]; simpl; intros H; [reflexivity |].
  rewrite (H x), IH; auto.
Qed.

Lemma chart_warehouses_groups (mp : mp_type) (stocks_wp : list stock_wh) :
  chart_warehouses mp stocks_wp
  = flat_map (fun c => group mp c stocks_wp)
      (sort_clusters mp (group_by_cluster mp stocks_wp)).
Proof.
  unfold chart_warehouses. apply flat_map_ext. intros c.
  apply warehouses_of_group.
Qed.

(** Every warehouse is in the chart once. *)
Lemma chart_warehouses_perm (mp : mp_type) (stocks_wp : list stock_wh) :
  Permutation (chart_warehouses mp stocks_wp) stocks_wp.
Proof.
  rewrite chart_warehouses_groups.
  assert (Hk : NoDup (keys (group_by_cluster mp stocks_wp)))
    by (rewrite group_keys; apply first_seen_NoDup).
  rewrite (Permutation_flat_map _ (sort_clusters_perm mp _ Hk)).
  unfold group. rewrite (groups_perm (cluster_of mp)); [| exact Hk].
  rewrite filter_all; [reflexivity |].
  intros x Hx. apply mem_In. rewrite group_keys. apply first_seen_In.
  apply in_map, Hx.
Qed.

(** X11: the chart is a table over the warehouses, rearranged: the labels
    are the names of the warehouses of [stocks_warehouse_products], each
    warehouse once, cluster by cluster; the series are those of the articles
    of [all_articles] that have a positive value, in the order of
    [all_articles], and the value of a series at a label is the stock of its
    article in that warehouse, zero when the warehouse has none; each series
    has the color of its article. *)
Theorem chart_rows (rt : runtime) (mp : mp_type) (stocks_wp : list stock_wh)
  (all_articles : list pystr) (chart : chart_data) :
  build_chart_data rt mp stocks_wp all_articles = Some chart ->
  let rows := chart_warehouses mp stocks_wp in
  let stock article := map (fun wh => default 0 (wh_products wh !! article))
                         rows in
  Permutation rows stocks_wp
  /\ labels chart = map wh_name rows
  /\ map label (datasets chart)
     = List.filter (fun article => has_positive (stock article)) all_articles
  /\ Forall (fun ds => data ds = stock (label ds)
                       /\ backgroundColor ds = get_article_color rt (label ds)
                       /\ borderColor ds = u "#1a1a1a"
                       /\ borderWidth ds = 1)
       (datasets chart).
Proof.
  intros Hb. cbn zeta.
  destruct (build_chart_data_Some _ _ _ _ _ Hb) as (HL & HD & _).
  split; [apply chart_warehouses_perm |].
  split; [exact HL |].
  rewrite HD. split.
  - rewrite map_map. cbn [label mk_dataset]. rewrite map_id.
    apply filter_ext. intros a. rewrite chart_series_eq. reflexivity.
  - apply List.Forall_map, List.Forall_forall. intros a _.
    cbn [data label backgroundColor borderColor borderWidth mk_dataset].
    rewrite chart_series_eq. auto.
Qed.

Lemma chart_rows_witness :
  exists chart,
    build_chart_data (example_runtime (CPython.seeded_hash 0)) wb
      scenario_stocks [u "SF0125"] = Some chart
    /\ Permutation (chart_warehouses wb scenario_stocks) scenario_stocks.
Proof.
  eexists.
  assert (Hb : build_chart_data (example_runtime (CPython.seeded_hash 0)) wb
                 scenario_stocks [u "SF0125"] = Some _)
    by apply scenario_chart.
  split; [exact Hb |].
  exact (proj1 (chart_rows _ _ _ _ _ Hb)).
Defined.

(** ** The order of strings *)

Lemma pystr_ltb_irrefl (a : pystr) : pystr_ltb a a = false.
Proof.
  induction a as [|x a IH]; simpl; [reflexivity |].
  rewrite N.ltb_irrefl, N.eqb_refl, IH. reflexivity.
Qed.

Lemma pystr_ltb_trans (a b c : pystr) :
  pystr_ltb a b = true -> pystr_ltb b c = true -> pystr_ltb a c = true.
Proof.
  revert b c. induction a as [|x a IH]; intros [|y b] [|z c]; simpl;
    try discriminate; try reflexivity.
  rewrite !orb_true_iff, !andb_true_iff, !N.ltb_lt, !N.eqb_eq.
  intros [H1 | [-> H1]] [H2 | [-> H2]].
  - left. lia.
  - left. exact H1.
  - left. exact H2.
  - right. split; [reflexivity | eapply IH; eassumption].
Qed.

Lemma pystr_ltb_total (a b : pystr) :
  pystr_ltb a b = false -> pystr_ltb b a = false -> a = b.
Proof.
  revert b. induction a as [|x a IH]; intros [|y b]; simpl;
    try discriminate; [reflexivity |].
  rewrite !orb_false_iff, !andb_false_iff, !N.ltb_ge, !N.eqb_neq.
  intros [H1 H2] [H3 H4].
  assert (x = y) by lia. subst y. f_equal.
  apply IH; [destruct H2 | destruct H4]; congruence.
Qed.

Lemma pystr_le_cases (a b : pystr) :
  pystr_le a b -> pystr_ltb a b = true \/ a = b.
Proof.
  unfold pystr_le. intros H. destruct (pystr_ltb a b) eqn:E; [auto |].
  right. apply pystr_ltb_total; assumption.
Qed.

Lemma pystr_lt_le (a b : pystr) : pystr_ltb a b = true -> pystr_le a b.
Proof.
  unfold pystr_le. intros H. destruct (pystr_ltb b a) eqn:E; [| reflexivity].
  pose proof (pystr_ltb_trans _ _ _ H E) as C.
  rewrite pystr_ltb_irrefl in C. discriminate.
Qed.

Lemma pystr_le_trans (a b c : pystr) :
  pystr_le a b -> pystr_le b c -> pystr_le a c.
Proof.
  intros H1 H2.
  destruct (pystr_le_cases _ _ H1) as [L1 | ->]; [| exact H2].
  destruct (pystr_le_cases _ _ H2) as [L2 | <-]; [| exact H1].
  apply pystr_lt_le. eapply pystr_ltb_trans; eassumption.
Qed.

Lemma insert_str_sorted (x : pystr) (l : list pystr) :
  StronglySorted pystr_le l ->
  StronglySorted pystr_le (insert_sorted pystr_ltb x l).
Proof.
  induction 1 as [|y t Hs IH Hall]; simpl.
  - repeat constructor.
  - destruct (pystr_ltb y x) eqn:E.
    + constructor; [exact IH |].
      rewrite insert_sorted_perm. constructor;
        [apply pystr_lt_le, E | exact Hall].
    + constructor; [constructor; assumption |].
      constructor; [exact E |].
      eapply List.Forall_impl; [| exact Hall].
      intros z Hz. eapply pystr_le_trans; [exact E | exact Hz].
Qed.

(** [sorted] on strings gives an ascending list. *)
Lemma sorted_str_sorted (l : list pystr) :
  StronglySorted pystr_le (sorted_str l).
Proof.
  induction l as [|x t IH]; [constructor |].
  apply insert_str_sorted, IH.
Qed.

Lemma StronglySorted_filter {A : Type} (R : A -> A -> Prop) (p : A -> bool)
  (l : list A) :
  StronglySorted R l -> StronglySorted R (List.filter p l).
Proof.
  induction 1 as [|x l Hs IH Hall]; simpl; [constructor |].
  destruct (p x); [| exact IH]. constructor; [exact IH |].
  rewrite List.Forall_forall in *. intros y Hy. apply Hall.
  apply filter_In in Hy. tauto.
Qed.

(** Without duplicates an ascending list is strictly ascending. *)
Lemma sorted_strict (l : list pystr) :
  NoDup l -> StronglySorted pystr_le l ->
  StronglySorted (fun a b => pystr_ltb a b = true) l.
Proof.
  intros Hnd Hs. induction Hs as [|x l Hs IH Hall]; [constructor |].
  apply NoDup_cons in Hnd. destruct Hnd as [Hx Hnd].
  constructor; [apply IH, Hnd |].
  rewrite List.Forall_forall in *. intros y Hy.
  destruct (pystr_le_cases _ _ (Hall y Hy)) as [L | ->]; [exact L |].
  exfalso. apply Hx, list_elem_of_In, Hy.
Qed.

(** ** ChartDatasetBuilder: the clusters *)

Lemma cluster_loop_infos (cw : odict (list stock_wh)) (sc : list pystr)
  (labels0 : list pystr) (clusters0 : list cluster_info) :
  fold_left (cluster_step cw) sc (labels0, clusters0)
  = (labels0 ++ map wh_name (flat_map (warehouses_of cw) sc),
     clusters0 ++ infos cw (length labels0) sc).
Proof.
  revert labels0 clusters0. induction sc as [|c sc IH];
    intros labels0 clusters0.
  - simpl. rewrite !app_nil_r. reflexivity.
  - cbn [fold_left flat_map infos]. unfold cluster_step at 2.
    rewrite IH. rewrite map_app, <- !app_assoc, length_app, length_map.
    reflexivity.
Qed.

Lemma build_chart_data_clusters (rt : runtime) (mp : mp_type)
  (stocks_wp : list stock_wh) (all_articles : list pystr) (chart : chart_data) :
  build_chart_data rt mp stocks_wp all_articles = Some chart ->
  clusters chart
  = infos (group_by_cluster mp stocks_wp) 0
      (sort_clusters mp (group_by_cluster mp stocks_wp)).
Proof.
  unfold build_chart_data.
  destruct stocks_wp as [|w0 ws]; [discriminate |].
  destruct all_articles as [|a0 arts]; [discriminate |].
  rewrite cluster_loop_infos. intros [= <-]. reflexivity.
Qed.

Lemma infos_names (cw : odict (list stock_wh)) (from : nat)
  (sc : list pystr) :
  map ci_name (infos cw from sc) = sc.
Proof.
  revert from. induction sc as [|c sc IH]; intros from; simpl;
    [reflexivity | rewrite IH; reflexivity].
Qed.

Lemma infos_contiguous (cw : odict (list stock_wh)) (from : nat)
  (sc : list pystr) :
  Forall (fun c => warehouses_of cw c <> []) sc ->
  contiguous (Z.of_nat from) (infos cw from sc)
    (Z.of_nat (from + length (flat_map (warehouses_of cw) sc))).
Proof.
  intros H. revert from. induction H as [|c sc Hc _ IH]; intros from.
  - simpl. f_equal. lia.
  - cbn [infos contiguous flat_map start_index end_index warehouse_count].
    rewrite length_app.
    assert (0 < length (warehouses_of cw c))%nat
      by (destruct (warehouses_of cw c); [congruence | simpl; lia]).
    split; [reflexivity |]. split; [lia |]. split; [lia |].
    replace (Z.of_nat (from + length (warehouses_of cw c)) - 1 + 1)
      with (Z.of_nat (from + length (warehouses_of cw c))) by lia.
    rewrite Nat.add_assoc. apply IH.
Qed.

Lemma infos_slices (cw : odict (list stock_wh)) (sc : list pystr)
  (pre : list pystr) :
  Forall (fun c =>
            slice (pre ++ map wh_name (flat_map (warehouses_of cw) sc)) c
            = map wh_name (warehouses_of cw (ci_name c))
            /\ warehouse_count c
               = Z.of_nat (length (warehouses_of cw (ci_name c)))
            /\ total_stock c
               = sumZ (map (fun wh => sum_values (wh_products wh))
                         (warehouses_of cw (ci_name c))))
    (infos cw (length pre) sc).
Proof.
  revert pre. induction sc as [|c sc IH]; intros pre; [constructor |].
  cbn [infos flat_map]. constructor.
  - cbn [ci_name warehouse_count total_stock]. split; [| auto].
    unfold slice. cbn [start_index end_index].
    rewrite Nat2Z.id, drop_app_length, map_app.
    replace (Z.to_nat (Z.of_nat (length pre + length (warehouses_of cw c))
                       - 1 + 1 - Z.of_nat (length pre)))
      with (length (map wh_name (warehouses_of cw c)))
      by (rewrite length_map; lia).
    apply take_app_length.
  - specialize (IH (pre ++ map wh_name (warehouses_of cw c))).
    rewrite length_app, length_map in IH.
    rewrite map_app, app_assoc. exact IH.
Qed.

Lemma group_nonempty (mp : mp_type) (stocks_wp : list stock_wh) (c : pystr) :
  In c (keys (group_by_cluster mp stocks_wp)) -> group mp c stocks_wp <> [].
Proof.
  rewrite group_keys. intros H. apply first_seen_In, in_map_iff in H.
  destruct H as (wh & E & Hin).
  assert (Hf : In wh (group mp c stocks_wp)).
  { apply filter_In. split; [exact Hin |]. rewrite E. apply pystr_eqb_refl. }
  intros Hnil. rewrite Hnil in Hf. exact Hf.
Qed.

(** X12: the clusters of a chart divide the labels without gap or overlap:
    the first starts at 0, each starts one past the end of the one before,
    the last ends at the last label, and none is empty; the labels from
    [start_index] to [end_index] of a cluster are the names of the warehouses
    that the classifier puts into it, in the order of the input, so every
    one of them is classified into that cluster; [warehouse_count] is their
    number and [total_stock] the sum of all their stock. *)
Theorem cluster_layout (rt : runtime) (mp : mp_type)
  (stocks_wp : list stock_wh) (all_articles : list pystr) (chart : chart_data) :
  build_chart_data rt mp stocks_wp all_articles = Some chart ->
  contiguous 0 (clusters chart) (Z.of_nat (length (labels chart)))
  /\ Forall (fun c =>
               let members := group mp (ci_name c) stocks_wp in
               slice (labels chart) c = map wh_name members
               /\ Forall (fun nm => get_warehouse_cluster nm mp = ci_name c)
                    (slice (labels chart) c)
               /\ warehouse_count c = Z.of_nat (length members)
               /\ total_stock c
                  = sumZ (map (fun wh => sum_values (wh_products wh)) members))
       (clusters chart).
Proof.
  intros Hb.
  destruct (build_chart_data_Some _ _ _ _ _ Hb) as (HL & _).
  rewrite (build_chart_data_clusters _ _ _ _ _ Hb), HL.
  set (cw := group_by_cluster mp stocks_wp).
  set (sc := sort_clusters mp cw).
  split.
  - unfold chart_warehouses. fold cw sc. rewrite length_map.
    apply (infos_contiguous cw 0 sc).
    apply List.Forall_forall. intros c Hc. unfold cw.
    rewrite warehouses_of_group. apply group_nonempty.
    exact (proj1 (sort_clusters_In mp _ c) Hc).
  - pose proof (infos_slices cw sc []) as H. simpl in H.
    unfold chart_warehouses. fold cw sc.
    eapply List.Forall_impl; [| exact H].
    intros c (H1 & H2 & H3). unfold cw in H1, H2, H3.
    rewrite warehouses_of_group in H1, H2, H3. cbn zeta.
    split; [exact H1 |]. split; [| split; assumption].
    fold cw in H1. rewrite H1. apply List.Forall_map, List.Forall_forall.
    intros wh Hwh. apply filter_In in Hwh. destruct Hwh as [_ E].
    apply pystr_eqb_eq in E. symmetry. exact E.
Qed.

Lemma cluster_layout_witness :
  exists chart,
    build_chart_data (example_runtime (CPython.seeded_hash 0)) wb
      scenario_stocks [u "SF0125"] = Some chart
    /\ contiguous 0 (clusters chart) (Z.of_nat (length (labels chart))).
Proof.
  eexists.
  assert (Hb : build_chart_data (example_runtime (CPython.seeded_hash 0)) wb
                 scenario_stocks [u "SF0125"] = Some _)
    by apply scenario_chart.
  split; [exact Hb |].
  exact (proj1 (cluster_layout _ _ _ _ _ Hb)).
Defined.

(** X13: the clusters of a chart are the clusters of its warehouses, each
    once: first the priority clusters that occur, in their declared order,
    then the other clusters in strictly ascending order of their names. *)
Theorem clusters_in_order (rt : runtime) (mp : mp_type)
  (stocks_wp : list stock_wh) (all_articles : list pystr) (chart : chart_data) :
  build_chart_data rt mp stocks_wp all_articles = Some chart ->
  let names := map ci_name (clusters chart) in
  NoDup names
  /\ (forall c, In c names <->
                exists wh, In wh stocks_wp /\ cluster_of mp wh = c)
  /\ exists first rest,
       names = first ++ rest
       /\ first = List.filter (fun pc => mem pc names) (priority_clusters mp)
       /\ Forall (fun c => ~ In c (priority_clusters mp)) rest
       /\ StronglySorted (fun a b => pystr_ltb a b = true) rest.
Proof.
  intros Hb. cbn zeta.
  rewrite (build_chart_data_clusters _ _ _ _ _ Hb), infos_names.
  set (cw := group_by_cluster mp stocks_wp).
  assert (Hk : NoDup (keys cw))
    by (unfold cw; rewrite group_keys; apply first_seen_NoDup).
  split; [apply sort_clusters_NoDup, Hk |].
  split.
  { intros c. rewrite sort_clusters_In. unfold cw.
    rewrite group_keys, first_seen_In, in_map_iff.
    split; intros (wh & H1 & H2); exists wh; auto. }
  exists (List.filter (fun pc => mem pc (keys cw)) (priority_clusters mp)),
    (List.filter (fun c => negb (mem c (priority_clusters mp)))
       (sorted_str (keys cw))).
  split; [reflexivity |]. split.
  { apply filter_ext. intros pc.
    destruct (mem pc (keys cw)) eqn:E1, (mem pc (sort_clusters mp cw)) eqn:E2;
      try reflexivity; exfalso.
    - apply (proj1 (mem_In _ _)) in E1.
      apply (proj2 (sort_clusters_In mp _ _)), (proj2 (mem_In _ _)) in E1.
      congruence.
    - apply (proj1 (mem_In _ _)) in E2.
      apply (proj1 (sort_clusters_In mp _ _)), (proj2 (mem_In _ _)) in E2.
      congruence. }
  split.
  { apply List.Forall_forall. intros c Hc. apply filter_In in Hc.
    destruct Hc as [_ Hc]. intros Hin. apply mem_In in Hin.
    rewrite Hin in Hc. discriminate. }
  apply sorted_strict.
  - eapply sublist_NoDup; [| apply filter_sublist].
    unfold sorted_str. rewrite (py_sorted_perm pystr_ltb). exact Hk.
  - apply StronglySorted_filter, sorted_str_sorted.
Qed.

Lemma clusters_in_order_witness :
  exists chart,
    build_chart_data (example_runtime (CPython.seeded_hash 0)) wb
      scenario_stocks [u "SF0125"] = Some chart
    /\ NoDup (map ci_name (clusters chart)).
Proof.
  eexists.
  assert (Hb : build_chart_data (example_runtime (CPython.seeded_hash 0)) wb
                 scenario_stocks [u "SF0125"] = Some _)
    by apply scenario_chart.
  split; [exact Hb |].
  exact (proj1 (clusters_in_order _ _ _ _ _ Hb)).
Defined.

(** ** Stock totals by product *)

Lemma calculate_total_stocks_eq (rt : runtime) (raw_stocks : list raw_stock) :
  calculate_total_stocks_by_product rt raw_stocks
  = sorted_desc sp_quantity
      (map finish_product (values (fold_left (stock_step rt) raw_stocks []))).
Proof. reflexivity. Qed.

Lemma stock_step_quantity (rt : runtime) (d : odict acc_product)
  (item : raw_stock) (a : pystr) :
  quantity_at (stock_step rt d item) a
  = quantity_at d a
    + (if pystr_eqb a (stock_article item) then stock_qty item else 0).
Proof.
  unfold quantity_at, stock_step.
  apply (measure_at_update ap_quantity (stock_qty item));
    [reflexivity | intros; reflexivity].
Qed.

Lemma stock_step_warehouse (rt : runtime) (d : odict acc_product)
  (item : raw_stock) (a w : pystr) :
  warehouse_at (stock_step rt d item) a w
  = warehouse_at d a w
    + (if pystr_eqb a (stock_article item)
       then if in_stock item
            then if pystr_eqb w (stock_warehouse item) then stock_qty item
                 else 0
            else 0
       else 0).
Proof.
  unfold warehouse_at, stock_step.
  apply (measure_at_update (fun p => stored_at (ap_warehouses p) w));
    [reflexivity |].
  intros p. cbn [ap_warehouses]. unfold in_stock, stock_qty.
  destruct (0 <? default 0 (rs_quantityFull item)); [| lia].
  unfold stored_at.
  apply (measure_at_update (fun q => q)); [reflexivity | intros; reflexivity].
Qed.

Lemma stock_loop_quantity (rt : runtime) (raw_stocks : list raw_stock)
  (a : pystr) :
  quantity_at (fold_left (stock_step rt) raw_stocks []) a
  = sumZ (map stock_qty (stock_rows a raw_stocks)).
Proof.
  rewrite (fold_left_measure (fun d => quantity_at d a)
             (fun item => if pystr_eqb a (stock_article item)
                          then stock_qty item else 0)).
  - rewrite sumZ_filter_hits. reflexivity.
  - intros d item. apply stock_step_quantity.
Qed.

Lemma stock_loop_warehouse (rt : runtime) (raw_stocks : list raw_stock)
  (a w : pystr) :
  warehouse_at (fold_left (stock_step rt) raw_stocks []) a w
  = sumZ (map stock_qty (stocked_at w (stock_rows a raw_stocks))).
Proof.
  rewrite (fold_left_measure (fun d => warehouse_at d a w)
             (fun item =>
                if pystr_eqb a (stock_article item)
                then if in_stock item
                     then if pystr_eqb w (stock_warehouse item)
                          then stock_qty item else 0
                     else 0
                else 0)).
  - rewrite sumZ_filter_hits, sumZ_filter_hits, sumZ_filter_hits.
    reflexivity.
  - intros d item. apply stock_step_warehouse.
Qed.

Lemma stock_loop_keys (rt : runtime) (raw_stocks : list raw_stock) :
  keys (fold_left (stock_step rt) raw_stocks [])
  = first_seen (map stock_article raw_stocks).
Proof.
  unfold first_seen.
  assert (G : forall l d,
             keys (fold_left (stock_step rt) l d)
             = fold_left see (map stock_article l) (keys d)).
  { induction l as [|item l IH]; intros d; [reflexivity |].
    cbn [fold_left map]. rewrite IH. unfold stock_step.
    rewrite keys_update. reflexivity. }
  apply (G raw_stocks []).
Qed.

Lemma stock_loop_named (rt : runtime) (raw_stocks : list raw_stock) :
  named ap_article (fold_left (stock_step rt) raw_stocks []).
Proof.
  apply fold_left_inv; [constructor |].
  intros d item H. unfold stock_step.
  apply named_update; [reflexivity | intros; reflexivity | exact H].
Qed.

Lemma stock_loop_wf (rt : runtime) (raw_stocks : list raw_stock) :
  Forall (product_wf rt) (values (fold_left (stock_step rt) raw_stocks [])).
Proof.
  apply (fold_left_inv (fun d => Forall (product_wf rt) (values d)));
    [constructor |].
  intros d item H. unfold stock_step.
  assert (Hs : forall p, product_wf rt p ->
            product_wf rt
              {| ap_article := ap_article p;
                 ap_quantity := ap_quantity p + default 0 (rs_quantityFull item);
                 ap_color := ap_color p;
                 ap_warehouses :=
                   if 0 <? default 0 (rs_quantityFull item)
                   then odict_update (default Unknown (rs_warehouseName item))
                          0 (fun q => q + default 0 (rs_quantityFull item))
                          (ap_warehouses p)
                   else ap_warehouses p |}).
  { intros p (Hc & Hn & Hp). unfold product_wf. cbn [ap_article ap_color
      ap_warehouses].
    split; [exact Hc |].
    destruct (0 <? default 0 (rs_quantityFull item)) eqn:E; [| auto].
    apply Z.ltb_lt in E. split; [apply keys_update_NoDup, Hn |].
    apply values_update_Forall; [lia | intros; lia | exact Hp]. }
  apply values_update_Forall; [| exact Hs | exact H].
  apply Hs. unfold product_wf. simpl.
  split; [reflexivity |]. split; [apply NoDup_nil_2 | constructor].
Qed.

Lemma sumZ_positive {X : Type} (w : X -> Z) (l : list X) :
  l <> [] -> Forall (fun x => 0 < w x) l -> 0 < sumZ (map w l).
Proof.
  intros Hne H. destruct H as [|x l Hx Hl]; [congruence |].
  simpl. assert (0 <= sumZ (map w l)); [| lia].
  apply sumZ_nonneg, List.Forall_map. eapply List.Forall_impl; [| exact Hl].
  simpl. intros; lia.
Qed.

Lemma stocked_at_positive (w : pystr) (rows : list raw_stock) :
  Forall (fun item => 0 < stock_qty item) (stocked_at w rows).
Proof.
  apply List.Forall_forall. intros item H. unfold stocked_at in H.
  apply filter_In in H. destruct H as [H _]. apply filter_In in H.
  destruct H as [_ H]. apply Z.ltb_lt in H. exact H.
Qed.

Lemma sumZ_values_stored (ws : odict Z) :
  NoDup (keys ws) ->
  sumZ (values ws) = sumZ (map (stored_at ws) (keys ws)).
Proof.
  intros Hn. unfold values, keys. rewrite map_map. f_equal.
  apply map_ext_in. intros [k q] Hin. unfold stored_at. simpl.
  rewrite (assoc_In k q ws Hn Hin). reflexivity.
Qed.

Lemma map_sublist {A B : Type} (f : A -> B) (l1 l2 : list A) :
  l1 `sublist_of` l2 -> map f l1 `sublist_of` map f l2.
Proof. induction 1; simpl; [constructor | constructor 2 | constructor 3]; auto. Qed.

(** What the first loop has stored for a product when it ends. *)
Lemma stock_loop_product (rt : runtime) (raw_stocks : list raw_stock)
  (p : acc_product) :
  In p (values (fold_left (stock_step rt) raw_stocks [])) ->
  let rows := stock_rows (ap_article p) raw_stocks in
  rows <> []
  /\ ap_quantity p = sumZ (map stock_qty rows)
  /\ product_wf rt p
  /\ (forall w q, In (w, q) (ap_warehouses p) ->
        stocked_at w rows <> []
        /\ q = sumZ (map stock_qty (stocked_at w rows)))
  /\ (forall item, In item rows -> in_stock item = true ->
        In (stock_warehouse item) (keys (ap_warehouses p))).
Proof.
  intros Hin rows.
  set (d := fold_left (stock_step rt) raw_stocks []) in *.
  pose proof (stock_loop_named rt raw_stocks) as Hnamed. fold d in Hnamed.
  assert (Hnd : NoDup (keys d))
    by (unfold d; rewrite stock_loop_keys; apply first_seen_NoDup).
  pose proof (assoc_named ap_article d p Hnamed Hnd Hin) as Hp.
  pose proof (stock_loop_wf rt raw_stocks) as Hwf. fold d in Hwf.
  rewrite List.Forall_forall in Hwf. specialize (Hwf p Hin).
  assert (Hq : forall w, stored_at (ap_warehouses p) w
                         = sumZ (map stock_qty (stocked_at w rows))).
  { intros w. unfold rows. rewrite <- (stock_loop_warehouse rt). fold d.
    unfold warehouse_at. rewrite Hp. reflexivity. }
  split.
  { assert (Hk : In (ap_article p) (keys d)).
    { rewrite <- (named_values ap_article d Hnamed). apply in_map, Hin. }
    unfold d in Hk. rewrite stock_loop_keys in Hk.
    apply first_seen_In, in_map_iff in Hk. destruct Hk as (item & E & Hi).
    assert (Hr : In item rows).
    { apply filter_In. split; [exact Hi |]. rewrite E. apply pystr_eqb_refl. }
    intros Hnil. rewrite Hnil in Hr. exact Hr. }
  split.
  { unfold rows. rewrite <- (stock_loop_quantity rt). fold d.
    unfold quantity_at.
    rewrite Hp. reflexivity. }
  split; [exact Hwf |].
  destruct Hwf as (_ & Hn & Hpos). split.
  - intros w q Hwq. specialize (Hq w). unfold stored_at in Hq.
    rewrite (assoc_In w q _ Hn Hwq) in Hq. split; [| exact Hq].
    intros Hnil. rewrite Hnil in Hq. simpl in Hq.
    rewrite List.Forall_forall in Hpos.
    assert (0 < q); [| lia].
    apply Hpos. unfold values. apply (in_map snd _ _ Hwq).
  - intros item Hr Hs.
    destruct (assoc (stock_warehouse item) (ap_warehouses p)) eqn:E.
    + apply assoc_Some_In in E. unfold keys. apply (in_map fst _ _ E).
    + exfalso. specialize (Hq (stock_warehouse item)).
      unfold stored_at in Hq. rewrite E in Hq.
      assert (Hi : In item (stocked_at (stock_warehouse item) rows)).
      { apply filter_In. split; [| apply pystr_eqb_refl].
        apply filter_In. split; assumption. }
      pose proof (sumZ_positive stock_qty _
                    (fun Hnil => eq_ind _ (fun l => In item l) Hi _ Hnil)
                    (stocked_at_positive _ rows)).
      lia.
Qed.

Lemma stock_loop_stored_total (rt : runtime) (raw_stocks : list raw_stock)
  (a : pystr) :
  match assoc a (fold_left (stock_step rt) raw_stocks []) with
  | Some p => sumZ (map (fun q => q) (values (ap_warehouses p)))
  | None => 0
  end
  = sumZ (map stock_qty (List.filter in_stock (stock_rows a raw_stocks))).
Proof.
  rewrite (fold_left_measure
             (fun d => match assoc a d with
                       | Some p => sumZ (map (fun q => q)
                                           (values (ap_warehouses p)))
                       | None => 0
                       end)
             (fun item => if pystr_eqb a (stock_article item)
                          then if in_stock item then stock_qty item else 0
                          else 0)).
  - rewrite sumZ_filter_hits, sumZ_filter_hits. reflexivity.
  - intros d item. unfold stock_step.
    apply (measure_at_update
             (fun p => sumZ (map (fun q => q) (values (ap_warehouses p)))));
      [reflexivity |].
    intros p. cbn [ap_warehouses]. unfold in_stock, stock_qty.
    destruct (0 <? default 0 (rs_quantityFull item)); [| lia].
    apply (sum_values_update (fun q => q)); [reflexivity | intros; reflexivity].
Qed.

Lemma finished_products (rt : runtime) (raw_stocks : list raw_stock)
  (P : stock_product -> Prop) :
  (forall acc, In acc (values (fold_left (stock_step rt) raw_stocks [])) ->
               P (finish_product acc)) ->
  Forall P (calculate_total_stocks_by_product rt raw_stocks).
Proof.
  intros H. rewrite calculate_total_stocks_eq.
  apply Forall_sorted_desc, List.Forall_map, List.Forall_forall. exact H.
Qed.

Lemma finished_articles (rt : runtime) (raw_stocks : list raw_stock) :
  map sp_article
    (map finish_product (values (fold_left (stock_step rt) raw_stocks [])))
  = first_seen (map stock_article raw_stocks).
Proof.
  rewrite map_map.
  etransitivity;
    [apply (named_values ap_article _ (stock_loop_named rt raw_stocks))
    | apply stock_loop_keys].
Qed.

Lemma finish_product_ok (rt : runtime) (raw_stocks : list raw_stock)
  (acc : acc_product) :
  In acc (values (fold_left (stock_step rt) raw_stocks [])) ->
  stock_line_ok rt raw_stocks (finish_product acc).
Proof.
  intros Hin.
  destruct (stock_loop_product rt raw_stocks acc Hin)
    as (Hne & Hq & (Hc & Hn & Hpos) & Hentries & Hcover).
  pose proof (sorted_desc_spec snd (ap_warehouses acc)) as (Hperm & Hsort & _).
  unfold stock_line_ok. cbn [finish_product sp_article sp_quantity sp_color
    sp_warehouses_count sp_by_warehouse].
  split; [exact Hne |]. split; [exact Hq |]. split; [exact Hc |].
  split; [rewrite (Permutation_length Hperm); reflexivity |].
  split; [exact Hsort |].
  split; [rewrite (Permutation_map fst Hperm); exact Hn |].
  split.
  { intros w. rewrite in_map_iff. split.
    - intros ([w' q] & E & Hwq). simpl in E. subst w'.
      apply In_sorted_desc in Hwq.
      destruct (Hentries w q Hwq) as (Hne' & _).
      destruct (stocked_at w (stock_rows (ap_article acc) raw_stocks))
        as [|item rest] eqn:Es; [congruence |].
      assert (Hi : In item (stocked_at w
                              (stock_rows (ap_article acc) raw_stocks)))
        by (rewrite Es; left; reflexivity).
      apply filter_In in Hi. destruct Hi as [Hi Ew].
      apply filter_In in Hi. destruct Hi as [Hi Hs].
      apply pystr_eqb_eq in Ew. exists item. auto.
    - intros (item & Hi & Hs & <-).
      specialize (Hcover item Hi Hs). unfold keys in Hcover.
      apply in_map_iff in Hcover. destruct Hcover as (e & E & He).
      exists e. split; [exact E |]. apply In_sorted_desc, He. }
  split.
  { apply Forall_sorted_desc, List.Forall_forall. intros [w q] Hwq. simpl.
    destruct (Hentries w q Hwq) as (_ & Hsum). split; [| exact Hsum].
    rewrite List.Forall_forall in Hpos. apply Hpos.
    apply (in_map snd _ _ Hwq). }
  rewrite (sumZ_map_perm snd _ _ Hperm).
  rewrite <- (stock_loop_stored_total rt).
  assert (Ha : assoc (ap_article acc)
                 (fold_left (stock_step rt) raw_stocks []) = Some acc).
  { apply assoc_named; [apply stock_loop_named | | exact Hin].
    rewrite stock_loop_keys. apply first_seen_NoDup. }
  rewrite Ha. unfold values. rewrite map_map. reflexivity.
Qed.

(** X14: [calculate_total_stocks_by_product] returns one line per article
    of the rows (the article read with its default), in descending order of
    quantity, lines of equal quantity in the order in which their articles
    first occur.  The quantity of a line is the sum of [quantityFull] over
    the rows of its article, negative and zero rows included; its color is
    [get_article_color] of the article; [by_warehouse] has one entry for
    each warehouse of a row of the article with a positive quantity, in
    descending order of quantity, each entry the sum of the positive rows of
    that warehouse and itself positive; [warehouses_count] is the number of
    these entries, and their quantities add up to the positive rows of the
    article. *)
Theorem stock_totals (rt : runtime) (raw_stocks : list raw_stock) :
  let out := calculate_total_stocks_by_product rt raw_stocks in
  StronglySorted (desc sp_quantity) out
  /\ NoDup (map sp_article out)
  /\ (forall a, In a (map sp_article out) <->
                exists item, In item raw_stocks /\ stock_article item = a)
  /\ (forall v,
        map sp_article (List.filter (fun p => sp_quantity p =? v) out)
        `sublist_of` first_seen (map stock_article raw_stocks))
  /\ Forall (stock_line_ok rt raw_stocks) out.
Proof.
  cbn zeta. rewrite calculate_total_stocks_eq.
  set (l := map finish_product
              (values (fold_left (stock_step rt) raw_stocks []))).
  pose proof (sorted_desc_spec sp_quantity l) as (Hperm & Hsort & Hstable).
  pose proof (finished_articles rt raw_stocks) as Hart. fold l in Hart.
  split; [exact Hsort |].
  split.
  { rewrite (Permutation_map sp_article Hperm), Hart.
    apply first_seen_NoDup. }
  split.
  { intros a.
    assert (Hl : In a (map sp_article (sorted_desc sp_quantity l))
                 <-> In a (map stock_article raw_stocks)).
    { rewrite <- (first_seen_In (map stock_article raw_stocks) a), <- Hart.
      split; apply Permutation_in.
      - apply Permutation_map, Hperm.
      - apply Permutation_map. symmetry. exact Hperm. }
    rewrite Hl, in_map_iff. split; intros (item & H1 & H2); exists item; auto. }
  split.
  { intros v. rewrite Hstable, <- Hart. apply map_sublist, filter_sublist. }
  apply (finished_products rt raw_stocks). apply finish_product_ok.
Qed.

Lemma sumZ_in_stock (rows : list raw_stock) :
  Forall (fun item => 0 <= stock_qty item) rows ->
  sumZ (map stock_qty (List.filter in_stock rows)) = sumZ (map stock_qty rows).
Proof.
  induction 1 as [|item rows Hi _ IH]; [reflexivity |].
  simpl. unfold in_stock at 1. destruct (0 <? stock_qty item) eqn:E.
  - simpl. rewrite IH. reflexivity.
  - apply Z.ltb_ge in E. rewrite IH. lia.
Qed.

(** X15: when no row has a negative quantity, the quantity of every line
    of [calculate_total_stocks_by_product] is the sum of the quantities of
    its [by_warehouse] entries, it is not negative, and it is zero exactly
    when [warehouses_count] is zero. *)
Theorem stock_totals_by_warehouse (rt : runtime)
  (raw_stocks : list raw_stock) :
  Forall (fun item => 0 <= stock_qty item) raw_stocks ->
  Forall (fun p => sp_quantity p = sumZ (map snd (sp_by_warehouse p))
                   /\ 0 <= sp_quantity p
                   /\ (sp_warehouses_count p = 0 <-> sp_quantity p = 0))
    (calculate_total_stocks_by_product rt raw_stocks).
Proof.
  intros Hnn. apply finished_products. intros acc Hin.
  destruct (finish_product_ok rt raw_stocks acc Hin)
    as (_ & Hq & _ & Hc & _ & _ & _ & Hpos & Hsum).
  assert (Hrows : Forall (fun item => 0 <= stock_qty item)
                    (stock_rows (sp_article (finish_product acc)) raw_stocks)).
  { rewrite List.Forall_forall in *. intros item Hi. apply Hnn.
    apply filter_In in Hi. tauto. }
  rewrite (sumZ_in_stock _ Hrows), <- Hq in Hsum.
  split; [symmetry; exact Hsum |].
  split.
  { rewrite Hq. apply sumZ_nonneg, List.Forall_map. exact Hrows. }
  rewrite Hc, <- Hsum.
  destruct (sp_by_warehouse (finish_product acc)) as [|e es] eqn:E.
  - simpl. tauto.
  - split; [simpl; lia |]. intros H0.
    assert (0 < sumZ (map snd (e :: es))); [| lia].
    apply sumZ_positive; [discriminate |].
    eapply List.Forall_impl; [| exact Hpos]. simpl. tauto.
Qed.

Lemma stock_totals_by_warehouse_witness :
  Forall (fun item => 0 <= stock_qty item) two_stock_rows
  /\ Forall (fun p => sp_quantity p = sumZ (map snd (sp_by_warehouse p))
                      /\ 0 <= sp_quantity p
                      /\ (sp_warehouses_count p = 0 <-> sp_quantity p = 0))
       (calculate_total_stocks_by_product
          (example_runtime (CPython.seeded_hash 0)) two_stock_rows).
Proof.
  assert (H : Forall (fun item => 0 <= stock_qty item) two_stock_rows)
    by (repeat constructor; vm_compute; discriminate).
  split; [exact H |].
  exact (stock_totals_by_warehouse _ two_stock_rows H).
Defined.

(** ** Combiner: the figures of the windows *)

Lemma sumZ_filter_le {X : Type} (f g : X -> bool) (w : X -> Z) (l : list X) :
  (forall x, 0 <= w x) -> (forall x, f x = true -> g x = true) ->
  sumZ (map w (List.filter f l)) <= sumZ (map w (List.filter g l)).
Proof.
  intros Hw H. induction l as [|x l IH]; simpl; [lia |].
  specialize (Hw x). destruct (f x) eqn:F.
  - rewrite (H x F). simpl. lia.
  - destruct (g x); simpl; lia.
Qed.

Lemma sumZ_filter_disjoint_le {X : Type} (f1 f2 g : X -> bool) (w : X -> Z)
  (l : list X) :
  (forall x, 0 <= w x) ->
  (forall x, f1 x = true -> g x = true) ->
  (forall x, f2 x = true -> g x = true) ->
  (forall x, f1 x = true -> f2 x = false) ->
  sumZ (map w (List.filter f1 l)) + sumZ (map w (List.filter f2 l))
  <= sumZ (map w (List.filter g l)).
Proof.
  intros Hw H1 H2 Hd. induction l as [|x l IH]; simpl; [lia |].
  specialize (Hw x). destruct (f1 x) eqn:F1.
  - rewrite (Hd x F1), (H1 x F1). simpl. lia.
  - destruct (f2 x) eqn:F2.
    + rewrite (H2 x F2). simpl. lia.
    + destruct (g x); simpl; lia.
Qed.

Lemma today_not_yesterday (today d : date) :
  in_window today (window (u "today")) d = true ->
  in_window today (window (u "yesterday")) d = false.
Proof.
  unfold in_window.
  change (exact_day (window (u "today"))) with false.
  change (exact_day (window (u "yesterday"))) with true.
  change (days (window (u "today"))) with 0.
  change (days (window (u "yesterday"))) with 1.
  cbn iota. rewrite Z.leb_le, Z.eqb_neq. lia.
Qed.

(** A sum of weights that are not negative grows with the window. *)
Lemma window_weights_grow {A : Type} (rt : runtime) (today : date)
  (date_field : A -> option pystr) (w : A -> Z) (items : list A) :
  (forall x, 0 <= w x) ->
  grows (fun k => sumZ (map w (filter_period rt today (window k) date_field
                                 items))).
Proof.
  intros Hw. destruct windows_narrower as (N1 & N2 & N3 & N4).
  assert (Hpos : forall l : list A, 0 <= sumZ (map w l)).
  { intros l. apply sumZ_nonneg, List.Forall_map, List.Forall_forall.
    intros x _. apply Hw. }
  assert (Hn : forall p1 p2 x, narrower p1 p2 ->
             match parse_date rt (date_field x) with
             | Some dt => in_window today p1 (dt_date dt)
             | None => false
             end = true ->
             match parse_date rt (date_field x) with
             | Some dt => in_window today p2 (dt_date dt)
             | None => false
             end = true).
  { intros p1 p2 x N. destruct (parse_date rt (date_field x));
      [apply N | discriminate]. }
  unfold grows, filter_period.
  split; [apply Hpos |]. split; [apply Hpos |].
  split.
  { apply sumZ_filter_disjoint_le; [exact Hw | | |].
    - intros x. apply Hn, N1.
    - intros x. apply Hn, N2.
    - intros x. destruct (parse_date rt (date_field x));
        [apply today_not_yesterday | discriminate]. }
  split; apply sumZ_filter_le; try exact Hw; intros x; apply Hn; assumption.
Qed.

Lemma grows_ext (f g : pystr -> Z) :
  (forall k, In k (map key periods_config) -> f k = g k) ->
  grows g -> grows f.
Proof.
  intros E H. unfold grows.
  rewrite !E by (simpl; auto 10). exact H.
Qed.

Lemma grows_zero : grows (fun _ => 0).
Proof. unfold grows. lia. Qed.

Lemma sumZ_ones {X : Type} (l : list X) :
  sumZ (map (fun _ => 1) l) = Z.of_nat (length l).
Proof. induction l as [|x l IH]; [reflexivity |]. simpl length. simpl. lia. Qed.

Lemma orders_count_length (sales : list order) (mp : mp_type) :
  r_orders_count (aggregate_sales_data sales mp)
  = sumZ (map (fun _ => 1) sales).
Proof.
  rewrite sumZ_ones. exact (inv_orders _ _ _ (agg_loop_inv mp sales)).
Qed.

Lemma figure_wb (f : period_result -> Z) (rt : runtime) (today : date)
  (wb_data : option wb_raw) (ozon_data : option ozon_raw) (k : pystr) :
  In k (map key periods_config) ->
  figure f pd_wb (fill rt today wb_data ozon_data) k
  = match wb_data with
    | Some w => f (wb_period_result rt today w (window k))
    | None => 0
    end.
Proof.
  intros Hin. unfold figure. rewrite fill_period_data.
  simpl in Hin.
  destruct Hin as [<- | [<- | [<- | [<- | [<- | []]]]]];
    destruct wb_data; reflexivity.
Qed.

Lemma figure_ozon (f : period_result -> Z) (rt : runtime) (today : date)
  (wb_data : option wb_raw) (ozon_data : option ozon_raw) (k : pystr) :
  In k (map key periods_config) ->
  figure f pd_ozon (fill rt today wb_data ozon_data) k
  = match ozon_data with
    | Some o => f (ozon_period_result rt today o (window k))
    | None => 0
    end.
Proof.
  intros Hin. unfold figure. rewrite fill_period_data.
  simpl in Hin.
  destruct Hin as [<- | [<- | [<- | [<- | [<- | []]]]]];
    destruct ozon_data; reflexivity.
Qed.

(** X16: when [prepare] returns its document (it raises only on a file
    that aborts the run), for either marketplace the number of orders and
    the number of redemptions of a window are not negative, those of
    "today" and of "yesterday" together do not exceed those of the 3-day
    window, and the 3-day, 7-day and 30-day windows do not decrease.  A
    missing figure counts as 0.  These figures are integers in the code. *)
Theorem window_figures_grow (rt : runtime) (today : date)
  (wbf : file_state wb_raw) (ozf : file_state ozon_raw) :
  match prepare rt today wbf ozf with
  | Returns d =>
    grows (figure orders_of pd_wb d)
    /\ grows (figure orders_of pd_ozon d)
    /\ grows (figure redemptions_of pd_wb d)
    /\ grows (figure redemptions_of pd_ozon d)
  | Raises _ => aborts wbf \/ aborts ozf
  end.
Proof.
  pose proof (prepare_outcome rt today wbf ozf) as H.
  destruct (prepare rt today wbf ozf) as [d|e]; [| exact H].
  destruct H as (_ & _ & ->).
  set (wb_data := data_of wbf). set (ozon_data := data_of ozf).
  split; [| split; [| split]].
  - apply (grows_ext _ _ (figure_wb orders_of rt today wb_data ozon_data)).
    destruct wb_data as [w|]; [| apply grows_zero].
    eapply grows_ext; [intros k _; apply orders_count_length |].
    apply window_weights_grow. lia.
  - apply (grows_ext _ _ (figure_ozon orders_of rt today wb_data ozon_data)).
    destruct ozon_data as [o|]; [| apply grows_zero].
    eapply grows_ext; [intros k _; apply orders_count_length |].
    apply window_weights_grow. lia.
  - apply (grows_ext _ _
             (figure_wb redemptions_of rt today wb_data ozon_data)).
    destruct wb_data as [w|]; [| apply grows_zero].
    eapply grows_ext;
      [intros k _; unfold redemptions_of, wb_period_result;
       cbn [redemptions_count default]; symmetry; apply sumZ_ones |].
    apply window_weights_grow. lia.
  - apply (grows_ext _ _
             (figure_ozon redemptions_of rt today wb_data ozon_data)).
    destruct ozon_data as [o|]; [| apply grows_zero].
    eapply grows_ext;
      [intros k _; unfold redemptions_of, ozon_period_result;
       cbn [redemptions_count default]; symmetry; apply sumZ_ones |].
    apply window_weights_grow. lia.
Qed.

(** ** Combiner: what the hash does not reach *)

Lemma parse_date_clock (rt1 rt2 : runtime) (s : option pystr) :
  same_clock rt1 rt2 -> parse_date rt1 s = parse_date rt2 s.
Proof.
  intros (H1 & H2 & _). unfold parse_date. rewrite H1, H2. reflexivity.
Qed.

Lemma filter_period_clock {A : Type} (rt1 rt2 : runtime) (today : date)
  (p : period) (date_field : A -> option pystr) (items : list A) :
  same_clock rt1 rt2 ->
  filter_period rt1 today p date_field items
  = filter_period rt2 today p date_field items.
Proof.
  intros H. unfold filter_period. apply filter_ext. intros x.
  rewrite (parse_date_clock rt1 rt2 _ H). reflexivity.
Qed.

Lemma period_data_clock (rt1 rt2 : runtime) (today : date)
  (wb_data : option wb_raw) (ozon_data : option ozon_raw) :
  same_clock rt1 rt2 ->
  period_data (fill rt1 today wb_data ozon_data)
  = period_data (fill rt2 today wb_data ozon_data).
Proof.
  intros H. rewrite !fill_period_data. apply map_ext. intros p.
  unfold wb_period_result, ozon_period_result.
  f_equal. f_equal.
  - destruct wb_data as [w|]; [| reflexivity]. simpl.
    rewrite !(filter_period_clock rt1 rt2 _ _ _ _ H). reflexivity.
  - destruct ozon_data as [o|]; [| reflexivity]. simpl.
    rewrite !(filter_period_clock rt1 rt2 _ _ _ _ H). reflexivity.
Qed.

Lemma fill_summary (rt : runtime) (today : date)
  (wb_data : option wb_raw) (ozon_data : option ozon_raw) :
  let d := fill rt today wb_data ozon_data in
  let wb_stock :=
    match wb_data with
    | Some w => default 0 (wb_total_stock_value w) | None => 0
    end in
  let ozon_stock :=
    match ozon_data with
    | Some o => default 0 (oz_total_stock_value o) | None => 0
    end in
  dsummary d
  = {| sum_wb_stocks := wb_stock;
       sum_ozon_stocks := ozon_stock;
       total_stocks := wb_stock + ozon_stock;
       total_sales_today :=
         figure revenue_of pd_wb d (u "today")
         + figure revenue_of pd_ozon d (u "today") |}.
Proof.
  destruct wb_data as [w|], ozon_data as [o|]; reflexivity.
Qed.

Lemma fill_rest (rt : runtime) (today : date)
  (wb_data : option wb_raw) (ozon_data : option ozon_raw) :
  let d := fill rt today wb_data ozon_data in
  last_update d = now_stamp rt
  /\ marketplaces d
     = [ {| mp_name := u "Wildberries"; status := status_of wb_data |};
         {| mp_name := u "Ozon"; status := status_of ozon_data |} ]
  /\ stocks_wb d = build_wb_stocks rt <$> wb_data
  /\ stocks_ozon d = build_ozon_stocks rt <$> ozon_data.
Proof.
  destruct wb_data as [w|], ozon_data as [o|]; repeat split; reflexivity.
Qed.

Lemma map_odict_update {V W : Type} (g : V -> W) (k : pystr) (init : V)
  (f : V -> V) (f' : W -> W) (d : odict V) :
  (forall v, g (f v) = f' (g v)) ->
  map (fun kv => (fst kv, g (snd kv))) (odict_update k init f d)
  = odict_update k (g init) f' (map (fun kv => (fst kv, g (snd kv))) d).
Proof.
  intros H. induction d as [|[k' v] d IH]; simpl.
  - rewrite H. reflexivity.
  - destruct (pystr_eqb k k'); simpl; [rewrite H | rewrite IH]; reflexivity.
Qed.

Lemma stock_loop_plain (rt1 rt2 : runtime) (raw_stocks : list raw_stock) :
  map plain_acc (values (fold_left (stock_step rt1) raw_stocks []))
  = map plain_acc (values (fold_left (stock_step rt2) raw_stocks [])).
Proof.
  set (pl := fun kv : pystr * acc_product => (fst kv, plain_acc (snd kv))).
  assert (G : forall l d1 d2, map pl d1 = map pl d2 ->
             map pl (fold_left (stock_step rt1) l d1)
             = map pl (fold_left (stock_step rt2) l d2)).
  { induction l as [|item l IH]; intros d1 d2 E; [exact E |].
    cbn [fold_left]. apply IH. unfold stock_step, pl.
    set (f := fun p : acc_product =>
                {| ap_article := ap_article p;
                   ap_quantity := ap_quantity p + default 0 (rs_quantityFull item);
                   ap_color := ap_color p;
                   ap_warehouses :=
                     if 0 <? default 0 (rs_quantityFull item)
                     then odict_update
                            (default Unknown (rs_warehouseName item)) 0
                            (fun q => q + default 0 (rs_quantityFull item))
                            (ap_warehouses p)
                     else ap_warehouses p |}).
    rewrite (map_odict_update plain_acc _ _ f f)
      by (intros; reflexivity).
    rewrite (map_odict_update plain_acc _ _ f f)
      by (intros; reflexivity).
    fold pl. rewrite E. reflexivity. }
  specialize (G raw_stocks [] [] eq_refl).
  unfold values. apply (f_equal (map snd)) in G.
  rewrite !map_map in G. rewrite !map_map. exact G.
Qed.

Lemma products_plain (rt1 rt2 : runtime) (raw_stocks : list raw_stock) :
  map plain_product (calculate_total_stocks_by_product rt1 raw_stocks)
  = map plain_product (calculate_total_stocks_by_product rt2 raw_stocks).
Proof.
  rewrite !calculate_total_stocks_eq.
  rewrite !(sorted_desc_map plain_product sp_quantity sp_quantity)
    by (intros; reflexivity).
  f_equal. rewrite !map_map.
  pose proof (stock_loop_plain rt1 rt2 raw_stocks) as H.
  apply (f_equal (map finish_product)) in H. rewrite !map_map in H.
  exact H.
Qed.

Lemma datasets_plain (rt1 rt2 : runtime) (cw : odict (list stock_wh))
  (sc all_articles : list pystr) (acc1 acc2 : list dataset) :
  map plain_dataset acc1 = map plain_dataset acc2 ->
  map plain_dataset (fold_left (dataset_step rt1 cw sc) all_articles acc1)
  = map plain_dataset (fold_left (dataset_step rt2 cw sc) all_articles acc2).
Proof.
  revert acc1 acc2. induction all_articles as [|a l IH]; intros acc1 acc2 E;
    [exact E |].
  cbn [fold_left]. apply IH. unfold dataset_step. cbn [data].
  destruct (existsb (fun d => 0 <? d) (series_data cw sc a)); [| exact E].
  rewrite !map_app, E. reflexivity.
Qed.

Lemma chart_plain (rt1 rt2 : runtime) (mp : mp_type)
  (stocks_wp : list stock_wh) (all_articles : list pystr) :
  plain_chart <$> build_chart_data rt1 mp stocks_wp all_articles
  = plain_chart <$> build_chart_data rt2 mp stocks_wp all_articles.
Proof.
  unfold build_chart_data.
  destruct stocks_wp as [|w0 ws]; [reflexivity |].
  destruct all_articles as [|a0 arts]; [reflexivity |].
  destruct (fold_left _ _ ([], [])) as [ls cs].
  simpl. unfold plain_chart. cbn [labels datasets clusters].
  f_equal. f_equal.
  apply (datasets_plain rt1 rt2 _ _ (a0 :: arts) [] []). reflexivity.
Qed.

Lemma fill_plain (rt1 rt2 : runtime) (today : date)
  (wb_data : option wb_raw) (ozon_data : option ozon_raw) :
  same_clock rt1 rt2 ->
  plain (fill rt1 today wb_data ozon_data)
  = plain (fill rt2 today wb_data ozon_data).
Proof.
  intros H.
  pose proof (period_data_clock rt1 rt2 today wb_data ozon_data H) as Hp.
  destruct (fill_rest rt1 today wb_data ozon_data) as (Hl1 & Hm1 & Hw1 & Ho1).
  destruct (fill_rest rt2 today wb_data ozon_data) as (Hl2 & Hm2 & Hw2 & Ho2).
  assert (Hs : dsummary (fill rt1 today wb_data ozon_data)
               = dsummary (fill rt2 today wb_data ozon_data)).
  { rewrite !fill_summary. unfold figure. rewrite Hp. reflexivity. }
  unfold plain. rewrite Hs, Hp, Hl1, Hl2, Hm1, Hm2, Hw1, Hw2, Ho1, Ho2.
  rewrite (proj2 (proj2 H)).
  f_equal.
  - destruct wb_data as [w|]; [| reflexivity]. simpl. f_equal.
    unfold build_wb_stocks, plain_wb_stocks.
    cbn [ws_by_warehouse ws_by_product ws_chart_data ws_all_articles].
    rewrite (products_plain rt1 rt2), (chart_plain rt1 rt2). reflexivity.
  - destruct ozon_data as [o|]; [| reflexivity]. simpl. f_equal.
    unfold build_ozon_stocks, plain_ozon_stocks.
    cbn [os_by_warehouse os_by_product os_chart_data os_all_articles].
    rewrite (chart_plain rt1 rt2), !map_map. reflexivity.
Qed.

(** X17: two runs that parse dates alike and print the same time stamp
    end alike, whatever their [hash]: both raise the same exception, or both
    write the same document up to its colors: the time stamp, the summary,
    the marketplace status list and every window result are equal, and so
    are the stocks once the color of each product line, of each Ozon stock
    item and of each chart dataset is blanked; the lines, their order and
    the datasets kept in the charts do not depend on the colors. *)
Theorem figures_do_not_depend_on_hash (rt1 rt2 : runtime) (today : date)
  (wbf : file_state wb_raw) (ozf : file_state ozon_raw) :
  same_clock rt1 rt2 ->
  plain <$> prepare rt1 today wbf ozf = plain <$> prepare rt2 today wbf ozf.
Proof.
  intros H.
  pose proof (fill_plain rt1 rt2 today (data_of wbf) (data_of ozf) H) as E.
  destruct wbf, ozf; cbn -[fill plain]; try reflexivity;
    cbn [data_of] in E; rewrite E; reflexivity.
Qed.

(** The two runs of the witness read a stock row and an order of "ABC":
    the colors they write differ, the documents agree once blanked. *)
Lemma figures_do_not_depend_on_hash_witness :
  let rt1 := example_runtime (CPython.seeded_hash 1) in
  let rt2 := example_runtime (CPython.seeded_hash 2) in
  let today := ymd 2024 6 10 in
  same_clock rt1 rt2
  /\ product_colors (prepare rt1 today (Parsed abc_document) Missing)
     = [ u "#14b8a6" ]
  /\ product_colors (prepare rt2 today (Parsed abc_document) Missing)
     = [ u "#22c55e" ]
  /\ plain <$> prepare rt1 today (Parsed abc_document) Missing
     = plain <$> prepare rt2 today (Parsed abc_document) Missing.
Proof.
  cbn zeta.
  assert (H : same_clock (example_runtime (CPython.seeded_hash 1))
                (example_runtime (CPython.seeded_hash 2)))
    by (repeat split; reflexivity).
  split; [exact H |].
  split; [vm_compute; reflexivity |].
  split; [vm_compute; reflexivity |].
  exact (figures_do_not_depend_on_hash _ _ (ymd 2024 6 10)
           (Parsed abc_document) Missing H).
Defined.

(** ** The fetchers: orders *)

Lemma fold_left_project {S T X : Type} (pr : S -> T) (f : S -> X -> S)
  (g : T -> X -> T) (l : list X) (s : S) :
  (forall s x, pr (f s x) = g (pr s) x) ->
  pr (fold_left f l s) = fold_left g l (pr s).
Proof.
  intros H. revert s. induction l as [|x l IH]; intros s; [reflexivity |].
  cbn [fold_left]. rewrite IH, H. reflexivity.
Qed.

Lemma values_map_snd {V W : Type} (g : V -> W) (d : odict V) :
  values (map (fun kv => (fst kv, g (snd kv))) d) = map g (values d).
Proof. unfold values. rewrite !map_map. reflexivity. Qed.

Lemma take_map {A B : Type} (f : A -> B) (n : nat) (l : list A) :
  take n (map f l) = map f (take n l).
Proof.
  revert l. induction n as [|n IH]; intros [|x l]; simpl; try reflexivity.
  rewrite IH. reflexivity.
Qed.

(** The warehouse dict of [aggregate_sales_data], its breakdowns dropped,
    is the warehouse dict of the fetcher. *)
Lemma warehouse_totals_project (mp : mp_type) (orders : list order) :
  let step :=
    match mp with wb => FetchWb.orders_step | ozon => FetchOzon.orders_step end
  in
  (map (fun kv => (fst kv, acc_totals (snd kv)))
     (st_by_warehouse (agg_loop mp orders)),
   st_by_region (agg_loop mp orders))
  = fold_left step orders ([], []).
Proof.
  cbn zeta. unfold agg_loop.
  apply (fold_left_project
           (fun st => (map (fun kv => (fst kv, acc_totals (snd kv)))
                         (st_by_warehouse st), st_by_region st))).
  intros st item. destruct mp; cbn [agg_step st_by_warehouse st_by_region];
    unfold FetchWb.orders_step, FetchOzon.orders_step;
    (apply (f_equal2 pair); [| reflexivity]).
  - rewrite (map_odict_update acc_totals _ _ _
               (entry_add 1 (default 0 (priceWithDisc item))))
      by (intros; reflexivity).
    reflexivity.
  - rewrite (map_odict_update acc_totals _ _ _
               (entry_add 1 (ozon_price (financial_data item))))
      by (intros; reflexivity).
    reflexivity.
Qed.

(** X18: on the same orders the aggregations of the fetchers and the
    aggregation of [prepare] agree: the product lists are equal, with their
    warehouse breakdowns; the regions of [prepare] are the first 15 regions
    of the fetcher; the warehouses of [prepare], their product breakdowns
    dropped, are the first 15 warehouses of the fetcher.  (For Ozon an
    order's [analytics_data] is an object or absent.) *)
Theorem fetchers_agree_with_prepare (orders : list order) :
  FetchWb.aggregate_orders_by_product orders
  = sales_by_product (aggregate_sales_data orders wb)
  /\ FetchOzon.aggregate_sales_by_product orders
     = sales_by_product (aggregate_sales_data orders ozon)
  /\ take 15 (snd (FetchWb.aggregate_orders_by_warehouse_and_region orders))
     = sales_by_region (aggregate_sales_data orders wb)
  /\ take 15 (snd (FetchOzon.aggregate_orders_by_warehouse_and_region orders))
     = sales_by_region (aggregate_sales_data orders ozon)
  /\ take 15 (fst (FetchWb.aggregate_orders_by_warehouse_and_region orders))
     = map bucket_totals (sales_by_warehouse (aggregate_sales_data orders wb))
  /\ take 15 (fst (FetchOzon.aggregate_orders_by_warehouse_and_region orders))
     = map bucket_totals
         (sales_by_warehouse (aggregate_sales_data orders ozon)).
Proof.
  assert (Hw : forall d : odict acc_bucket,
             take 15 (sorted_desc e_revenue
                        (values (map (fun kv => (fst kv, acc_totals (snd kv)))
                                   d)))
             = map bucket_totals
                 (map (flatten e_count)
                    (take 15 (sorted_desc a_revenue (values d))))).
  { intros d. rewrite values_map_snd.
    rewrite <- (sorted_desc_map acc_totals a_revenue e_revenue)
      by (intros; reflexivity).
    rewrite take_map, map_map. reflexivity. }
  split.
  { unfold FetchWb.aggregate_orders_by_product, aggregate_sales_data.
    cbn [sales_by_product]. do 3 f_equal. unfold agg_loop. symmetry.
    apply (fold_left_project st_by_product). intros; reflexivity. }
  split.
  { unfold FetchOzon.aggregate_sales_by_product, aggregate_sales_data.
    cbn [sales_by_product].
    rewrite (sorted_desc_map (flatten e_revenue) a_revenue revenue)
      by (intros; reflexivity).
    do 3 f_equal. unfold agg_loop. symmetry.
    apply (fold_left_project st_by_product). intros; reflexivity. }
  pose proof (warehouse_totals_project wb orders) as Hwb.
  pose proof (warehouse_totals_project ozon orders) as Hoz.
  cbn zeta in Hwb, Hoz.
  unfold FetchWb.aggregate_orders_by_warehouse_and_region,
    FetchOzon.aggregate_orders_by_warehouse_and_region, aggregate_sales_data.
  rewrite <- Hwb, <- Hoz.
  cbn [fst snd sales_by_region sales_by_warehouse].
  split; [reflexivity |]. split; [reflexivity |].
  split; apply Hw.
Qed.

(** ** The fetchers: stocks by warehouse and product *)

Lemma fold_skip {R S : Type} (view : R -> stock_row) (skip : Z -> bool)
  (step : S -> R -> S) (add : S -> stock_row -> S) (rows : list R) (st : S) :
  (forall st r, step st r
                = if skip (sr_qty (view r)) then st else add st (view r)) ->
  fold_left step rows st
  = fold_left add
      (List.filter (fun r => negb (skip (sr_qty r))) (map view rows)) st.
Proof.
  intros H. revert st. induction rows as [|r rows IH]; intros st;
    [reflexivity |].
  cbn [fold_left map List.filter]. rewrite H.
  destruct (skip (sr_qty (view r))); simpl; apply IH.
Qed.

Lemma wb_loop_kept (stocks : list raw_stock) :
  fold_left FetchWb.wp_step stocks ([], ∅)
  = fold_left add_row (wb_kept stocks) ([], ∅).
Proof.
  apply (fold_skip wb_row (fun q => q =? 0)). intros st r. reflexivity.
Qed.

Lemma ozon_loop_kept (rows : list FetchOzon.fbo_row) :
  fold_left FetchOzon.wp_step rows ([], ∅)
  = fold_left add_row (ozon_kept rows) ([], ∅).
Proof.
  apply (fold_skip fbo_row_of (fun q => q <=? 0)). intros st r. reflexivity.
Qed.

Lemma add_row_fst (st : odict wh_acc * gset pystr) (r : stock_row) :
  fst (add_row st r)
  = odict_update (sr_wh r)
      {| wa_name := sr_wh r; wa_total := 0; wa_products := ∅ |}
      (fun w =>
         {| wa_name := wa_name w;
            wa_total := wa_total w + sr_qty r;
            wa_products :=
              <[ sr_article r
                 := default 0 (wa_products w !! sr_article r) + sr_qty r ]>
                (wa_products w) |})
      (fst st).
Proof. destruct st. reflexivity. Qed.

Lemma add_row_snd (st : odict wh_acc * gset pystr) (r : stock_row) :
  snd (add_row st r) = {[ sr_article r ]} ∪ snd st.
Proof. destruct st. reflexivity. Qed.

Lemma wp_loop_keys (kept : list stock_row) :
  keys (fst (fold_left add_row kept ([], ∅)))
  = first_seen (map sr_wh kept).
Proof.
  unfold first_seen.
  assert (G : forall l st,
             keys (fst (fold_left add_row l st))
             = fold_left see (map sr_wh l) (keys (fst st))).
  { induction l as [|r l IH]; intros st; [reflexivity |].
    cbn [fold_left map]. rewrite IH, add_row_fst, keys_update.
    reflexivity. }
  apply (G kept ([], ∅)).
Qed.

Lemma wp_loop_named (kept : list stock_row) :
  named wa_name (fst (fold_left add_row kept ([], ∅))).
Proof.
  apply (fold_left_inv (fun st => named wa_name (fst st))); [constructor |].
  intros st r H. rewrite add_row_fst.
  apply named_update; [reflexivity | intros; reflexivity | exact H].
Qed.

Lemma wp_loop_total (kept : list stock_row) (w : pystr) :
  match assoc w (fst (fold_left add_row kept ([], ∅))) with
  | Some x => wa_total x
  | None => 0
  end
  = sumZ (map sr_qty (rows_at w kept)).
Proof.
  rewrite (fold_left_measure
             (fun st => match assoc w (fst st) with
                        | Some x => wa_total x | None => 0
                        end)
             (fun r => if pystr_eqb w (sr_wh r) then sr_qty r else 0)).
  - rewrite sumZ_filter_hits. reflexivity.
  - intros st r. rewrite add_row_fst.
    apply (measure_at_update wa_total); [reflexivity | intros; reflexivity].
Qed.

Lemma sum_values_add (m : gmap pystr Z) (a : pystr) (q : Z) :
  sum_values (<[ a := default 0 (m !! a) + q ]> m) = sum_values m + q.
Proof.
  unfold sum_values. destruct (m !! a) as [v|] eqn:E; simpl.
  - rewrite <- (insert_delete_eq m a (v + q)).
    rewrite map_fold_insert_L;
      [| intros; lia | apply lookup_delete_eq].
    rewrite (map_fold_delete_L _ 0 a v m); [lia | intros; lia | exact E].
  - rewrite map_fold_insert_L; [lia | intros; lia | exact E].
Qed.

Lemma wp_loop_sums (kept : list stock_row) :
  Forall (fun x => wa_total x = sum_values (wa_products x))
    (values (fst (fold_left add_row kept ([], ∅)))).
Proof.
  apply (fold_left_inv
           (fun st => Forall (fun x => wa_total x = sum_values (wa_products x))
                        (values (fst st)))); [constructor |].
  intros st r H. rewrite add_row_fst.
  assert (Hs : forall x, wa_total x = sum_values (wa_products x) ->
             wa_total x + sr_qty r
             = sum_values (<[ sr_article r
                              := default 0 (wa_products x !! sr_article r)
                                 + sr_qty r ]> (wa_products x))).
  { intros x Hx. rewrite sum_values_add, Hx. reflexivity. }
  apply values_update_Forall; [| exact Hs | exact H].
  apply Hs. reflexivity.
Qed.

Lemma cell_add_row (st : odict wh_acc * gset pystr) (r : stock_row)
  (w a : pystr) :
  cell (add_row st r) w a = cell_add w a (cell st w a) r.
Proof.
  unfold cell, cell_add. rewrite add_row_fst, assoc_update.
  destruct (pystr_eqb w (sr_wh r)) eqn:Ew; [| reflexivity].
  apply pystr_eqb_eq in Ew. subst w. cbn [andb].
  assert (Hc : forall p : gmap pystr Z,
             <[ sr_article r := default 0 (p !! sr_article r) + sr_qty r ]> p
               !! a
             = if pystr_eqb a (sr_article r)
               then Some (default 0 (p !! a) + sr_qty r) else p !! a).
  { intros p. destruct (pystr_eqb a (sr_article r)) eqn:Ea.
    - apply pystr_eqb_eq in Ea. subst a. apply lookup_insert_eq.
    - apply lookup_insert_ne. intros E. subst a.
      rewrite pystr_eqb_refl in Ea. discriminate Ea. }
  destruct (assoc (sr_wh r) (fst st)) as [x|]; simpl; rewrite Hc;
    [reflexivity |].
  rewrite lookup_empty. reflexivity.
Qed.

Lemma cell_fold (w a : pystr) (l : list stock_row) (c : option Z) :
  fold_left (cell_add w a) l c
  = match rows_with a (rows_at w l) with
    | [] => c
    | rs => Some (default 0 c + sumZ (map sr_qty rs))
    end.
Proof.
  revert c. induction l as [|r l IH]; intros c; [reflexivity |].
  cbn [fold_left]. rewrite IH. unfold cell_add, rows_at, rows_with.
  cbn [List.filter].
  destruct (pystr_eqb w (sr_wh r)); cbn [andb List.filter];
    [destruct (pystr_eqb a (sr_article r)) |]; try reflexivity.
  cbn [default].
  destruct (List.filter _ (List.filter _ l)) as [|r' rs]; simpl;
    f_equal; lia.
Qed.

Lemma wp_loop_cell (kept : list stock_row) (w a : pystr) :
  cell (fold_left add_row kept ([], ∅)) w a
  = cell_of (rows_with a (rows_at w kept)).
Proof.
  rewrite (fold_left_project (fun st => cell st w a) add_row (cell_add w a))
    by (intros; apply cell_add_row).
  rewrite cell_fold. unfold cell_of.
  destruct (rows_with a (rows_at w kept)); [reflexivity |].
  simpl. f_equal.
Qed.

Lemma wp_loop_articles (kept : list stock_row) (a : pystr) :
  a ∈ snd (fold_left add_row kept ([], ∅))
  <-> exists r, In r kept /\ sr_article r = a.
Proof.
  assert (G : forall l (s : gset pystr),
             a ∈ fold_left (fun s r => {[ sr_article r ]} ∪ s) l s
             <-> a ∈ s \/ exists r, In r l /\ sr_article r = a).
  { induction l as [|r l IH]; intros s; cbn [fold_left].
    - split; [auto | intros [H | (r & [] & _)]; exact H].
    - rewrite IH, elem_of_union, elem_of_singleton. split.
      + intros [[-> | H] | (r' & H1 & H2)]; [right | left | right].
        * exists r. split; [left |]; reflexivity.
        * exact H.
        * exists r'. split; [right |]; assumption.
      + intros [H | (r' & [<- | H1] & H2)].
        * left. right. exact H.
        * left. left. symmetry. exact H2.
        * right. exists r'. split; assumption. }
  rewrite (fold_left_project snd add_row
             (fun (s : gset pystr) r => {[ sr_article r ]} ∪ s))
    by (intros; apply add_row_snd).
  rewrite G. cbn [snd]. rewrite elem_of_empty. tauto.
Qed.

Lemma sorted_articles (s : gset pystr) :
  StronglySorted (fun a b => pystr_ltb a b = true) (sorted_str (elements s))
  /\ forall a, In a (sorted_str (elements s)) <-> a ∈ s.
Proof.
  split.
  - apply sorted_strict; [| apply sorted_str_sorted].
    unfold sorted_str. rewrite (py_sorted_perm pystr_ltb).
    apply NoDup_elements.
  - intros a. rewrite <- elem_of_elements, <- list_elem_of_In.
    unfold sorted_str. rewrite (py_sorted_perm pystr_ltb). reflexivity.
Qed.

Lemma wp_loop_grand_total (kept : list stock_row) :
  sumZ (map wa_total (values (fst (fold_left add_row kept ([], ∅)))))
  = sumZ (map sr_qty kept).
Proof.
  rewrite (fold_left_measure
             (fun st => sumZ (map wa_total (values (fst st)))) sr_qty);
    [reflexivity |].
  intros st r. rewrite add_row_fst.
  apply (sum_values_update wa_total); [reflexivity | intros; reflexivity].
Qed.

Lemma wp_contract_sorted (kept : list stock_row) :
  let st := fold_left add_row kept ([], ∅) in
  wp_contract kept (sorted_desc wa_total (values (fst st)))
    (sorted_str (elements (snd st))).
Proof.
  cbn zeta. set (st := fold_left add_row kept ([], ∅)).
  pose proof (wp_loop_named kept) as Hnamed. fold st in Hnamed.
  pose proof (wp_loop_keys kept) as Hkeys. fold st in Hkeys.
  assert (Hnd : NoDup (keys (fst st)))
    by (rewrite Hkeys; apply first_seen_NoDup).
  pose proof (sorted_desc_spec wa_total (values (fst st)))
    as (Hperm & Hsort & _).
  destruct (sorted_articles (snd st)) as (Ha1 & Ha2).
  unfold wp_contract.
  split; [exact Ha1 |].
  split; [intros a; rewrite Ha2; apply wp_loop_articles |].
  split; [exact Hsort |].
  split.
  { rewrite (Permutation_map wa_name Hperm).
    rewrite (named_values wa_name _ Hnamed). exact Hnd. }
  apply Forall_sorted_desc, List.Forall_forall. intros x Hx.
  pose proof (assoc_named wa_name (fst st) x Hnamed Hnd Hx) as Hassoc.
  split.
  { assert (Hk : In (wa_name x) (keys (fst st))).
    { rewrite <- (named_values wa_name _ Hnamed). apply in_map, Hx. }
    rewrite Hkeys in Hk. apply first_seen_In, in_map_iff in Hk.
    destruct Hk as (r & E & Hr).
    assert (Hin : In r (rows_at (wa_name x) kept)).
    { apply filter_In. split; [exact Hr |]. rewrite E. apply pystr_eqb_refl. }
    intros Hnil. rewrite Hnil in Hin. exact Hin. }
  split.
  { rewrite <- (wp_loop_total kept). fold st. rewrite Hassoc. reflexivity. }
  split.
  { pose proof (wp_loop_sums kept) as Hs. fold st in Hs.
    rewrite List.Forall_forall in Hs. apply Hs, Hx. }
  intros a. rewrite <- (wp_loop_cell kept). fold st. unfold cell.
  rewrite Hassoc. reflexivity.
Qed.

Lemma wp_contract_take (n : nat) (kept : list stock_row) (whs : list wh_acc)
  (arts : list pystr) :
  wp_contract kept whs arts -> wp_contract kept (take n whs) arts.
Proof.
  intros (H1 & H2 & H3 & H4 & H5). unfold wp_contract.
  split; [exact H1 |]. split; [exact H2 |].
  split; [apply StronglySorted_take, H3 |].
  split.
  - rewrite <- take_map. eapply sublist_NoDup; [| apply sublist_take].
    exact H4.
  - apply Forall_take, H5.
Qed.

Lemma wb_wp_eq (stocks : list raw_stock) :
  let st := fold_left add_row (wb_kept stocks) ([], ∅) in
  FetchWb.aggregate_stocks_by_warehouse_and_product stocks
  = (take 15 (sorted_desc wa_total (values (fst st))),
     sorted_str (elements (snd st))).
Proof.
  cbn zeta. unfold FetchWb.aggregate_stocks_by_warehouse_and_product.
  rewrite wb_loop_kept.
  destruct (fold_left add_row (wb_kept stocks) ([], ∅)). reflexivity.
Qed.

Lemma ozon_wp_eq (fbo : list FetchOzon.fbo_row) :
  let st := fold_left add_row (ozon_kept fbo) ([], ∅) in
  FetchOzon.aggregate_stocks_warehouse_products fbo
  = (sorted_desc wa_total (values (fst st)),
     sorted_str (elements (snd st))).
Proof.
  cbn zeta. unfold FetchOzon.aggregate_stocks_warehouse_products.
  rewrite ozon_loop_kept.
  destruct (fold_left add_row (ozon_kept fbo) ([], ∅)). reflexivity.
Qed.

Lemma wp_names_complete (kept : list stock_row) (w : pystr) :
  In w (map wa_name
          (sorted_desc wa_total
             (values (fst (fold_left add_row kept ([], ∅))))))
  <-> exists r, In r kept /\ sr_wh r = w.
Proof.
  pose proof (sorted_desc_perm wa_total
                (values (fst (fold_left add_row kept ([], ∅))))) as Hperm.
  assert (E : In w (map wa_name
                      (sorted_desc wa_total
                         (values (fst (fold_left add_row kept ([], ∅))))))
              <-> In w (first_seen (map sr_wh kept))).
  { rewrite <- wp_loop_keys, <- (named_values wa_name _ (wp_loop_named kept)).
    split; apply Permutation_in.
    - apply Permutation_map, Hperm.
    - apply Permutation_map. symmetry. exact Hperm. }
  rewrite E, first_seen_In, in_map_iff.
  split; intros (r & H1 & H2); exists r; auto.
Qed.

Lemma contract_cells_positive (kept : list stock_row) (whs : list wh_acc)
  (arts : list pystr) :
  wp_contract kept whs arts -> Forall (fun r => 0 < sr_qty r) kept ->
  Forall (fun w => map_Forall (fun _ q => 0 < q) (wa_products w)) whs.
Proof.
  intros (_ & _ & _ & _ & H) Hpos.
  eapply List.Forall_impl; [| exact H]. intros w (_ & _ & _ & Hc) a q Hq.
  rewrite Hc in Hq. unfold cell_of in Hq.
  destruct (rows_with a (rows_at (wa_name w) kept)) as [|r rs] eqn:E;
    [discriminate Hq |].
  injection Hq as <-. apply (sumZ_positive sr_qty (r :: rs)); [discriminate |].
  rewrite <- E. apply List.Forall_forall. intros r' Hr'.
  apply filter_In in Hr'. destruct Hr' as [Hr' _].
  apply filter_In in Hr'. destruct Hr' as [Hr' _].
  rewrite List.Forall_forall in Hpos. apply Hpos, Hr'.
Qed.

Lemma ozon_kept_positive (fbo : list FetchOzon.fbo_row) :
  Forall (fun r => 0 < sr_qty r) (ozon_kept fbo).
Proof.
  apply List.Forall_forall. intros r Hr. apply filter_In in Hr.
  destruct Hr as [_ Hr]. apply negb_true_iff, Z.leb_gt in Hr. exact Hr.
Qed.

(** X19: the contract of the two functions that prepare the stock chart,
    [aggregate_stocks_by_warehouse_and_product] of the WB fetcher (rows with
    quantity 0 skipped, the first 15 warehouses) and
    [aggregate_stocks_warehouse_products] of the Ozon fetcher (rows with
    quantity 0 or less skipped, every warehouse).  The articles are strictly
    ascending and are the articles of the rows kept; the warehouses are in
    descending order of their totals, each once; the total of a warehouse is
    the sum of the quantities of its rows and the sum of its [products]; a
    product entry exists exactly for the articles of its rows and holds
    their sum.  For WB at most 15 warehouses are returned; for Ozon every
    warehouse of a kept row is returned, every product entry is positive
    and [total_stock] is the sum of the quantities kept. *)
Theorem warehouse_products_contract (stocks : list raw_stock)
  (fbo : list FetchOzon.fbo_row) :
  let wb_out := FetchWb.aggregate_stocks_by_warehouse_and_product stocks in
  let oz_out := FetchOzon.aggregate_stocks_warehouse_products fbo in
  wp_contract (wb_kept stocks) (fst wb_out) (snd wb_out)
  /\ (length (fst wb_out) <= 15)%nat
  /\ wp_contract (ozon_kept fbo) (fst oz_out) (snd oz_out)
  /\ (forall w, In w (map wa_name (fst oz_out)) <->
                exists r, In r (ozon_kept fbo) /\ sr_wh r = w)
  /\ Forall (fun w => map_Forall (fun _ q => 0 < q) (wa_products w))
       (fst oz_out)
  /\ FetchOzon.total_stock (fst oz_out) = sumZ (map sr_qty (ozon_kept fbo)).
Proof.
  cbn zeta. rewrite wb_wp_eq, ozon_wp_eq. cbn [fst snd].
  pose proof (wp_contract_sorted (ozon_kept fbo)) as Hoz. cbn zeta in Hoz.
  split; [apply wp_contract_take, wp_contract_sorted |].
  split; [rewrite length_take; lia |].
  split; [exact Hoz |].
  split; [apply wp_names_complete |].
  split; [exact (contract_cells_positive _ _ _ Hoz (ozon_kept_positive fbo)) |].
  unfold FetchOzon.total_stock.
  rewrite (sumZ_map_perm wa_total _ _ (sorted_desc_perm wa_total _)).
  apply wp_loop_grand_total.
Qed.

(** ** The fetchers and the stock chart *)

Lemma strict_sorted_NoDup (l : list pystr) :
  StronglySorted (fun a b => pystr_ltb a b = true) l -> NoDup l.
Proof.
  induction 1 as [|x l Hs IH Hall]; [apply NoDup_nil_2 |].
  apply NoDup_cons. split; [| exact IH].
  intros Hin. apply list_elem_of_In in Hin.
  rewrite List.Forall_forall in Hall. specialize (Hall x Hin).
  rewrite pystr_ltb_irrefl in Hall. discriminate Hall.
Qed.

(** The cluster totals add up to the values of the series when the article
    list has no duplicates and covers the stock, and no stock is negative. *)
Lemma chart_totals (rt : runtime) (mp : mp_type) (stocks_wp : list stock_wh)
  (all_articles : list pystr) (chart : chart_data) :
  build_chart_data rt mp stocks_wp all_articles = Some chart ->
  NoDup all_articles ->
  (forall wh a q, In wh stocks_wp -> wh_products wh !! a = Some q ->
                  In a all_articles /\ 0 <= q) ->
  totals_agree chart.
Proof.
  intros Hb Hnd Hok.
  destruct (build_chart_data_Some _ _ _ _ _ Hb) as (_ & HD & _ & _ & HT).
  unfold totals_agree. rewrite HT, HD, map_map. cbn [data mk_dataset].
  assert (Hwh : forall wh a q, In wh (chart_warehouses mp stocks_wp) ->
                  wh_products wh !! a = Some q ->
                  In a all_articles /\ 0 <= q).
  { intros wh a q Hin. apply Hok, (chart_warehouses_members mp), Hin. }
  rewrite sumZ_filter.
  - rewrite (sumZ_map_ext (fun a => sumZ (chart_series mp stocks_wp a))
               (fun a : pystr =>
                  sumZ (map (fun wh => default 0 (wh_products wh !! a))
                          (chart_warehouses mp stocks_wp))))
      by (intros a _; rewrite chart_series_eq; reflexivity).
    rewrite (sumZ_swap (fun (a : pystr) (wh : stock_wh) =>
                          default 0 (wh_products wh !! a))).
    apply sumZ_map_ext. intros wh Hin. symmetry.
    apply sum_values_lookup; [exact Hnd |].
    intros a q Ha. apply (Hwh wh a q Hin Ha).
  - intros a _ Hneg. apply no_positive_sum; [| exact Hneg].
    rewrite chart_series_eq. apply List.Forall_map, List.Forall_forall.
    intros wh Hin. destruct (wh_products wh !! a) as [q|] eqn:Hq; simpl; [| lia].
    apply (Hwh wh a q Hin Hq).
Qed.

Lemma build_chart_data_None (rt : runtime) (mp : mp_type)
  (stocks_wp : list stock_wh) (all_articles : list pystr) :
  build_chart_data rt mp stocks_wp all_articles = None ->
  stocks_wp = [] \/ all_articles = [].
Proof.
  unfold build_chart_data.
  destruct stocks_wp as [|w0 ws]; [auto |].
  destruct all_articles as [|a0 arts]; [auto |].
  destruct (fold_left _ _ ([], [])). intros H. discriminate H.
Qed.

(** The chart built from a result that keeps its contract, when every row
    kept has a positive quantity. *)
Lemma chart_of_kept (rt : runtime) (mp : mp_type) (kept : list stock_row)
  (whs : list wh_acc) (arts : list pystr) (chart : chart_data) :
  wp_contract kept whs arts ->
  Forall (fun r => 0 < sr_qty r) kept ->
  build_chart_data rt mp (map as_stock_wh whs) arts = Some chart ->
  totals_agree chart
  /\ sumZ (map total_stock (clusters chart)) = sumZ (map wa_total whs)
  /\ ((forall r, In r kept -> In (sr_wh r) (map wa_name whs)) ->
      map label (datasets chart) = arts).
Proof.
  intros Hc Hpos Hb.
  pose proof (contract_cells_positive _ _ _ Hc Hpos) as Hcells.
  destruct Hc as (Hsorted & Harts & _ & _ & Hwhs).
  rewrite List.Forall_forall in Hcells, Hwhs.
  destruct (build_chart_data_Some _ _ _ _ _ Hb) as (_ & HD & _ & _ & HT).
  split.
  { apply (chart_totals _ _ _ _ _ Hb (strict_sorted_NoDup _ Hsorted)).
    intros wh a q Hin Hq. apply in_map_iff in Hin.
    destruct Hin as (x & <- & Hx). cbn [as_stock_wh wh_products] in Hq.
    split; [| pose proof (Hcells x Hx a q Hq) as Hq0; simpl in Hq0; lia].
    destruct (Hwhs x Hx) as (_ & _ & _ & Hcell).
    rewrite Hcell in Hq. apply Harts.
    destruct (rows_with a (rows_at (wa_name x) kept)) as [|r rs] eqn:E;
      [discriminate Hq |].
    assert (Hr : In r (rows_with a (rows_at (wa_name x) kept)))
      by (rewrite E; left; reflexivity).
    apply filter_In in Hr. destruct Hr as [Hr Ea].
    apply filter_In in Hr. destruct Hr as [Hr _].
    apply pystr_eqb_eq in Ea. exists r. auto. }
  split.
  { rewrite HT.
    rewrite (sumZ_map_perm _ _ _ (chart_warehouses_perm mp _)), map_map.
    apply sumZ_map_ext. intros x Hx. cbn [as_stock_wh wh_products].
    symmetry. apply (Hwhs x Hx). }
  intros Hall. rewrite HD, map_map. cbn [label mk_dataset]. rewrite map_id.
  apply filter_all. intros a Ha. apply has_positive_spec.
  apply Harts in Ha. destruct Ha as (r & Hr & Ea).
  specialize (Hall r Hr). apply in_map_iff in Hall.
  destruct Hall as (x & En & Hx).
  destruct (Hwhs x Hx) as (_ & _ & _ & Hcell). specialize (Hcell a).
  assert (Hin : In r (rows_with a (rows_at (wa_name x) kept))).
  { apply filter_In. split.
    - apply filter_In. split; [exact Hr |]. rewrite En. apply pystr_eqb_refl.
    - rewrite Ea. apply pystr_eqb_refl. }
  destruct (rows_with a (rows_at (wa_name x) kept)) as [|r' rs] eqn:E;
    [destruct Hin |].
  unfold cell_of in Hcell.
  exists (sumZ (map sr_qty (r' :: rs))). split.
  - rewrite chart_series_eq. apply in_map_iff. exists (as_stock_wh x).
    split; [cbn [as_stock_wh wh_products]; rewrite Hcell; reflexivity |].
    apply (Permutation_in _ (Permutation_sym (chart_warehouses_perm mp _))).
    apply in_map, Hx.
  - apply (Hcells x Hx a). exact Hcell.
Qed.

(** X20: the stock chart that [prepare] builds from the output of the Ozon
    fetcher, [aggregate_stocks_warehouse_products]: there is no chart only
    when no row has a positive quantity; otherwise every article of
    [all_articles] has its dataset, in the same order, the cluster totals
    add up to the values of the datasets, and they add up to the fetcher's
    [total_stock]. *)
Theorem ozon_chart_of_fetched (rt : runtime) (fbo : list FetchOzon.fbo_row) :
  let out := FetchOzon.aggregate_stocks_warehouse_products fbo in
  match build_chart_data rt ozon (map as_stock_wh (fst out)) (snd out) with
  | Some chart =>
    map label (datasets chart) = snd out
    /\ totals_agree chart
    /\ sumZ (map total_stock (clusters chart))
       = FetchOzon.total_stock (fst out)
  | None => ozon_kept fbo = []
  end.
Proof.
  cbn zeta. rewrite ozon_wp_eq. cbn [fst snd].
  pose proof (wp_contract_sorted (ozon_kept fbo)) as Hc. cbn zeta in Hc.
  pose proof (wp_names_complete (ozon_kept fbo)) as Hn.
  set (whs := sorted_desc wa_total _) in *.
  set (arts := sorted_str _) in *.
  destruct (build_chart_data rt ozon (map as_stock_wh whs) arts)
    as [chart|] eqn:Hb.
  - destruct (chart_of_kept _ _ _ _ _ _ Hc (ozon_kept_positive fbo) Hb)
      as (H1 & H2 & H3).
    split; [| split; [exact H1 | exact H2]].
    apply H3. intros r Hr. apply Hn. exists r. auto.
  - destruct (ozon_kept fbo) as [|r rs] eqn:E; [reflexivity |]. exfalso.
    apply build_chart_data_None in Hb. destruct Hb as [Hb | Hb].
    + assert (Hin : In (sr_wh r) (map wa_name whs))
        by (apply Hn; exists r; split; [left |]; reflexivity).
      destruct whs; [exact Hin | discriminate Hb].
    + destruct Hc as (_ & Ha & _).
      assert (Hin : In (sr_article r) arts)
        by (apply Ha; exists r; split; [left |]; reflexivity).
      rewrite Hb in Hin. exact Hin.
Qed.

Lemma wb_kept_positive (stocks : list raw_stock) :
  Forall (fun item => 0 <= stock_qty item) stocks ->
  Forall (fun r => 0 < sr_qty r) (wb_kept stocks).
Proof.
  intros H. apply List.Forall_forall. intros r Hr. apply filter_In in Hr.
  destruct Hr as [Hr Hq]. apply in_map_iff in Hr.
  destruct Hr as (item & <- & Hi). rewrite List.Forall_forall in H.
  specialize (H item Hi). apply negb_true_iff, Z.eqb_neq in Hq.
  cbn [wb_row sr_qty] in *. lia.
Qed.

Lemma wb_kept_total (stocks : list raw_stock) :
  sumZ (map sr_qty (wb_kept stocks)) = FetchWb.total_stock stocks.
Proof.
  unfold wb_kept, FetchWb.total_stock. rewrite sumZ_filter.
  - rewrite map_map. reflexivity.
  - intros r _ Hr. apply negb_false_iff, Z.eqb_eq in Hr. exact Hr.
Qed.

(** X21: the stock chart that [prepare] builds from the output of the WB
    fetcher, [aggregate_stocks_by_warehouse_and_product], when no row has a
    negative quantity: the cluster totals add up to the values of the
    datasets and to the totals of the warehouses returned, which is at most
    the fetcher's [total_stock]; when the rows kept name at most 15
    warehouses, nothing is cut: every article of [all_articles] has its
    dataset, in the same order, and the cluster totals add up to
    [total_stock]. *)
Theorem wb_chart_of_fetched (rt : runtime) (stocks : list raw_stock)
  (chart : chart_data) :
  Forall (fun item => 0 <= stock_qty item) stocks ->
  let out := FetchWb.aggregate_stocks_by_warehouse_and_product stocks in
  build_chart_data rt wb (map as_stock_wh (fst out)) (snd out) = Some chart ->
  totals_agree chart
  /\ sumZ (map total_stock (clusters chart)) = sumZ (map wa_total (fst out))
  /\ sumZ (map total_stock (clusters chart)) <= FetchWb.total_stock stocks
  /\ ((length (first_seen (map sr_wh (wb_kept stocks))) <= 15)%nat ->
      map label (datasets chart) = snd out
      /\ sumZ (map total_stock (clusters chart)) = FetchWb.total_stock stocks).
Proof.
  intros Hnn. cbn zeta. rewrite wb_wp_eq. cbn [fst snd]. intros Hb.
  pose proof (wb_kept_positive stocks Hnn) as Hpos.
  pose proof (wp_contract_sorted (wb_kept stocks)) as Hc. cbn zeta in Hc.
  pose proof (wp_names_complete (wb_kept stocks)) as Hn.
  pose proof (wp_loop_grand_total (wb_kept stocks)) as Hg.
  pose proof (wp_loop_keys (wb_kept stocks)) as Hk.
  set (st := fold_left add_row (wb_kept stocks) ([], ∅)) in *.
  set (all := sorted_desc wa_total (values (fst st))) in *.
  assert (Hall : Forall (fun x => 0 <= wa_total x) all).
  { destruct Hc as (_ & _ & _ & _ & Hw).
    eapply List.Forall_impl; [| exact Hw]. intros x (_ & Hx & _).
    rewrite Hx. apply sumZ_nonneg, List.Forall_map, List.Forall_forall.
    intros r Hr. apply filter_In in Hr. destruct Hr as [Hr _].
    rewrite List.Forall_forall in Hpos. specialize (Hpos r Hr). lia. }
  assert (Htot : sumZ (map wa_total all) = FetchWb.total_stock stocks).
  { unfold all.
    rewrite (sumZ_map_perm wa_total _ _ (sorted_desc_perm wa_total _)), Hg.
    apply wb_kept_total. }
  destruct (sum_take_le wa_total 15 all Hall) as (Hle & Heq).
  destruct (chart_of_kept _ _ _ _ _ _ (wp_contract_take 15 _ _ _ Hc) Hpos Hb)
    as (H1 & H2 & H3).
  split; [exact H1 |]. split; [exact H2 |].
  split; [rewrite H2; lia |].
  intros Hfew.
  assert (Hlen : (length all <= 15)%nat).
  { unfold all.
    rewrite (Permutation_length (sorted_desc_perm wa_total _)).
    rewrite values_length, Hk. exact Hfew. }
  split; [| rewrite H2, (Heq Hlen); exact Htot].
  apply H3. intros r Hr. rewrite firstn_all2 by exact Hlen.
  apply Hn. exists r. auto.
Qed.

Lemma wb_chart_of_fetched_witness :
  exists chart,
    Forall (fun item => 0 <= stock_qty item) two_stock_rows
    /\ build_chart_data (example_runtime (CPython.seeded_hash 0)) wb
         (map as_stock_wh
            (fst (FetchWb.aggregate_stocks_by_warehouse_and_product
                    two_stock_rows)))
         (snd (FetchWb.aggregate_stocks_by_warehouse_and_product
                 two_stock_rows))
       = Some chart
    /\ totals_agree chart.
Proof.
  eexists.
  assert (Hnn : Forall (fun item => 0 <= stock_qty item) two_stock_rows)
    by (repeat constructor; vm_compute; discriminate).
  assert (Hb : build_chart_data (example_runtime (CPython.seeded_hash 0)) wb
                 (map as_stock_wh
                    (fst (FetchWb.aggregate_stocks_by_warehouse_and_product
                            two_stock_rows)))
                 (snd (FetchWb.aggregate_stocks_by_warehouse_and_product
                         two_stock_rows))
               = Some _)
    by reflexivity.
  split; [exact Hnn |]. split; [exact Hb |].
  exact (proj1 (wb_chart_of_fetched _ two_stock_rows _ Hnn Hb)).
Defined.

(** ** The fetchers: stock totals *)

Lemma wb_stocks_keys (stocks : list raw_stock) :
  keys (fold_left FetchWb.stocks_step stocks [])
  = first_seen (map stock_warehouse stocks).
Proof.
  unfold first_seen.
  assert (G : forall l d,
             keys (fold_left FetchWb.stocks_step l d)
             = fold_left see (map stock_warehouse l) (keys d)).
  { induction l as [|item l IH]; intros d; [reflexivity |].
    cbn [fold_left map]. rewrite IH. unfold FetchWb.stocks_step.
    rewrite keys_update. reflexivity. }
  apply (G stocks []).
Qed.

Lemma wb_stocks_named (stocks : list raw_stock) :
  named wt_name (fold_left FetchWb.stocks_step stocks []).
Proof.
  apply fold_left_inv; [constructor |].
  intros d item H. unfold FetchWb.stocks_step.
  apply named_update; [reflexivity | intros; reflexivity | exact H].
Qed.

Lemma stock_loop_grand_total (rt : runtime) (raw_stocks : list raw_stock) :
  sumZ (map ap_quantity (values (fold_left (stock_step rt) raw_stocks [])))
  = sumZ (map stock_qty raw_stocks).
Proof.
  rewrite (fold_left_measure
             (fun d => sumZ (map ap_quantity (values d))) stock_qty);
    [reflexivity |].
  intros d item. unfold stock_step.
  apply (sum_values_update ap_quantity); [reflexivity | intros; reflexivity].
Qed.

(** X22: [aggregate_stocks_by_warehouse] of the WB fetcher returns one
    line per warehouse of the rows, in descending order of quantity; the
    quantity of a line is the sum of [quantityFull] over the rows of the
    warehouse and [items_count] their number.  The quantities add up to the
    fetcher's [total_stock], and so do the quantities of the product lines
    that [calculate_total_stocks_by_product] of [prepare] derives from the
    same rows. *)
Theorem wb_stock_totals (rt : runtime) (stocks : list raw_stock) :
  let out := FetchWb.aggregate_stocks_by_warehouse stocks in
  StronglySorted (desc wt_quantity) out
  /\ NoDup (map wt_name out)
  /\ (forall w, In w (map wt_name out) <->
                exists item, In item stocks /\ stock_warehouse item = w)
  /\ Forall (fun x =>
               let rows := warehouse_rows (wt_name x) stocks in
               wt_quantity x = sumZ (map stock_qty rows)
               /\ wt_items_count x = Z.of_nat (length rows)
               /\ 0 < wt_items_count x)
       out
  /\ sumZ (map wt_quantity out) = FetchWb.total_stock stocks
  /\ sumZ (map wt_items_count out) = Z.of_nat (length stocks)
  /\ sumZ (map sp_quantity (calculate_total_stocks_by_product rt stocks))
     = FetchWb.total_stock stocks.
Proof.
  cbn zeta. unfold FetchWb.aggregate_stocks_by_warehouse.
  set (d := fold_left FetchWb.stocks_step stocks []).
  pose proof (wb_stocks_named stocks) as Hnamed. fold d in Hnamed.
  pose proof (wb_stocks_keys stocks) as Hkeys. fold d in Hkeys.
  assert (Hnd : NoDup (keys d)) by (rewrite Hkeys; apply first_seen_NoDup).
  pose proof (sorted_desc_spec wt_quantity (values d)) as (Hperm & Hsort & _).
  assert (Hq : forall w,
             match assoc w d with Some x => wt_quantity x | None => 0 end
             = sumZ (map stock_qty (warehouse_rows w stocks))).
  { intros w. unfold d.
    rewrite (fold_left_measure
               (fun d => match assoc w d with
                         | Some x => wt_quantity x | None => 0
                         end)
               (fun item => if pystr_eqb w (stock_warehouse item)
                            then stock_qty item else 0)).
    - rewrite sumZ_filter_hits. reflexivity.
    - intros d0 item. unfold FetchWb.stocks_step.
      apply (measure_at_update wt_quantity);
        [reflexivity | intros; reflexivity]. }
  assert (Hn : forall w,
             match assoc w d with Some x => wt_items_count x | None => 0 end
             = Z.of_nat (length (warehouse_rows w stocks))).
  { intros w. unfold d.
    rewrite (fold_left_measure
               (fun d => match assoc w d with
                         | Some x => wt_items_count x | None => 0
                         end)
               (fun item => if pystr_eqb w (stock_warehouse item)
                            then 1 else 0)).
    - rewrite length_filter_hits. reflexivity.
    - intros d0 item. unfold FetchWb.stocks_step.
      apply (measure_at_update wt_items_count);
        [reflexivity | intros; reflexivity]. }
  split; [exact Hsort |].
  split.
  { rewrite (Permutation_map wt_name Hperm), (named_values _ _ Hnamed).
    exact Hnd. }
  split.
  { intros w.
    assert (E : In w (map wt_name (sorted_desc wt_quantity (values d)))
                <-> In w (map stock_warehouse stocks)).
    { rewrite <- (first_seen_In (map stock_warehouse stocks) w), <- Hkeys,
        <- (named_values _ _ Hnamed).
      split; apply Permutation_in.
      - apply Permutation_map, Hperm.
      - apply Permutation_map. symmetry. exact Hperm. }
    rewrite E, in_map_iff.
    split; intros (item & H1 & H2); exists item; auto. }
  split.
  { apply Forall_sorted_desc, List.Forall_forall. intros x Hx.
    pose proof (assoc_named wt_name d x Hnamed Hnd Hx) as Ha.
    specialize (Hq (wt_name x)). specialize (Hn (wt_name x)).
    rewrite Ha in Hq, Hn. cbn zeta.
    split; [exact Hq |]. split; [exact Hn |]. rewrite Hn.
    assert (Hk : In (wt_name x) (keys d)).
    { rewrite <- (named_values _ _ Hnamed). apply in_map, Hx. }
    rewrite Hkeys in Hk. apply first_seen_In, in_map_iff in Hk.
    destruct Hk as (item & E & Hi).
    assert (Hin : In item (warehouse_rows (wt_name x) stocks)).
    { apply filter_In. split; [exact Hi |]. rewrite E. apply pystr_eqb_refl. }
    destruct (warehouse_rows (wt_name x) stocks); [destruct Hin |].
    simpl length. lia. }
  split.
  { rewrite (sumZ_map_perm wt_quantity _ _ Hperm). unfold d.
    rewrite (fold_left_measure
               (fun d => sumZ (map wt_quantity (values d))) stock_qty);
      [reflexivity |].
    intros d0 item. unfold FetchWb.stocks_step.
    apply (sum_values_update wt_quantity);
      [reflexivity | intros; reflexivity]. }
  split.
  { rewrite (sumZ_map_perm wt_items_count _ _ Hperm). unfold d.
    rewrite (fold_left_measure
               (fun d => sumZ (map wt_items_count (values d)))
               (fun _ => 1)).
    - rewrite sumZ_ones. reflexivity.
    - intros d0 item. unfold FetchWb.stocks_step.
      apply (sum_values_update wt_items_count);
        [reflexivity | intros; reflexivity]. }
  rewrite calculate_total_stocks_eq.
  rewrite (sumZ_map_perm sp_quantity _ _ (sorted_desc_perm sp_quantity _)).
  rewrite map_map. apply stock_loop_grand_total.
Qed.

Lemma fbo_loop_kept (fbo : list FetchOzon.fbo_row) :
  fold_left FetchOzon.fbo_product_step fbo []
  = fold_left fbo_add (ozon_kept fbo) [].
Proof.
  apply (fold_skip fbo_row_of (fun q => q <=? 0)). intros st r. reflexivity.
Qed.

Lemma fbo_products_eq (fbo : list FetchOzon.fbo_row) :
  FetchOzon.aggregate_stocks_by_product_from_fbo fbo
  = sorted_desc FetchOzon.fp_quantity
      (map fbo_finish (values (fold_left fbo_add (ozon_kept fbo) []))).
Proof.
  unfold FetchOzon.aggregate_stocks_by_product_from_fbo.
  rewrite fbo_loop_kept. reflexivity.
Qed.

Lemma fbo_loop_keys (kept : list stock_row) :
  keys (fold_left fbo_add kept []) = first_seen (map sr_article kept).
Proof.
  unfold first_seen.
  assert (G : forall l d,
             keys (fold_left fbo_add l d)
             = fold_left see (map sr_article l) (keys d)).
  { induction l as [|r l IH]; intros d; [reflexivity |].
    cbn [fold_left map]. rewrite IH. unfold fbo_add.
    rewrite keys_update. reflexivity. }
  apply (G kept []).
Qed.

Lemma fbo_loop_named (kept : list stock_row) :
  named FetchOzon.fa_article (fold_left fbo_add kept []).
Proof.
  apply fold_left_inv; [constructor |].
  intros d r H. unfold fbo_add.
  apply named_update; [reflexivity | intros; reflexivity | exact H].
Qed.

Lemma fbo_loop_quantity (kept : list stock_row) (a : pystr) :
  match assoc a (fold_left fbo_add kept []) with
  | Some p => FetchOzon.fa_quantity p
  | None => 0
  end
  = sumZ (map sr_qty (rows_with a kept)).
Proof.
  rewrite (fold_left_measure
             (fun d => match assoc a d with
                       | Some p => FetchOzon.fa_quantity p | None => 0
                       end)
             (fun r => if pystr_eqb a (sr_article r) then sr_qty r else 0)).
  - rewrite sumZ_filter_hits. reflexivity.
  - intros d r. unfold fbo_add.
    apply (measure_at_update FetchOzon.fa_quantity);
      [reflexivity | intros; reflexivity].
Qed.

Lemma fbo_loop_warehouses (kept : list stock_row) (a w : pystr) :
  w ∈ warehouses_at (fold_left fbo_add kept []) a
  <-> In w (map sr_wh (rows_with a kept)).
Proof.
  assert (S : forall d r,
             warehouses_at (fbo_add d r) a
             = if pystr_eqb a (sr_article r)
               then {[ sr_wh r ]} ∪ warehouses_at d a
               else warehouses_at d a).
  { intros d r. unfold warehouses_at, fbo_add. rewrite assoc_update.
    destruct (pystr_eqb a (sr_article r)) eqn:E; [| reflexivity].
    apply pystr_eqb_eq in E. subst a.
    destruct (assoc (sr_article r) d); reflexivity. }
  assert (G : forall l (s : gset pystr),
             w ∈ fold_left (fun s r => if pystr_eqb a (sr_article r)
                                       then {[ sr_wh r ]} ∪ s else s) l s
             <-> w ∈ s \/ In w (map sr_wh (rows_with a l))).
  { induction l as [|r l IH]; intros s; cbn [fold_left].
    - simpl. tauto.
    - rewrite IH. unfold rows_with. cbn [List.filter].
      destruct (pystr_eqb a (sr_article r)); [| reflexivity].
      cbn [map In]. rewrite elem_of_union, elem_of_singleton.
      split; [intros [[-> | H] | H] | intros [H | [<- | H]]]; auto. }
  rewrite (fold_left_project (fun d => warehouses_at d a) fbo_add
             (fun (s : gset pystr) r =>
                if pystr_eqb a (sr_article r) then {[ sr_wh r ]} ∪ s else s))
    by exact S.
  rewrite G. unfold warehouses_at. cbn [assoc]. rewrite elem_of_empty. tauto.
Qed.

Lemma size_first_seen (s : gset pystr) (l : list pystr) :
  (forall x, x ∈ s <-> In x l) -> size s = length (first_seen l).
Proof.
  intros H. unfold size, set_size. simpl. apply Permutation_length.
  apply NoDup_Permutation;
    [apply NoDup_elements | apply first_seen_NoDup |].
  intros x. rewrite elem_of_elements, H, list_elem_of_In, first_seen_In.
  reflexivity.
Qed.

Lemma first_seen_length (l : list pystr) :
  (length (first_seen l) <= length l)%nat
  /\ (l <> [] -> (1 <= length (first_seen l))%nat).
Proof.
  split.
  - apply submseteq_length, NoDup_submseteq; [apply first_seen_NoDup |].
    intros x. rewrite !list_elem_of_In. apply first_seen_In.
  - intros Hne. destruct l as [|x l]; [congruence |].
    assert (Hin : In x (first_seen (x :: l)))
      by (apply first_seen_In; left; reflexivity).
    destruct (first_seen (x :: l)); [destruct Hin | simpl; lia].
Qed.

(** X23: [aggregate_stocks_by_product_from_fbo] of the Ozon fetcher
    returns one line per article of the rows with a positive quantity, in
    descending order of quantity; the quantity of a line is the sum of these
    rows and is positive; [warehouses_count] is the number of distinct
    warehouses among them, at least 1.  The articles are those of
    [all_articles], and the quantities add up to [total_stock], both
    computed by [aggregate_stocks_warehouse_products] from the same rows. *)
Theorem ozon_stock_products (fbo : list FetchOzon.fbo_row) :
  let out := FetchOzon.aggregate_stocks_by_product_from_fbo fbo in
  let chart_input := FetchOzon.aggregate_stocks_warehouse_products fbo in
  let kept := ozon_kept fbo in
  StronglySorted (desc FetchOzon.fp_quantity) out
  /\ NoDup (map FetchOzon.fp_article out)
  /\ (forall a, In a (map FetchOzon.fp_article out) <->
                exists r, In r kept /\ sr_article r = a)
  /\ Forall (fun p =>
               let mine := rows_with (FetchOzon.fp_article p) kept in
               FetchOzon.fp_quantity p = sumZ (map sr_qty mine)
               /\ 0 < FetchOzon.fp_quantity p
               /\ FetchOzon.fp_warehouses_count p
                  = Z.of_nat (length (first_seen (map sr_wh mine)))
               /\ 1 <= FetchOzon.fp_warehouses_count p
                  <= Z.of_nat (length mine))
       out
  /\ (forall a, In a (map FetchOzon.fp_article out) <->
                In a (snd chart_input))
  /\ sumZ (map FetchOzon.fp_quantity out)
     = FetchOzon.total_stock (fst chart_input).
Proof.
  cbn zeta. rewrite fbo_products_eq, ozon_wp_eq. cbn [fst snd].
  set (kept := ozon_kept fbo).
  set (d := fold_left fbo_add kept []).
  pose proof (fbo_loop_named kept) as Hnamed. fold d in Hnamed.
  pose proof (fbo_loop_keys kept) as Hkeys. fold d in Hkeys.
  assert (Hnd : NoDup (keys d)) by (rewrite Hkeys; apply first_seen_NoDup).
  pose proof (sorted_desc_spec FetchOzon.fp_quantity
                (map fbo_finish (values d))) as (Hperm & Hsort & _).
  assert (Hart : map FetchOzon.fp_article (map fbo_finish (values d))
                 = first_seen (map sr_article kept)).
  { rewrite map_map.
    etransitivity; [apply (named_values FetchOzon.fa_article _ Hnamed) |].
    exact Hkeys. }
  assert (Hmem : forall a,
             In a (map FetchOzon.fp_article
                     (sorted_desc FetchOzon.fp_quantity
                        (map fbo_finish (values d))))
             <-> exists r, In r kept /\ sr_article r = a).
  { intros a.
    assert (E : In a (map FetchOzon.fp_article
                        (sorted_desc FetchOzon.fp_quantity
                           (map fbo_finish (values d))))
                <-> In a (map sr_article kept)).
    { rewrite <- (first_seen_In (map sr_article kept) a), <- Hart.
      split; apply Permutation_in.
      - apply Permutation_map, Hperm.
      - apply Permutation_map. symmetry. exact Hperm. }
    rewrite E, in_map_iff.
    split; intros (r & H1 & H2); exists r; auto. }
  split; [exact Hsort |].
  split.
  { rewrite (Permutation_map FetchOzon.fp_article Hperm), Hart.
    apply first_seen_NoDup. }
  split; [exact Hmem |].
  split.
  { apply Forall_sorted_desc, List.Forall_map, List.Forall_forall.
    intros p Hp. cbn [fbo_finish FetchOzon.fp_article FetchOzon.fp_quantity
      FetchOzon.fp_warehouses_count].
    pose proof (assoc_named FetchOzon.fa_article d p Hnamed Hnd Hp) as Ha.
    pose proof (fbo_loop_quantity kept (FetchOzon.fa_article p)) as Hq.
    fold d in Hq. rewrite Ha in Hq.
    assert (Hne : rows_with (FetchOzon.fa_article p) kept <> []).
    { assert (Hk : In (FetchOzon.fa_article p) (keys d)).
      { rewrite <- (named_values _ _ Hnamed). apply in_map, Hp. }
      rewrite Hkeys in Hk. apply first_seen_In, in_map_iff in Hk.
      destruct Hk as (r & E & Hr).
      assert (Hin : In r (rows_with (FetchOzon.fa_article p) kept)).
      { apply filter_In. split; [exact Hr |]. rewrite E.
        apply pystr_eqb_refl. }
      intros Hnil. rewrite Hnil in Hin. exact Hin. }
    assert (Hsize : size (FetchOzon.fa_warehouses p)
                    = length (first_seen
                                (map sr_wh
                                   (rows_with (FetchOzon.fa_article p) kept)))).
    { apply size_first_seen. intros w.
      rewrite <- (fbo_loop_warehouses kept). fold d. unfold warehouses_at.
      rewrite Ha. reflexivity. }
    split; [exact Hq |].
    split.
    { rewrite Hq. apply sumZ_positive; [exact Hne |].
      apply List.Forall_forall. intros r Hr. apply filter_In in Hr.
      destruct Hr as [Hr _].
      pose proof (ozon_kept_positive fbo) as Hpos.
      rewrite List.Forall_forall in Hpos. apply Hpos, Hr. }
    split; [rewrite Hsize; reflexivity |].
    rewrite Hsize.
    destruct (first_seen_length
                (map sr_wh (rows_with (FetchOzon.fa_article p) kept)))
      as (Hle & Hge).
    rewrite length_map in Hle.
    assert (map sr_wh (rows_with (FetchOzon.fa_article p) kept) <> []).
    { destruct (rows_with (FetchOzon.fa_article p) kept);
        [congruence | discriminate]. }
    specialize (Hge H). lia. }
  split.
  { intros a. rewrite Hmem.
    destruct (sorted_articles (snd (fold_left add_row kept ([], ∅))))
      as (_ & Hs).
    rewrite Hs. symmetry. apply wp_loop_articles. }
  rewrite (sumZ_map_perm FetchOzon.fp_quantity _ _ Hperm), map_map.
  cbn [fbo_finish FetchOzon.fp_quantity].
  unfold FetchOzon.total_stock.
  rewrite (sumZ_map_perm wa_total _ _ (sorted_desc_perm wa_total _)).
  rewrite wp_loop_grand_total. unfold d.
  rewrite (fold_left_measure
             (fun d => sumZ (map (fun x => FetchOzon.fa_quantity x)
                               (values d))) sr_qty);
    [reflexivity |].
  intros d0 r. unfold fbo_add.
  apply (sum_values_update (fun x => FetchOzon.fa_quantity x));
    [reflexivity | intros; reflexivity].
Qed.

(** ** From the fetchers to the dashboard *)

Lemma wb_result_eq (stocks : list raw_stock) (orders : list order)
  (sales : list wb_sale) :
  let out := FetchWb.aggregate_stocks_by_warehouse_and_product stocks in
  wb_result stocks orders sales
  = {| wb_total_stock_value := Some (FetchWb.total_stock stocks);
       wb_stocks_by_warehouse :=
         Some (map wh_total_json (FetchWb.aggregate_stocks_by_warehouse stocks));
       wb_raw_stocks := Some stocks;
       wb_stocks_warehouse_products := Some (map as_stock_wh (fst out));
       wb_all_articles := Some (snd out);
       wb_raw_orders := Some orders;
       wb_raw_sales := Some sales |}.
Proof.
  cbn zeta. unfold wb_result.
  destruct (FetchWb.aggregate_stocks_by_warehouse_and_product stocks).
  reflexivity.
Qed.

Lemma ozon_result_eq (fbo : list FetchOzon.fbo_row) (orders : list order)
  (finance_redemptions : list ozon_txn) :
  let out := FetchOzon.aggregate_stocks_warehouse_products fbo in
  ozon_result fbo orders finance_redemptions
  = {| oz_total_stock_value := Some (FetchOzon.total_stock (fst out));
       oz_stocks_by_warehouse :=
         Some (map ozon_wh_total_json (FetchOzon.stocks_by_warehouse (fst out)));
       oz_stocks_by_product :=
         Some (map fbo_product_item
                 (FetchOzon.aggregate_stocks_by_product_from_fbo fbo));
       oz_stocks_warehouse_products := Some (map as_stock_wh (fst out));
       oz_all_articles := Some (snd out);
       oz_raw_orders := Some orders;
       oz_finance_redemptions := Some finance_redemptions |}.
Proof.
  cbn zeta. unfold ozon_result.
  destruct (FetchOzon.aggregate_stocks_warehouse_products fbo).
  reflexivity.
Qed.

(** X24: the dashboard that [prepare] writes from the document of the WB
    fetcher; the run raises only when the Ozon file aborts it.  The WB
    stock figure of the summary is the sum of
    [quantityFull] over the stock rows, and the quantities of the product
    lines under [stocks.wb.by_product] add up to it; [by_warehouse] holds
    the first 15 warehouse lines of the fetcher, an initial segment of a
    list in descending order of quantity; the chart is built from the
    fetcher's warehouses and articles; and the orders counted in the
    30-day window are at most the orders fetched. *)
Theorem wb_pipeline (rt : runtime) (today : date) (stocks : list raw_stock)
  (orders : list order) (sales : list wb_sale) (ozf : file_state ozon_raw) :
  match prepare rt today (Parsed (wb_result stocks orders sales)) ozf with
  | Raises _ => aborts ozf
  | Returns d =>
    let out := FetchWb.aggregate_stocks_by_warehouse_and_product stocks in
    exists s,
      stocks_wb d = Some s
      /\ sum_wb_stocks (dsummary d) = sumZ (map stock_qty stocks)
      /\ sumZ (map sp_quantity (ws_by_product s)) = sum_wb_stocks (dsummary d)
      /\ ws_by_warehouse s
         = map wh_total_json
             (take 15 (FetchWb.aggregate_stocks_by_warehouse stocks))
      /\ StronglySorted (desc wt_quantity)
           (take 15 (FetchWb.aggregate_stocks_by_warehouse stocks))
      /\ ws_all_articles s = snd out
      /\ ws_chart_data s
         = build_chart_data rt wb (map as_stock_wh (fst out)) (snd out)
      /\ 0 <= figure orders_of pd_wb d (u "days_30")
         <= Z.of_nat (length orders)
  end.
Proof.
  pose proof (prepare_outcome rt today
                (Parsed (wb_result stocks orders sales)) ozf) as H.
  destruct (prepare rt today (Parsed (wb_result stocks orders sales)) ozf)
    as [d|e]; [| destruct H as [[] | H]; exact H].
  destruct H as (_ & _ & ->). cbn [data_of]. cbn zeta.
  destruct (fill_rest rt today (Some (wb_result stocks orders sales))
              (data_of ozf)) as (_ & _ & Hw & _).
  exists (build_wb_stocks rt (wb_result stocks orders sales)).
  split; [exact Hw |].
  rewrite fill_summary. cbn [sum_wb_stocks].
  rewrite (figure_wb orders_of) by (simpl; auto 10).
  rewrite wb_result_eq. unfold build_wb_stocks.
  cbn [wb_total_stock_value wb_stocks_by_warehouse wb_raw_stocks
       wb_stocks_warehouse_products wb_all_articles wb_raw_orders
       wb_raw_sales default ws_by_product ws_by_warehouse ws_all_articles
       ws_chart_data].
  unfold id.
  split; [reflexivity |].
  split.
  { rewrite calculate_total_stocks_eq.
    rewrite (sumZ_map_perm sp_quantity _ _ (sorted_desc_perm sp_quantity _)).
    rewrite map_map. apply stock_loop_grand_total. }
  split; [apply take_map |].
  split; [apply StronglySorted_take, sorted_desc_sorted |].
  split; [reflexivity |]. split; [reflexivity |].
  unfold orders_of, wb_period_result. cbn [agg wb_raw_orders default].
  rewrite orders_count_length, sumZ_ones. split; [lia |].
  apply Nat2Z.inj_le. unfold filter_period.
  apply sublist_length, filter_sublist.
Qed.

(** X25: the dashboard that [prepare] writes from the document of the Ozon
    fetcher; the run raises only when the WB file aborts it.  The Ozon
    stock figure of the summary is the sum of the
    positive [free_to_sell_amount] of the FBO rows; the items under
    [stocks.ozon.by_product] are the product lines of the fetcher, each with
    the color of its article; when there is a chart, every article has its
    dataset, the cluster totals add up to the values of the datasets and to
    the stock figure of the summary; there is no chart only when that
    figure is 0. *)
Theorem ozon_pipeline (rt : runtime) (today : date)
  (fbo : list FetchOzon.fbo_row) (orders : list order)
  (finance_redemptions : list ozon_txn) (wbf : file_state wb_raw) :
  match
    prepare rt today wbf (Parsed (ozon_result fbo orders finance_redemptions))
  with
  | Raises _ => aborts wbf
  | Returns d =>
    exists s,
      stocks_ozon d = Some s
      /\ sum_ozon_stocks (dsummary d) = sumZ (map sr_qty (ozon_kept fbo))
      /\ os_by_product s
         = map (fun p => (fbo_product_item p,
                          get_article_color rt (FetchOzon.fp_article p)))
             (FetchOzon.aggregate_stocks_by_product_from_fbo fbo)
      /\ match os_chart_data s with
         | Some chart =>
           map label (datasets chart) = os_all_articles s
           /\ totals_agree chart
           /\ sumZ (map total_stock (clusters chart))
              = sum_ozon_stocks (dsummary d)
         | None => sum_ozon_stocks (dsummary d) = 0
         end
  end.
Proof.
  pose proof (prepare_outcome rt today wbf
                (Parsed (ozon_result fbo orders finance_redemptions))) as H.
  destruct (prepare rt today wbf
              (Parsed (ozon_result fbo orders finance_redemptions)))
    as [d|e]; [| destruct H as [H | []]; exact H].
  destruct H as (_ & _ & ->). cbn [data_of].
  destruct (fill_rest rt today (data_of wbf)
              (Some (ozon_result fbo orders finance_redemptions)))
    as (_ & _ & _ & Ho).
  exists (build_ozon_stocks rt (ozon_result fbo orders finance_redemptions)).
  split; [exact Ho |].
  rewrite fill_summary. cbn [sum_ozon_stocks].
  rewrite ozon_result_eq. unfold build_ozon_stocks.
  cbn [oz_total_stock_value oz_stocks_by_warehouse oz_stocks_by_product
       oz_stocks_warehouse_products oz_all_articles default os_by_product
       os_by_warehouse os_all_articles os_chart_data].
  unfold id. rewrite ozon_wp_eq. cbn [fst snd].
  pose proof (wp_contract_sorted (ozon_kept fbo)) as Hc. cbn zeta in Hc.
  pose proof (wp_names_complete (ozon_kept fbo)) as Hn.
  assert (Ht : FetchOzon.total_stock
                 (sorted_desc wa_total
                    (values (fst (fold_left add_row (ozon_kept fbo) ([], ∅)))))
               = sumZ (map sr_qty (ozon_kept fbo))).
  { unfold FetchOzon.total_stock.
    rewrite (sumZ_map_perm wa_total _ _ (sorted_desc_perm wa_total _)).
    apply wp_loop_grand_total. }
  set (whs := sorted_desc wa_total _) in *.
  set (arts := sorted_str _) in *.
  split; [exact Ht |].
  split; [apply map_map |].
  destruct (build_chart_data rt ozon (map as_stock_wh whs) arts)
    as [chart|] eqn:Hb.
  - destruct (chart_of_kept _ _ _ _ _ _ Hc (ozon_kept_positive fbo) Hb)
      as (H1 & H2 & H3).
    split; [| split; [exact H1 | exact H2]].
    apply H3. intros r Hr. apply Hn. exists r. auto.
  - rewrite Ht.
    destruct (ozon_kept fbo) as [|r rs] eqn:E; [reflexivity |]. exfalso.
    apply build_chart_data_None in Hb. destruct Hb as [Hb | Hb].
    + assert (Hin : In (sr_wh r) (map wa_name whs))
        by (apply Hn; exists r; split; [left |]; reflexivity).
      destruct whs; [exact Hin | discriminate Hb].
    + destruct Hc as (_ & Ha & _).
      assert (Hin : In (sr_article r) arts)
        by (apply Ha; exists r; split; [left |]; reflexivity).
      rewrite Hb in Hin. exact Hin.
Qed.

(** X26: when [prepare] returns its document (it raises only on a file
    that aborts the run), [total_sales_today] of the summary is the sum of
    the values of the orders of the "today" window, the WB orders at
    [priceWithDisc] and the Ozon postings at price times quantity over their
    [financial_data.products]; a marketplace whose file gave no object
    contributes 0. *)
Theorem total_sales_today_is_the_sum (rt : runtime) (today : date)
  (wbf : file_state wb_raw) (ozf : file_state ozon_raw) :
  match prepare rt today wbf ozf with
  | Raises _ => aborts wbf \/ aborts ozf
  | Returns d =>
    total_sales_today (dsummary d)
    = match data_of wbf with
      | Some w =>
        sumZ (map (order_value wb)
                (filter_period rt today (window (u "today")) order_date_wb
                   (default [] (wb_raw_orders w))))
      | None => 0
      end
      + match data_of ozf with
        | Some o =>
          sumZ (map (order_value ozon)
                  (filter_period rt today (window (u "today")) created_at
                     (default [] (oz_raw_orders o))))
        | None => 0
        end
  end.
Proof.
  pose proof (prepare_outcome rt today wbf ozf) as H.
  destruct (prepare rt today wbf ozf) as [d|e]; [| exact H].
  destruct H as (_ & _ & ->).
  rewrite fill_summary. cbn [total_sales_today].
  rewrite (figure_wb revenue_of), (figure_ozon revenue_of)
    by (simpl; auto 10).
  f_equal.
  - destruct (data_of wbf) as [w|]; [| reflexivity].
    unfold revenue_of, wb_period_result. cbn [agg].
    exact (proj1 (agg_loop_revenue wb _)).
  - destruct (data_of ozf) as [o|]; [| reflexivity].
    unfold revenue_of, ozon_period_result. cbn [agg].
    exact (proj1 (agg_loop_revenue ozon _)).
Qed.
